(** * SP Global report parser: a shallow embedding and its properties

    The development follows [SPGlobal_CombinedParser.py].  Python values are
    modelled as the code uses them:

    - [str] is [string]; the model covers ASCII text (bytes above 127 are
      opaque characters: not white space, not digits, no case);
    - [int] is [Z], [float] is the kernel's binary64 [float];
    - [None] is [option]'s [None];
    - a raised exception is the [Raise] case of [result];
    - an [ET.Element] tree is reduced to what the parser reads from it:
      a worksheet has a name attribute and rows, a row has cells, a cell has
      an optional [ss:Index] attribute and an optional [ss:Data] child.

    The built-ins [float(str)] and [round(x, 1)] are not re-implemented:
    they are the two fields of the class [Builtins], and every statement
    holds for all instances. *)

From Stdlib Require Import ZArith String Ascii List Bool Lia Floats Uint63.
From Stdlib Require Import Permutation.
From stdpp Require Import gmap strings list fin_maps.

Open Scope Z_scope.

(* Decimal float literals denote the nearest binary64 value, as in Python. *)
Set Warnings "-inexact-float".

(** ** Exceptions *)

Inductive exn : Type :=
| ValueError
| KeyError
| IndexError
| AttributeError
| ParseError.

Inductive result (A : Type) : Type :=
| Ok (a : A)
| Raise (e : exn).

Arguments Ok {A} a.
Arguments Raise {A} e.

#[global] Instance exn_eq_dec : EqDecision exn.
Proof. solve_decision. Defined.

#[global] Instance result_eq_dec {A} `{EqDecision A} : EqDecision (result A).
Proof. solve_decision. Defined.

#[global] Instance result_ret : MRet result := fun _ a => Ok a.

#[global] Instance result_bind : MBind result := fun _ _ f m =>
  match m with
  | Ok a => f a
  | Raise e => Raise e
  end.

#[global] Instance result_fmap : FMap result := fun _ _ f m =>
  match m with
  | Ok a => Ok (f a)
  | Raise e => Raise e
  end.

(** [try: body; except Exception: handler] *)
Definition try_except {A} (body : result A) (handler : exn -> result A) : result A :=
  match body with
  | Ok a => Ok a
  | Raise e => handler e
  end.

(** ** Strings *)

Module Str.

(** [str.isspace] on one ASCII character: TAB..CR, FS..US and the space. *)
Definition isspace (c : ascii) : bool :=
  let n := N_of_ascii c in
  ((9 <=? n) && (n <=? 13) || (28 <=? n) && (n <=? 32))%N.

Fixpoint rev_onto (s acc : string) : string :=
  match s with
  | EmptyString => acc
  | String c s' => rev_onto s' (String c acc)
  end.

Definition rev (s : string) : string := rev_onto s EmptyString.

Fixpoint lstrip (s : string) : string :=
  match s with
  | EmptyString => EmptyString
  | String c s' => if isspace c then lstrip s' else s
  end.

Definition rstrip (s : string) : string := rev (lstrip (rev s)).

(** [s.strip()] *)
Definition strip (s : string) : string := rstrip (lstrip s).

(** The white space the number parsers skip: TAB..CR and the space. *)
Definition isspace_c (c : ascii) : bool :=
  let n := N_of_ascii c in
  ((9 <=? n) && (n <=? 13) || (n =? 32))%N.

Fixpoint lstrip_c (s : string) : string :=
  match s with
  | EmptyString => EmptyString
  | String c s' => if isspace_c c then lstrip_c s' else s
  end.

Definition strip_c (s : string) : string := rev (lstrip_c (rev (lstrip_c s))).

Definition upper_char (c : ascii) : ascii :=
  let n := N_of_ascii c in
  if ((97 <=? n) && (n <=? 122))%N then ascii_of_N (n - 32) else c.

(** [s.upper()] *)
Fixpoint upper (s : string) : string :=
  match s with
  | EmptyString => EmptyString
  | String c s' => String (upper_char c) (upper s')
  end.

(** [s.startswith(p)] *)
Definition startswith (p s : string) : bool := String.prefix p s.

(** [s.endswith(p)] *)
Definition endswith (p s : string) : bool := String.prefix (rev p) (rev s).

(** [needle in hay] *)
Fixpoint contains (needle hay : string) : bool :=
  String.prefix needle hay ||
  match hay with
  | EmptyString => false
  | String _ hay' => contains needle hay'
  end.

(** [s.replace(c, '')] for a one-character [c] *)
Fixpoint remove_char (c : ascii) (s : string) : string :=
  match s with
  | EmptyString => EmptyString
  | String d s' => if Ascii.eqb c d then remove_char c s' else String d (remove_char c s')
  end.

Definition drop_first (s : string) : string :=
  match s with
  | EmptyString => EmptyString
  | String _ s' => s'
  end.

(** [s[1:-1]] *)
Definition slice_1_m1 (s : string) : string := rev (drop_first (rev (drop_first s))).

Fixpoint lstrip_char (c : ascii) (s : string) : string :=
  match s with
  | EmptyString => EmptyString
  | String d s' => if Ascii.eqb c d then lstrip_char c s' else s
  end.

(** [s.strip(c)] for a one-character [c] *)
Definition strip_char (c : ascii) (s : string) : string :=
  rev (lstrip_char c (rev (lstrip_char c s))).

(** Truth value of a string: non-empty. *)
Definition truthy (s : string) : bool :=
  match s with
  | EmptyString => false
  | String _ _ => true
  end.

Definition digit_val (c : ascii) : option Z :=
  let n := N_of_ascii c in
  if ((48 <=? n) && (n <=? 57))%N then Some (Z.of_N n - 48) else None.

Definition is_digit (c : ascii) : bool :=
  match digit_val c with Some _ => true | None => false end.

Fixpoint all_digits (s : string) : bool :=
  match s with
  | EmptyString => true
  | String c s' => is_digit c && all_digits s'
  end.

(** [s.isdigit()]: every character is a digit and there is at least one. *)
Definition isdigit (s : string) : bool := truthy s && all_digits s.

(** Digits of an integer literal, where single underscores may separate
    digits; [prev] tells whether the previous character was a digit. *)
Fixpoint int_digits (s : string) (acc : Z) (prev : bool) : option Z :=
  match s with
  | EmptyString => if prev then Some acc else None
  | String c s' =>
      if Ascii.eqb c "_"%char then
        if prev then int_digits s' acc false else None
      else
        match digit_val c with
        | Some d => int_digits s' (10 * acc + d) true
        | None => None
        end
  end.

End Str.

(** [int(s)] on a string: surrounding white space (of the C kind: TAB..CR
    and the space), an optional sign, decimal digits; anything else raises
    [ValueError]. *)
Definition py_int (s : string) : result Z :=
  let s := Str.strip_c s in
  let '(neg, body) :=
    match s with
    | String "-"%char r => (true, r)
    | String "+"%char r => (false, r)
    | _ => (false, s)
    end in
  match Str.int_digits body 0 false with
  | Some n => Ok (if neg then - n else n)
  | None => Raise ValueError
  end.

(** ** The built-ins left abstract *)

Class Builtins : Type := {
  (** [float(s)]; [None] stands for [ValueError] *)
  py_float : string -> option float;
  (** [round(x, 1)] *)
  py_round1 : float -> float
}.

(** ** Spreadsheet elements *)

(** An [ss:Data] element: its [.text]. *)
Record Data : Type := { text : option string }.

(** An [ss:Cell] element: the [ss:Index] attribute and the first [ss:Data]
    child. *)
Record Cell : Type := { Index : option string; data : option Data }.

(** An [ss:Row] element: [findall('ss:Cell')]. *)
Definition Row : Type := list Cell.

(** An [ss:Worksheet] element: the [ss:Name] attribute and
    [findall('.//ss:Row')]. *)
Record Worksheet : Type := { Name : option string; Rows : list Row }.

(** ** Utility functions *)

(** [data_element.text.strip()] when the cell has a data child with
    non-empty text, [None] otherwise. *)
Definition cell_text (cell : Cell) : option string :=
  match data cell with
  | Some d =>
      match text d with
      | Some t => if Str.truthy t then Some (Str.strip t) else None
      | None => None
      end
  | None => None
  end.

(** The column a cell sits in, given the running index: the index
    attribute when there is a non-empty one, else the running index. *)
Definition cell_column (cell : Cell) (current_index : Z) : result Z :=
  match Index cell with
  | Some idx_attr => if Str.truthy idx_attr then py_int idx_attr else Ok current_index
  | None => Ok current_index
  end.

Fixpoint get_cell_data_from (cells : list Cell) (current_index cell_index : Z)
  : result (option string) :=
  match cells with
  | [] => Ok None
  | cell :: cells' =>
      current_index ← cell_column cell current_index;
      if current_index =? cell_index then Ok (cell_text cell)
      else get_cell_data_from cells' (current_index + 1) cell_index
  end.

(** [get_cell_data(row_element, cell_index, ns)]; rows are never [None] at
    the call sites, column indices may be. *)
Definition get_cell_data (row_element : Row) (cell_index : option Z) : result (option string) :=
  match cell_index with
  | None => Ok None
  | Some k => get_cell_data_from row_element 1 k
  end.

(** [clean_numeric(value)]; the only call that can raise inside the [try]
    is [float], whose [ValueError] is turned into [None]. *)
Definition clean_numeric `{Builtins} (value : option string) : option float :=
  match value with
  | None => None
  | Some value =>
      let value := Str.strip value in
      if Str.contains "XXX" (Str.upper value) || String.eqb value "" || String.eqb value "NA"
      then None
      else
        let value :=
          if Str.startswith "(" value && Str.endswith ")" value
          then String "-"%char (Str.slice_1_m1 value)
          else value in
        py_float (Str.remove_char ","%char value)
  end.

Inductive ReportType : Type := Page19 | ScheduleP.

(** The two [if ... in text: return ...] tests on one cell text. *)
Definition report_marker (cell_text : option string) : option ReportType :=
  match cell_text with
  | Some t =>
      if Str.truthy t then
        let text := Str.upper t in
        if Str.contains "EXHIBIT OF PREMIUMS AND LOSSES" text then Some Page19
        else if Str.contains "SCHEDULE P - PART 1" text then Some ScheduleP
        else None
      else None
  | None => None
  end.

(** The inner loop [for i in range(1, 5)] over the remaining columns. *)
Fixpoint report_type_cols (row : Row) (cols : list Z) : result (option ReportType) :=
  match cols with
  | [] => Ok None
  | i :: cols' =>
      cell_text ← get_cell_data row (Some i);
      match report_marker cell_text with
      | Some t => Ok (Some t)
      | None => report_type_cols row cols'
      end
  end.

(** The outer loop over the remaining rows. *)
Fixpoint report_type_rows (rows : list Row) : result (option ReportType) :=
  match rows with
  | [] => Ok None
  | row :: rows' =>
      r ← report_type_cols row [1; 2; 3; 4];
      match r with
      | Some t => Ok (Some t)
      | None => report_type_rows rows'
      end
  end.

(** [identify_report_type(rows, ns)] *)
Definition identify_report_type (rows : list Row) : result (option ReportType) :=
  report_type_rows (take 5 rows).

(** ** The header pattern

    [re.search(r"(\d{4}) OF THE (.*?) ?(?:\(NAIC #(\S+)\))?$", s)], written
    as the backtracking search proceeds.  The result holds groups 1, 2
    and 3. *)

Module Header.

Definition newline : ascii := ascii_of_N 10.

(** [$]: at the end of the string, or just before a final newline. *)
Definition at_end (t : string) : bool :=
  String.eqb t "" || String.eqb t (String newline "").

Fixpoint nonspace_run (t : string) : nat :=
  match t with
  | EmptyString => 0%nat
  | String c t' => if Str.isspace c then 0%nat else S (nonspace_run t')
  end.

(** Group 3 is tried with [n] characters, longest first; it must be
    followed by a closing parenthesis and then [$]. *)
Fixpoint naic_backtrack (n : nat) (r : string) : option string :=
  match n with
  | O => None
  | S n' =>
      if match String.get n r with Some c => Ascii.eqb c ")"%char | None => false end
         && at_end (String.substring (S n) (String.length r - S n) r)
      then Some (String.substring 0 n r)
      else naic_backtrack n' r
  end.

(** [\(NAIC #(\S+)\)$] at [t]. *)
Definition naic_suffix (t : string) : option string :=
  if String.prefix "(NAIC #" t then
    let r := String.substring 7 (String.length t - 7) t in
    naic_backtrack (nonspace_run r) r
  else None.

(** [(?:\(NAIC #(\S+)\))?$] at [u]: the group first, then without it. *)
Definition opt_naic_end (u : string) : option (option string) :=
  match naic_suffix u with
  | Some x => Some (Some x)
  | None => if at_end u then Some None else None
  end.

(** [ ?(?:\(NAIC #(\S+)\))?$] at [t]: with the space taken first. *)
Definition tail_match (t : string) : option (option string) :=
  match t with
  | String " "%char t' =>
      match opt_naic_end t' with
      | Some r => Some r
      | None => opt_naic_end t
      end
  | _ => opt_naic_end t
  end.

(** [(.*?)] followed by the tail: the shortest company text first; the dot
    does not match a newline.  [acc] is group 2 so far, reversed. *)
Fixpoint lazy_company (t acc : string) : option (string * option string) :=
  match tail_match t with
  | Some g3 => Some (Str.rev acc, g3)
  | None =>
      match t with
      | EmptyString => None
      | String c t' =>
          if Ascii.eqb c newline then None else lazy_company t' (String c acc)
      end
  end.

(** A match that starts at the first character of [s]. *)
Definition match_here (s : string) : option (string * string * option string) :=
  let y := String.substring 0 4 s in
  if (String.length y =? 4)%nat && Str.all_digits y
     && String.prefix " OF THE " (String.substring 4 (String.length s - 4) s)
  then
    match lazy_company (String.substring 12 (String.length s - 12) s) "" with
    | Some (company, naic) => Some (y, company, naic)
    | None => None
    end
  else None.

(** The leftmost start position wins. *)
Fixpoint search (s : string) : option (string * string * option string) :=
  match match_here s with
  | Some m => Some m
  | None =>
      match s with
      | EmptyString => None
      | String _ s' => search s'
      end
  end.

End Header.

(** ** Python values and record dictionaries *)

#[global] Instance float_eq_dec : EqDecision float.
Proof.
  intros x y. destruct (PrimFloat.Leibniz.eqb x y) eqn:E.
  - left. apply FloatAxioms.Leibniz.eqb_spec. exact E.
  - right. intros H. apply FloatAxioms.Leibniz.eqb_spec in H. congruence.
Defined.

Inductive pyval : Type :=
| VNone
| VInt (z : Z)
| VStr (s : string)
| VFloat (f : float).

#[global] Instance pyval_eq_dec : EqDecision pyval.
Proof. solve_decision. Defined.

(** A dictionary with string keys, in insertion order. *)
Definition dict : Type := list (string * pyval).

Fixpoint dict_get (k : string) (d : dict) : option pyval :=
  match d with
  | [] => None
  | (k', v) :: d' => if String.eqb k k' then Some v else dict_get k d'
  end.

Definition of_float (x : option float) : pyval :=
  match x with
  | Some f => VFloat f
  | None => VNone
  end.

(** [x or 0] for [x] a float or [None]: a float is false when it equals
    zero. *)
Definition or_zero (x : option float) : pyval :=
  match x with
  | Some f => if PrimFloat.eqb f 0%float then VInt 0 else VFloat f
  | None => VInt 0
  end.

(** [float(z)], exact below [2^53]. *)
Definition float_of_Z (z : Z) : float :=
  match z with
  | Z0 => 0%float
  | Zpos _ => PrimFloat.of_uint63 (Uint63.of_Z z)
  | Zneg _ => PrimFloat.opp (PrimFloat.of_uint63 (Uint63.of_Z (- z)))
  end.

(** [a + b] on numbers. *)
Definition py_add (a b : pyval) : pyval :=
  match a, b with
  | VInt x, VInt y => VInt (x + y)
  | VInt x, VFloat g => VFloat (PrimFloat.add (float_of_Z x) g)
  | VFloat f, VInt y => VFloat (PrimFloat.add f (float_of_Z y))
  | VFloat f, VFloat g => VFloat (PrimFloat.add f g)
  | _, _ => VNone
  end.

(** [m[k]] on a dictionary: [KeyError] when the key is absent. *)
Definition getitem {V} (m : gmap string V) (k : string) : result V :=
  match m !! k with
  | Some v => Ok v
  | None => Raise KeyError
  end.

(** [l[i]] on a list for [i >= 0]: [IndexError] past the end. *)
Definition list_item {A} (l : list A) (i : nat) : result A :=
  match l !! i with
  | Some a => Ok a
  | None => Raise IndexError
  end.

Definition opt_str_eqb (o : option string) (s : string) : bool :=
  match o with
  | Some t => String.eqb t s
  | None => false
  end.

(** ** Page 19 (premium exhibit) *)

(** The walk over the cells of the number row. *)
Fixpoint number_row_scan (cells : list Cell) (current_index : Z) (m : gmap Z Z)
  : result (gmap Z Z) :=
  match cells with
  | [] => Ok m
  | cell :: cells' =>
      current_index ← cell_column cell current_index;
      m ← match cell_text cell with
          | Some t =>
              if Str.isdigit t then num ← py_int t; Ok (<[num := current_index]> m)
              else Ok m
          | None => Ok m
          end;
      number_row_scan cells' (current_index + 1) m
  end.

(** The loop over [rows[:10]], up to its [break]. *)
Fixpoint find_number_row (rows : list Row) : result (gmap Z Z) :=
  match rows with
  | [] => Ok ∅
  | row :: rows' =>
      cell_1_text ← get_cell_data row (Some 8);
      cell_2_text ← get_cell_data row (Some 9);
      if opt_str_eqb cell_1_text "1" && opt_str_eqb cell_2_text "2"
      then number_row_scan row 1 ∅
      else find_number_row rows'
  end.

(** [find_page19_header_map(rows, ns)] *)
Definition find_page19_header_map (rows : list Row) : result (gmap string (option Z)) :=
  number_to_ss_index_map ← find_number_row (take 10 rows);
  if bool_decide (number_to_ss_index_map = ∅) then Ok ∅
  else Ok (<["Direct Defense and Cost Containment Expense Incurred" := number_to_ss_index_map !! 9]>
          (<["Direct Losses Incurred" := number_to_ss_index_map !! 6]>
          (<["Direct Premiums Earned" := number_to_ss_index_map !! 2]>
          (<["Direct Premiums Written" := number_to_ss_index_map !! 1]> ∅)))).

(** The line-of-business test of one row: [None] when [float] raises or
    no code is recognised, else the code and the liability type. *)
Definition classify_lob `{Builtins} (lob_identifier_clean : string) : option (string * string) :=
  match py_float lob_identifier_clean with
  | None => None
  | Some lob_float =>
      let rounded_lob := py_round1 lob_float in
      if PrimFloat.eqb rounded_lob 19.3%float then Some ("19.3", "AL")
      else if PrimFloat.eqb rounded_lob 19.4%float then Some ("19.4", "AL")
      else if PrimFloat.eqb rounded_lob 21.2%float then Some ("21.2", "APD")
      else None
  end.

(** The inner loop [for j in range(3, 10)] of the state search. *)
Fixpoint state_cols (row : Row) (cols : list Z) (state : string) : result string :=
  match cols with
  | [] => Ok state
  | j :: cols' =>
      state_val ← get_cell_data row (Some j);
      match state_val with
      | Some v =>
          if Str.truthy v && Str.truthy (Str.strip v) then
            let state := Str.upper (Str.strip v) in
            Ok (if Str.contains "GRAND TOTAL" state then "GRAND_TOTAL" else state)
          else state_cols row cols' state
      | None => state_cols row cols' state
      end
  end.

(** The loop over [all_rows[:5]] that looks for the state label. *)
Fixpoint state_rows (rows : list Row) (state : string) : result string :=
  match rows with
  | [] => Ok state
  | row :: rows' =>
      cell_text ← get_cell_data row (Some 2);
      match cell_text with
      | Some t =>
          if Str.truthy t && Str.contains "DIRECT BUSINESS IN THE STATE OF" (Str.upper t)
          then state_cols row [3; 4; 5; 6; 7; 8; 9] state
          else state_rows rows' state
      | None => state_rows rows' state
      end
  end.

(** What the preamble of a premium-exhibit worksheet establishes. *)
Record Page19Meta : Type := {
  p19_year : Z;
  p19_company_name : string;
  p19_naic : string;
  p19_state : string
}.

(** The dictionary appended for one recognised row. *)
Definition page19_record (meta : Page19Meta) (liability_type lob_code : string)
    (gwp ep losses dcc : option float) : dict :=
  [ ("YEAR", VInt (p19_year meta));
    ("Compan_Name", VStr (p19_company_name meta));
    ("NAIC", VStr (p19_naic meta));
    ("State", VStr (p19_state meta));
    ("Liability", VStr liability_type);
    ("LOB", VStr lob_code);
    ("GWP", of_float gwp);
    ("EP", of_float ep);
    ("LOSSES_INCURRED", py_add (or_zero losses) (or_zero dcc));
    ("DIRECT_LOSSES_INC", of_float losses);
    ("DCC", of_float dcc) ].

(** [clean_numeric(get_cell_data(data_row, header_map[key], ns))] *)
Definition read_numeric `{Builtins} (data_row : Row) (header_map : gmap string (option Z))
    (key : string) : result (option float) :=
  column ← getitem header_map key;
  cell ← get_cell_data data_row column;
  Ok (clean_numeric cell).

(** The body of [for i, row in enumerate(all_rows)] for one row: the list
    with the row's record appended, if it has one. *)
Definition page19_row `{Builtins} (all_rows : list Row) (header_map : gmap string (option Z))
    (meta : Page19Meta) (i : nat) (row : Row) (all_lobs_data : list dict)
  : result (list dict) :=
  lob_identifier ← get_cell_data row (Some 2);
  match lob_identifier with
  | Some lob_identifier =>
      if Str.truthy lob_identifier then
        match classify_lob (Str.strip lob_identifier) with
        | Some (lob_code, liability_type) =>
            data_row ← (if String.eqb lob_code "19.3" then list_item all_rows (i + 1)
                        else Ok row);
            gwp ← read_numeric data_row header_map "Direct Premiums Written";
            ep ← read_numeric data_row header_map "Direct Premiums Earned";
            losses ← read_numeric data_row header_map "Direct Losses Incurred";
            dcc ← read_numeric data_row header_map
                    "Direct Defense and Cost Containment Expense Incurred";
            Ok (all_lobs_data ++ [page19_record meta liability_type lob_code gwp ep losses dcc])
        | None => Ok all_lobs_data
        end
      else Ok all_lobs_data
  | None => Ok all_lobs_data
  end.

(** The loop itself: [rows] are the rows still to visit, [i] the index of
    the first of them in [all_rows]. *)
Fixpoint page19_loop `{Builtins} (all_rows : list Row) (header_map : gmap string (option Z))
    (meta : Page19Meta) (i : nat) (rows : list Row) (all_lobs_data : list dict)
  : result (list dict) :=
  match rows with
  | [] => Ok all_lobs_data
  | row :: rows' =>
      all_lobs_data ← page19_row all_rows header_map meta i row all_lobs_data;
      page19_loop all_rows header_map meta (S i) rows' all_lobs_data
  end.

(** [any(v is None for v in header_map.values())] *)
Definition any_none (m : gmap string (option Z)) : bool :=
  existsb (fun kv => match kv.2 with None => true | Some _ => false end) (map_to_list m).

(** Groups of the header match turned into year, company and NAIC code. *)
Definition header_fields (g : string * string * option string) : result (Z * string * string) :=
  let '(g1, g2, g3) := g in
  year ← py_int g1;
  Ok (year, Str.strip g2,
      match g3 with
      | Some n => if Str.truthy n then Str.strip_char ")"%char n else "N/A"
      | None => "N/A"
      end).

(** The body of the [try] block of [process_page19_worksheet]. *)
Definition process_page19_body `{Builtins} (worksheet : Worksheet) : result (list dict) :=
  let all_rows := Rows worksheet in
  match all_rows with
  | [] => Ok []
  | first_row :: _ =>
      header_string ← get_cell_data first_row (Some 2);
      match header_string with
      | None => Ok []
      | Some header_string =>
          if negb (Str.truthy header_string) then Ok [] else
          match Header.search header_string with
          | None => Ok []
          | Some groups =>
              '(year, company_name, naic) ← header_fields groups;
              state ← state_rows (take 5 all_rows) "GRAND_TOTAL";
              header_map ← find_page19_header_map all_rows;
              if bool_decide (header_map = ∅) || any_none header_map then Ok []
              else
                page19_loop all_rows header_map
                  {| p19_year := year; p19_company_name := company_name;
                     p19_naic := naic; p19_state := state |}
                  0 all_rows []
          end
      end
  end.

(** [process_page19_worksheet(worksheet, ns)]: whatever the body raises is
    caught (and logged) and the worksheet yields the empty list. *)
Definition process_page19_worksheet `{Builtins} (worksheet : Worksheet) : result (list dict) :=
  try_except (process_page19_body worksheet) (fun _ => Ok []).

(** ** Schedule P (loss schedule) *)

(** The header check of [identify_sched_p_lob] (check 1). *)
Definition lob_from_header (rows : list Row) : result (option string) :=
  if (3 <=? length rows)%nat then
    row ← list_item rows 2;
    header_text ← get_cell_data row (Some 1);
    match header_text with
    | Some header_text =>
        if Str.truthy header_text then
          let header_text_upper := Str.upper header_text in
          if Str.contains "COMMERCIAL AUTO LIABILITY" header_text_upper then Ok (Some "AL")
          else if Str.contains "AUTO PHYSICAL DAMAGE" header_text_upper then Ok (Some "APD")
          else if Str.contains "SUMMARY" header_text_upper then Ok (Some "SUMMARY")
          else Ok None
        else Ok None
    | None => Ok None
    end
  else Ok None.

(** The worksheet-name checks (checks 2 and 3); a worksheet without a
    name attribute makes [.upper()] raise [AttributeError]. *)
Definition lob_from_name (worksheet : Worksheet) : result (option string) :=
  match Name worksheet with
  | None => Raise AttributeError
  | Some name =>
      let sheet_name := Str.upper name in
      if Str.contains "COMM'L AUTO L" sheet_name then Ok (Some "AL")
      else if Str.contains "AUTO PHYS" sheet_name then Ok (Some "APD")
      else if Str.contains "PG33" sheet_name then Ok (Some "SUMMARY")
      else Ok None
  end.

(** [identify_sched_p_lob(worksheet, rows, ns)] *)
Definition identify_sched_p_lob (worksheet : Worksheet) (rows : list Row)
  : result (option string) :=
  from_header ← lob_from_header rows;
  match from_header with
  | Some lob => Ok (Some lob)
  | None => lob_from_name worksheet
  end.

Definition targets_to_find : gset string := {[ "1"; "25"; "26" ]}.

(** The walk over the cells of one row in [find_schedule_p_headers]. *)
Fixpoint sched_row_scan (cells : list Cell) (current_index : Z)
    (m : gmap Z Z) (found_targets : gset string) : result (gmap Z Z * gset string) :=
  match cells with
  | [] => Ok (m, found_targets)
  | cell :: cells' =>
      current_index ← cell_column cell current_index;
      '(m, found_targets) ←
        match cell_text cell with
        | Some text =>
            if bool_decide (text ∈ targets_to_find) && bool_decide (text ∉ found_targets)
            then num ← py_int text; Ok (<[num := current_index]> m, found_targets ∪ {[ text ]})
            else Ok (m, found_targets)
        | None => Ok (m, found_targets)
        end;
      sched_row_scan cells' (current_index + 1) m found_targets
  end.

(** The loop over [rows[:50]], up to its [break]. *)
Fixpoint sched_rows_scan (rows : list Row) (m : gmap Z Z) (found_targets : gset string)
  : result (gmap Z Z * gset string) :=
  match rows with
  | [] => Ok (m, found_targets)
  | row :: rows' =>
      '(m, found_targets) ← sched_row_scan row 1 m found_targets;
      if bool_decide (size found_targets = size targets_to_find) then Ok (m, found_targets)
      else sched_rows_scan rows' m found_targets
  end.

(** [find_schedule_p_headers(rows, ns)] *)
Definition find_schedule_p_headers (rows : list Row) : result (gmap string (option Z)) :=
  '(number_to_ss_index_map, found_targets) ← sched_rows_scan (take 50 rows) ∅ ∅;
  if bool_decide (size found_targets ≠ size targets_to_find) then Ok ∅
  else Ok (<["CLAIMS" := number_to_ss_index_map !! 25]>
          (<["LOSSES_INC" := number_to_ss_index_map !! 26]>
          (<["EP" := number_to_ss_index_map !! 1]> ∅))).

(** Truth value of an optional integer. *)
Definition int_truthy (v : option Z) : bool :=
  match v with
  | Some z => negb (z =? 0)
  | None => false
  end.

(** [all(column_map.values())] *)
Definition all_values (m : gmap string (option Z)) : bool :=
  forallb (fun kv => int_truthy kv.2) (map_to_list m).

(** [prior_row_indices]: the loop over [enumerate(all_rows)]. *)
Fixpoint prior_rows (i : nat) (rows : list Row) (prior_row_indices : list nat)
  : result (list nat) :=
  match rows with
  | [] => Ok prior_row_indices
  | row :: rows' =>
      year_val ← get_cell_data row (Some 3);
      prior_rows (S i) rows'
        (match year_val with
         | Some y =>
             if Str.truthy y && Str.contains "Prior" y
             then prior_row_indices ++ [i] else prior_row_indices
         | None => prior_row_indices
         end)
  end.

Record SchedMeta : Type := {
  sp_report_year : Z;
  sp_company_name : string;
  sp_naic : string;
  sp_lob : string
}.

Definition sched_record (meta : SchedMeta) (year : string) (ep losses claims : option float)
  : dict :=
  [ ("REPORT_YEAR", VInt (sp_report_year meta));
    ("Company_Name", VStr (sp_company_name meta));
    ("NAIC", VStr (sp_naic meta));
    ("LOB", VStr (sp_lob meta));
    ("YEAR", VStr year);
    ("EP", of_float ep);
    ("LOSSES_INC", of_float losses);
    ("CLAIMS", of_float claims) ].

(** [for i in range(12)]: [offsets] are the values of [i] still to visit. *)
Fixpoint sched_loop `{Builtins} (all_rows : list Row) (column_map : gmap string (option Z))
    (meta : SchedMeta) (start_row_ep start_row_claims start_row_losses : nat)
    (offsets : list nat) (parsed_data : list dict) : result (list dict) :=
  match offsets with
  | [] => Ok parsed_data
  | i :: offsets' =>
      let row_index_ep := (start_row_ep + i)%nat in
      let row_index_claims := (start_row_claims + i)%nat in
      let row_index_losses := (start_row_losses + i)%nat in
      if negb (forallb (fun idx => (idx <? length all_rows)%nat)
                 [row_index_ep; row_index_claims; row_index_losses])
      then Ok parsed_data
      else
        row_ep ← list_item all_rows row_index_ep;
        row_claims ← list_item all_rows row_index_claims;
        row_losses ← list_item all_rows row_index_losses;
        year ← get_cell_data row_ep (Some 3);
        match year with
        | Some year =>
            if Str.truthy year then
              ep ← read_numeric row_ep column_map "EP";
              losses ← read_numeric row_losses column_map "LOSSES_INC";
              claims ← read_numeric row_claims column_map "CLAIMS";
              sched_loop all_rows column_map meta start_row_ep start_row_claims
                start_row_losses offsets' (parsed_data ++ [sched_record meta year ep losses claims])
            else sched_loop all_rows column_map meta start_row_ep start_row_claims
                   start_row_losses offsets' parsed_data
        | None => sched_loop all_rows column_map meta start_row_ep start_row_claims
                    start_row_losses offsets' parsed_data
        end
  end.

(** The body of the [try] block of [process_schedule_p_worksheet]. *)
Definition process_schedule_p_body `{Builtins} (worksheet : Worksheet) (lob : string)
  : result (list dict) :=
  let all_rows := Rows worksheet in
  match all_rows with
  | [] => Ok []
  | first_row :: _ =>
      header_string ← get_cell_data first_row (Some 2);
      match header_string with
      | None => Ok []
      | Some header_string =>
          if negb (Str.truthy header_string) then Ok [] else
          match Header.search header_string with
          | None => Ok []
          | Some groups =>
              '(report_year, company_name, naic) ← header_fields groups;
              column_map ← find_schedule_p_headers all_rows;
              if negb (all_values column_map) then Ok [] else
              prior_row_indices ← prior_rows 0 all_rows [];
              match prior_row_indices with
              | start_row_ep :: start_row_claims :: start_row_losses :: _ =>
                  sched_loop all_rows column_map
                    {| sp_report_year := report_year; sp_company_name := company_name;
                       sp_naic := naic; sp_lob := lob |}
                    start_row_ep start_row_claims start_row_losses (seq 0 12) []
              | _ => Ok []
              end
          end
      end
  end.

(** [process_schedule_p_worksheet(worksheet, ns, lob)] *)
Definition process_schedule_p_worksheet `{Builtins} (worksheet : Worksheet) (lob : string)
  : result (list dict) :=
  try_except (process_schedule_p_body worksheet lob) (fun _ => Ok []).

(** ** The stand-alone identification check ([SchedP_LOB_Test.py]) *)

(** What [test_schedule_p_lob_identification] prints for a worksheet. *)
Inductive TestVerdict : Type :=
| TooFewRows
| IsSummary
| Processed (lob : string)
| NotIdentified.

Definition is_none {A} (o : option A) : bool :=
  match o with
  | None => true
  | Some _ => false
  end.

(** [test_schedule_p_lob_identification(worksheet, ns)] *)
Definition test_schedule_p_lob_identification (worksheet : Worksheet) : result TestVerdict :=
  let all_rows := Rows worksheet in
  if (length all_rows <? 3)%nat then Ok TooFewRows
  else
    row ← list_item all_rows 2;
    header_row_text ← get_cell_data row (Some 1);
    let '(assigned_lob, is_summary) :=
      match header_row_text with
      | Some t =>
          if Str.truthy t then
            let header_text_upper := Str.upper t in
            if Str.contains "COMMERCIAL AUTO LIABILITY" header_text_upper then (Some "AL", false)
            else if Str.contains "AUTO PHYSICAL DAMAGE" header_text_upper then (Some "APD", false)
            else if Str.contains "SUMMARY" header_text_upper then (None, true)
            else (None, false)
          else (None, false)
      | None => (None, false)
      end in
    match Name worksheet with
    | None => Raise AttributeError
    | Some sheet_name =>
        let sheet_name_upper := Str.upper sheet_name in
        let assigned_lob :=
          if Str.contains "COMM'L AUTO L" sheet_name_upper && is_none assigned_lob
          then Some "AL"
          else if Str.contains "AUTO PHYS" sheet_name_upper && is_none assigned_lob
          then Some "APD"
          else assigned_lob in
        Ok (if is_summary then IsSummary
            else match assigned_lob with
                 | Some lob => Processed lob
                 | None => NotIdentified
                 end)
    end.

(** ** The file loop *)

(** An input file as [ET.parse] sees it: either parsing raises, or there is
    a root whose worksheets are listed. *)
Inductive XmlFile : Type :=
| Malformed
| Document (worksheets : list Worksheet).

(** The two accumulators of the run and the critical log lines, one per
    file whose processing raised. *)
Record Acc : Type := {
  all_page19_data : list dict;
  all_sched_p_data : list dict;
  critical_log : list (string * exn)
}.

Definition empty_acc : Acc :=
  {| all_page19_data := []; all_sched_p_data := []; critical_log := [] |}.

(** [lob in ["AL", "APD"]] *)
Definition lob_is_al_or_apd (lob : option string) : bool :=
  opt_str_eqb lob "AL" || opt_str_eqb lob "APD".

(** The body of [for worksheet in worksheets]: the accumulators after the
    worksheet, or the exception it raises (before any [extend]). *)
Definition process_worksheet `{Builtins} (worksheet : Worksheet) (acc : Acc) : result Acc :=
  let all_rows := Rows worksheet in
  report_type ← identify_report_type all_rows;
  match report_type with
  | Some Page19 =>
      records ← process_page19_worksheet worksheet;
      Ok {| all_page19_data := all_page19_data acc ++ records;
            all_sched_p_data := all_sched_p_data acc;
            critical_log := critical_log acc |}
  | Some ScheduleP =>
      lob ← identify_sched_p_lob worksheet all_rows;
      match lob with
      | Some l =>
          if lob_is_al_or_apd lob then
            records ← process_schedule_p_worksheet worksheet l;
            Ok {| all_page19_data := all_page19_data acc;
                  all_sched_p_data := all_sched_p_data acc ++ records;
                  critical_log := critical_log acc |}
          else Ok acc
      | None => Ok acc
      end
  | None => Ok acc
  end.

(** The worksheet loop of one file.  The accumulators are lists mutated in
    place, so when a worksheet raises they keep what earlier worksheets
    appended: the loop returns them together with the exception. *)
Fixpoint process_worksheets `{Builtins} (worksheets : list Worksheet) (acc : Acc)
  : Acc * option exn :=
  match worksheets with
  | [] => (acc, None)
  | worksheet :: rest =>
      match process_worksheet worksheet acc with
      | Ok acc' => process_worksheets rest acc'
      | Raise e => (acc, Some e)
      end
  end.

Definition log_critical (file_path : string) (e : exn) (acc : Acc) : Acc :=
  {| all_page19_data := all_page19_data acc;
     all_sched_p_data := all_sched_p_data acc;
     critical_log := critical_log acc ++ [(file_path, e)] |}.

(** One iteration of [for file_path in xml_files], with its
    [try ... except Exception]. *)
Definition process_file `{Builtins} (file_path : string) (file : XmlFile) (acc : Acc) : Acc :=
  match file with
  | Malformed => log_critical file_path ParseError acc
  | Document worksheets =>
      match process_worksheets worksheets acc with
      | (acc', None) => acc'
      | (acc', Some e) => log_critical file_path e acc'
      end
  end.

Fixpoint process_files `{Builtins} (xml_files : list (string * XmlFile)) (acc : Acc) : Acc :=
  match xml_files with
  | [] => acc
  | (file_path, file) :: rest => process_files rest (process_file file_path file acc)
  end.

(** ** Output generation

    The data-frame operations are modelled after pandas: a frame has its
    column labels and its rows (each row a dictionary over the columns);
    naming a column the frame does not have raises [KeyError]. *)

Record DataFrame : Type := { columns : list string; records : list dict }.

(** The row of a frame for a dictionary: one entry per column, [None]
    (a missing value) where the dictionary has no such key. *)
Definition align (cols : list string) (d : dict) : dict :=
  map (fun c => (c, default VNone (dict_get c d))) cols.

(** Keys of the dictionaries in order of first appearance. *)
Fixpoint union_keys (seen : list string) (data : list dict) : list string :=
  match data with
  | [] => seen
  | d :: data' =>
      union_keys (fold_left (fun acc k => if bool_decide (k ∈ acc) then acc else acc ++ [k])
                            (map fst d) seen) data'
  end.

(** [pd.DataFrame(data)] and [pd.DataFrame(data, columns=cols)] *)
Definition frame_of_dicts (data : list dict) (cols : option (list string)) : DataFrame :=
  let cols := default (union_keys [] data) cols in
  {| columns := cols; records := map (align cols) data |}.

Definition has_columns (cols : list string) (df : DataFrame) : bool :=
  forallb (fun c => bool_decide (c ∈ columns df)) cols.

Definition row_key (subset : list string) (r : dict) : list (option pyval) :=
  map (fun c => dict_get c r) subset.

(** Rows whose key was not seen before, in order. *)
Fixpoint keep_first (subset : list string) (seen : list (list (option pyval)))
    (rows : list dict) : list dict :=
  match rows with
  | [] => []
  | r :: rows' =>
      if bool_decide (row_key subset r ∈ seen) then keep_first subset seen rows'
      else r :: keep_first subset (row_key subset r :: seen) rows'
  end.

(** [df.drop_duplicates(subset=subset, keep='first')] *)
Definition drop_duplicates (subset : list string) (df : DataFrame) : result DataFrame :=
  if has_columns subset df
  then Ok {| columns := columns df; records := keep_first subset [] (records df) |}
  else Raise KeyError.

(** Order of two values of one column: integers and strings by their own
    order, missing values last. *)
Definition pyval_compare (a b : pyval) : comparison :=
  match a, b with
  | VInt x, VInt y => Z.compare x y
  | VStr s, VStr t => String.compare s t
  | VFloat f, VFloat g => if PrimFloat.ltb f g then Lt else if PrimFloat.ltb g f then Gt else Eq
  | VNone, VNone => Eq
  | VNone, _ => Gt
  | _, VNone => Lt
  | VInt _, _ => Lt
  | _, VInt _ => Gt
  | VFloat _, VStr _ => Lt
  | VStr _, VFloat _ => Gt
  end.

Fixpoint key_compare (k1 k2 : list (option pyval)) : comparison :=
  match k1, k2 with
  | a :: k1', b :: k2' =>
      match pyval_compare (default VNone a) (default VNone b) with
      | Eq => key_compare k1' k2'
      | c => c
      end
  | _, _ => Eq
  end.

Definition row_leb (by_cols : list string) (r1 r2 : dict) : bool :=
  match key_compare (row_key by_cols r1) (row_key by_cols r2) with
  | Gt => false
  | _ => true
  end.

Fixpoint insert_row (by_cols : list string) (r : dict) (sorted : list dict) : list dict :=
  match sorted with
  | [] => [r]
  | r' :: rest =>
      if row_leb by_cols r r' then r :: sorted else r' :: insert_row by_cols r rest
  end.

(** A stable sort of the rows on the [by] columns. *)
Fixpoint sort_rows (by_cols : list string) (rows : list dict) : list dict :=
  match rows with
  | [] => []
  | r :: rows' => insert_row by_cols r (sort_rows by_cols rows')
  end.

(** [df.sort_values(by=by_cols).reset_index(drop=True)] *)
Definition sort_values (by_cols : list string) (df : DataFrame) : result DataFrame :=
  if has_columns by_cols df
  then Ok {| columns := columns df; records := sort_rows by_cols (records df) |}
  else Raise KeyError.

Definition sched_p_column_order : list string :=
  ["REPORT_YEAR"; "Company_Name"; "NAIC"; "LOB"; "YEAR"; "EP"; "LOSSES_INC"; "CLAIMS"].

(** The sheets handed to the writer, in the order they are written: each
    is a sheet name and a frame, written without the index column. *)
Definition generate_output (acc : Acc) : result (list (string * DataFrame)) :=
  page19_sheet ←
    match all_page19_data acc with
    | [] => Ok []
    | _ :: _ =>
        let pg19_df := frame_of_dicts (all_page19_data acc) None in
        pg19_df ← drop_duplicates ["NAIC"; "YEAR"; "State"; "LOB"] pg19_df;
        pg19_df_sorted ← sort_values ["Compan_Name"; "YEAR"; "State"; "Liability"; "LOB"] pg19_df;
        Ok [("Page 14 Data", pg19_df_sorted)]
    end;
  sched_p_sheet ←
    match all_sched_p_data acc with
    | [] => Ok []
    | _ :: _ =>
        let sched_p_df := frame_of_dicts (all_sched_p_data acc) (Some sched_p_column_order) in
        sched_p_df_sorted ← sort_values ["Company_Name"; "REPORT_YEAR"; "LOB"; "YEAR"] sched_p_df;
        Ok [("Schedule P Data", sched_p_df_sorted)]
    end;
  Ok (page19_sheet ++ sched_p_sheet).

(** The main block: nothing is written when no file was found; else the
    files are processed in order and the sheets are generated. *)
Definition main `{Builtins} (xml_files : list (string * XmlFile))
  : option (result (list (string * DataFrame))) :=
  match xml_files with
  | [] => None
  | _ :: _ => Some (generate_output (process_files xml_files empty_acc))
  end.

(** ** Reference built-ins for evaluation

    Closed examples need some [float] and [round] to run.  [Ref.float_of_str]
    reads plain decimal literals (sign, digits, optional fraction) and
    [Ref.round1] rounds half-even at one decimal; both are exact on short
    literals (mantissa below [2^53], at most 22 fraction digits, magnitude
    below [2^49]), which is all the examples use.  Outside that range, and
    on exponent, [inf] or [nan] forms, they are not Python's functions:
    the general statements never depend on them. *)

Module Ref.

Fixpoint digits (s : string) (acc : Z) (n : nat) : Z * nat * string :=
  match s with
  | EmptyString => (acc, n, s)
  | String c s' =>
      match Str.digit_val c with
      | Some d => digits s' (10 * acc + d) (S n)
      | None => (acc, n, s)
      end
  end.

Definition float_of_nonneg (z : Z) : float := PrimFloat.of_uint63 (Uint63.of_Z z).

Definition float_of_str (s : string) : option float :=
  let s := Str.strip_c s in
  let '(neg, body) :=
    match s with
    | String "-"%char r => (true, r)
    | String "+"%char r => (false, r)
    | _ => (false, s)
    end in
  let '(ip, ni, rest) := digits body 0 0 in
  let '(m, nf, rest) :=
    match rest with
    | String "."%char r => digits r ip 0
    | _ => (ip, 0%nat, rest)
    end in
  if String.eqb rest "" && (0 <? ni + nf)%nat && (m <? 2 ^ 53) && (nf <=? 22)%nat then
    let x := PrimFloat.div (float_of_nonneg m) (float_of_nonneg (10 ^ Z.of_nat nf)) in
    Some (if neg then PrimFloat.opp x else x)
  else None.

(** The integer nearest to [m * 10 * 2^e], ties to even. *)
Definition tenths (m : positive) (e : Z) : Z :=
  let num := Zpos m * 10 in
  if 0 <=? e then num * 2 ^ e
  else
    let d := 2 ^ (- e) in
    let q := num / d in
    let r := num mod d in
    if 2 * r <? d then q
    else if d <? 2 * r then q + 1
    else if Z.even q then q else q + 1.

Definition round1 (x : float) : float :=
  match Prim2SF x with
  | S754_finite s m e =>
      let n := tenths m e in
      if n <? 2 ^ 53 then
        let r := PrimFloat.div (float_of_nonneg n) 10%float in
        if s then PrimFloat.opp r else r
      else x
  | _ => x
  end.

End Ref.

Definition ref_builtins : Builtins :=
  {| py_float := Ref.float_of_str; py_round1 := Ref.round1 |}.

(** ** Notions used in the statements *)

(** *** Carry-forward column indices *)

(** The explicit index of a cell: its non-empty index attribute, read as
    an integer. *)
Definition explicit_index (c : Cell) : option Z :=
  match Index c with
  | Some s =>
      if Str.truthy s then
        match py_int s with
        | Ok z => Some z
        | Raise _ => None
        end
      else None
  | None => None
  end.

(** Every index attribute of the row is empty or an integer literal. *)
Definition well_indexed (row : Row) : Prop :=
  Forall (fun c => cell_column c 0 <> Raise ValueError) row.

(** The resolved index of a cell after a cell resolved at [prev]. *)
Definition resolve (prev : Z) (c : Cell) : Z :=
  match explicit_index c with
  | Some k => k
  | None => prev + 1
  end.

Fixpoint resolved_from (prev : Z) (row : Row) : list Z :=
  match row with
  | [] => []
  | c :: row' => resolve prev c :: resolved_from (resolve prev c) row'
  end.

(** The resolved indices of the cells of a row; the first cell follows a
    virtual cell at column 0. *)
Definition resolved_indices (row : Row) : list Z := resolved_from 0 row.

(** The same row with the index attribute dropped from every cell that
    does not skip a position. *)
Fixpoint only_skips_from (prev : Z) (row : Row) : Row :=
  match row with
  | [] => []
  | c :: row' =>
      (if resolve prev c =? prev + 1 then {| Index := None; data := data c |} else c)
        :: only_skips_from (resolve prev c) row'
  end.

Definition only_skips (row : Row) : Row := only_skips_from 0 row.

(** The text of the first cell whose resolved index is the target. *)
Definition text_at (target : Z) (indexed : list (Z * Cell)) : option string :=
  match list_find (fun kc => kc.1 = target) indexed with
  | Some (_, (_, c)) => cell_text c
  | None => None
  end.

(** *** Sample rows and worksheets *)

(** A row in which every cell carries its index. *)
Definition row_explicit : Row :=
  [ {| Index := Some "1"; data := Some {| text := Some "a" |} |};
    {| Index := Some "2"; data := Some {| text := Some " b " |} |};
    {| Index := Some "5"; data := Some {| text := Some "e" |} |};
    {| Index := Some "6"; data := None |} ].

(** *** Numeric tokens *)

(** The tokens that stand for a missing value, after trimming. *)
Definition missing_token (s : string) : bool :=
  Str.contains "XXX" (Str.upper s) || String.eqb s "" || String.eqb s "NA".

(** A token written in parentheses. *)
Definition parenthesized (s : string) : bool :=
  Str.startswith "(" s && Str.endswith ")" s.

(** *** Markers in the classifier window *)

Definition premium_phrase : string := "EXHIBIT OF PREMIUMS AND LOSSES".
Definition schedule_phrase : string := "SCHEDULE P - PART 1".

(** The window of the classifier: row positions 0..4, columns 1..4. *)
Definition in_window (r : nat) (c : Z) : Prop := (r < 5)%nat /\ 1 <= c <= 4.

(** Row-major scan order. *)
Definition scanned_before (r' : nat) (c' : Z) (r : nat) (c : Z) : Prop :=
  (r' < r)%nat \/ (r' = r /\ c' < c).

(** The cell at row position [r], column [c] holds text whose upper case
    contains the phrase. *)
Definition has_phrase (phrase : string) (rows : list Row) (r : nat) (c : Z) : bool :=
  match rows !! r with
  | Some row =>
      match get_cell_data row (Some c) with
      | Ok (Some t) => Str.contains phrase (Str.upper t)
      | _ => false
      end
  | None => false
  end.

(** What the cell at column [c] of a row makes the classifier answer. *)
Definition cell_marker (row : Row) (c : Z) : option ReportType :=
  match get_cell_data row (Some c) with
  | Ok t => report_marker t
  | Raise _ => None
  end.

Definition marker_at (rows : list Row) (r : nat) (c : Z) : option ReportType :=
  match rows !! r with
  | Some row => cell_marker row c
  | None => None
  end.

Definition row_marker (row : Row) : option ReportType :=
  match cell_marker row 1 with
  | Some t => Some t
  | None =>
      match cell_marker row 2 with
      | Some t => Some t
      | None =>
          match cell_marker row 3 with
          | Some t => Some t
          | None => cell_marker row 4
          end
      end
  end.

Fixpoint first_marker (l : list (option ReportType)) : option ReportType :=
  match l with
  | [] => None
  | Some t :: _ => Some t
  | None :: l' => first_marker l'
  end.

(** A worksheet with both markers, the premium one on the earlier row. *)
Definition text_cell (s : string) : Cell :=
  {| Index := None; data := Some {| text := Some s |} |}.

Definition text_cell_at (k : string) (s : string) : Cell :=
  {| Index := Some k; data := Some {| text := Some s |} |}.

Definition rows_both_markers : list Row :=
  [ [ text_cell "Annual Statement" ];
    [ text_cell_at "2" "Exhibit of Premiums and Losses (Statutory Page 14)" ];
    [ text_cell "SCHEDULE P - PART 1 - SUMMARY" ] ].

(** *** The schedule line-of-business chain, as the specification words it

    An ordered list of (phrase, outcome) rules, the first phrase found in
    the text deciding. *)

Fixpoint first_rule (rules : list (string * string)) (text : string) : option string :=
  match rules with
  | [] => None
  | (phrase, outcome) :: rules' =>
      if Str.contains phrase text then Some outcome else first_rule rules' text
  end.

Definition header_rules : list (string * string) :=
  [ ("COMMERCIAL AUTO LIABILITY", "AL");
    ("AUTO PHYSICAL DAMAGE", "APD");
    ("SUMMARY", "SUMMARY") ].

Definition name_rules : list (string * string) :=
  [ ("COMM'L AUTO L", "AL"); ("AUTO PHYS", "APD") ].

Definition summary_name_rules : list (string * string) := [ ("PG33", "SUMMARY") ].

(** The text of column 1 on the third row, when there is one. *)
Definition third_row_text (rows : list Row) : option string :=
  match rows !! 2%nat with
  | Some row =>
      match get_cell_data row (Some 1) with
      | Ok t => t
      | Raise _ => None
      end
  | None => None
  end.

Definition header_signal (rows : list Row) : option string :=
  match third_row_text rows with
  | Some t => first_rule header_rules (Str.upper t)
  | None => None
  end.

(** Header first, then the name fallbacks, then the PG33 check; [None] is
    the unknown kind. *)
Definition lob_chain (rows : list Row) (name : string) : option string :=
  match header_signal rows with
  | Some lob => Some lob
  | None =>
      match first_rule name_rules (Str.upper name) with
      | Some lob => Some lob
      | None => first_rule summary_name_rules (Str.upper name)
      end
  end.

(** A schedule sheet whose header says liability while its name says
    physical damage. *)
Definition rows_al_header : list Row :=
  [ [ text_cell "Annual Statement" ];
    [ text_cell "SCHEDULE P - PART 1C" ];
    [ text_cell "Schedule P - Part 1C - Commercial Auto Liability" ] ].

Definition ws_al_header : Worksheet :=
  {| Name := Some "Pg35 Auto Phys"; Rows := rows_al_header |}.

(** *** Premium-exhibit records, row by row *)

(** The line-of-business code a row carries in column 2, with its
    liability type, when the column-2 value rounds to a recognised code. *)
Definition row_lob `{Builtins} (row : Row) : option (string * string) :=
  match get_cell_data row (Some 2) with
  | Ok (Some s) => if Str.truthy s then classify_lob (Str.strip s) else None
  | _ => None
  end.

(** The row the numeric fields of row [r] are read from. *)
Definition lagged_row (all_rows : list Row) (r : nat) (row : Row) (lob_code : string)
  : option Row :=
  if String.eqb lob_code "19.3" then all_rows !! S r else Some row.

(** The normalized number in the column the header map gives for [key]. *)
Definition numeric_at `{Builtins} (header_map : gmap string (option Z)) (key : string)
    (data_row : Row) : option float :=
  match header_map !! key with
  | Some column =>
      match get_cell_data data_row column with
      | Ok t => clean_numeric t
      | Raise _ => None
      end
  | None => None
  end.

(** The record of a row whose numeric fields are read from [data_row]. *)
Definition record_from `{Builtins} (header_map : gmap string (option Z)) (meta : Page19Meta)
    (liability_type lob_code : string) (data_row : Row) : dict :=
  page19_record meta liability_type lob_code
    (numeric_at header_map "Direct Premiums Written" data_row)
    (numeric_at header_map "Direct Premiums Earned" data_row)
    (numeric_at header_map "Direct Losses Incurred" data_row)
    (numeric_at header_map "Direct Defense and Cost Containment Expense Incurred" data_row).

(** The records row [r] contributes. *)
Definition row_records `{Builtins} (all_rows : list Row) (header_map : gmap string (option Z))
    (meta : Page19Meta) (r : nat) (row : Row) : list dict :=
  match row_lob row with
  | Some (lob_code, liability_type) =>
      match lagged_row all_rows r row lob_code with
      | Some data_row => [record_from header_map meta liability_type lob_code data_row]
      | None => []
      end
  | None => []
  end.

(** The records of a worksheet, in row order. *)
Definition expected_records `{Builtins} (all_rows : list Row)
    (header_map : gmap string (option Z)) (meta : Page19Meta) : list dict :=
  concat (imap (row_records all_rows header_map meta) all_rows).

(** The header map names a column (possibly [None]) for each field. *)
Definition has_page19_keys (header_map : gmap string (option Z)) : Prop :=
  is_Some (header_map !! "Direct Premiums Written")
  /\ is_Some (header_map !! "Direct Premiums Earned")
  /\ is_Some (header_map !! "Direct Losses Incurred")
  /\ is_Some (header_map !! "Direct Defense and Cost Containment Expense Incurred").

(** The column-2 value of a row as a number rounded to one decimal. *)
Definition rounded_code `{Builtins} (row : Row) : option float :=
  match get_cell_data row (Some 2) with
  | Ok (Some s) =>
      if Str.truthy s then
        match py_float (Str.strip s) with
        | Some x => Some (py_round1 x)
        | None => None
        end
      else None
  | _ => None
  end.

(** The four numeric fields of a record. *)
Definition numeric_fields (rec : dict) : list (option pyval) :=
  [dict_get "GWP" rec; dict_get "EP" rec; dict_get "DIRECT_LOSSES_INC" rec; dict_get "DCC" rec].

(** The same four fields read from a row through the header map. *)
Definition numeric_fields_of_row `{Builtins} (header_map : gmap string (option Z))
    (data_row : Row) : list (option pyval) :=
  [ Some (of_float (numeric_at header_map "Direct Premiums Written" data_row));
    Some (of_float (numeric_at header_map "Direct Premiums Earned" data_row));
    Some (of_float (numeric_at header_map "Direct Losses Incurred" data_row));
    Some (of_float (numeric_at header_map
                      "Direct Defense and Cost Containment Expense Incurred" data_row)) ].

(** A premium-exhibit worksheet: title row, marker row, state row, the
    numbered header row (columns 8 to 16 carry 1 to 9), a 21.2 row, a 19.3
    row and the row after it. *)
Definition no_data_cell : Cell := {| Index := None; data := None |}.

Definition rows_premium : list Row :=
  [ [ no_data_cell;
      text_cell "ANNUAL STATEMENT FOR THE YEAR 2022 OF THE ACME INSURANCE CO (NAIC #12345)" ];
    [ no_data_cell; text_cell "EXHIBIT OF PREMIUMS AND LOSSES" ];
    [ no_data_cell; text_cell "DIRECT BUSINESS IN THE STATE OF"; text_cell "Texas" ];
    [ text_cell_at "8" "1"; text_cell "2"; text_cell "3"; text_cell "4"; text_cell "5";
      text_cell "6"; text_cell "7"; text_cell "8"; text_cell "9" ];
    [ text_cell_at "2" "21.2"; text_cell_at "8" "1,000.00"; text_cell "900";
      text_cell_at "13" "(50)"; text_cell_at "16" "XXX" ];
    [ text_cell_at "2" "19.3"; text_cell_at "8" "7" ];
    [ text_cell_at "8" "2,500"; text_cell "2,400"; text_cell_at "13" "10";
      text_cell_at "16" "1.5" ] ].

Definition ws_premium : Worksheet := {| Name := Some "Pg14 TX"; Rows := rows_premium |}.

Definition hm_premium : gmap string (option Z) :=
  <["Direct Defense and Cost Containment Expense Incurred" := Some 16]>
  (<["Direct Losses Incurred" := Some 13]>
  (<["Direct Premiums Earned" := Some 9]>
  (<["Direct Premiums Written" := Some 8]> ∅))).

Definition meta_premium : Page19Meta :=
  {| p19_year := 2022; p19_company_name := "ACME INSURANCE CO";
     p19_naic := "12345"; p19_state := "TEXAS" |}.

(** The same worksheet cut after the 19.3 row. *)
Definition ws_premium_cut : Worksheet :=
  {| Name := Some "Pg14 TX"; Rows := take 6 rows_premium |}.

(** *** Header resolution *)

(** Some cell of some row holds the token as its (trimmed) text. *)
Definition token_in_rows (token : string) (rows : list Row) : Prop :=
  exists row cell, row ∈ rows /\ cell ∈ row /\ cell_text cell = Some token.

(** All three schedule tokens occur within the first 50 rows. *)
Definition schedule_tokens_found (rows : list Row) : Prop :=
  token_in_rows "1" (take 50 rows)
  /\ token_in_rows "25" (take 50 rows)
  /\ token_in_rows "26" (take 50 rows).

(** The numbered-header anchor test of the premium exhibit: column 8 reads
    1 and column 9 reads 2. *)
Definition is_anchor (row : Row) : bool :=
  match get_cell_data row (Some 8), get_cell_data row (Some 9) with
  | Ok c1, Ok c2 => opt_str_eqb c1 "1" && opt_str_eqb c2 "2"
  | _, _ => false
  end.

(** The anchor row carries the code: one of its cells has digit text with
    that value. *)
Definition code_on_row (code : Z) (row : Row) : Prop :=
  exists cell t, cell ∈ row /\ cell_text cell = Some t
    /\ Str.isdigit t = true /\ py_int t = Ok code.

(** A loss-schedule worksheet: title row, marker row, line-of-business
    header, the numbered header row (columns 4, 5 and 6 carry 1, 25 and
    26) and three blocks of two rows each, every block starting at a
    "Prior" row. *)
Definition schedule_rows (third_token : string) : list Row :=
  [ [ no_data_cell;
      text_cell "ANNUAL STATEMENT FOR THE YEAR 2022 OF THE ACME INSURANCE CO (NAIC #12345)" ];
    [ text_cell "SCHEDULE P - PART 1C" ];
    [ text_cell "Schedule P - Part 1C - Commercial Auto Liability" ];
    [ text_cell_at "4" "1"; text_cell "25"; text_cell third_token ];
    [ text_cell_at "3" "Prior"; text_cell "100" ];
    [ text_cell_at "3" "2021"; text_cell "200" ];
    [ text_cell_at "3" "Prior"; text_cell_at "5" "3" ];
    [ text_cell_at "3" "2021"; text_cell_at "5" "4" ];
    [ text_cell_at "3" "Prior"; text_cell_at "6" "50" ];
    [ text_cell_at "3" "2021"; text_cell_at "6" "60" ] ].

Definition ws_schedule : Worksheet :=
  {| Name := Some "Pg35 Comm'l Auto L"; Rows := schedule_rows "26" |}.

(** The same worksheet with only two of the three tokens. *)
Definition ws_schedule_two_tokens : Worksheet :=
  {| Name := Some "Pg35 Comm'l Auto L"; Rows := schedule_rows "27" |}.

(** The premium-exhibit worksheet with code 9 missing from its numbered
    header row. *)
Definition ws_premium_no_code_9 : Worksheet :=
  {| Name := Some "Pg14 TX";
     Rows := <[3%nat := [ text_cell_at "8" "1"; text_cell "2"; text_cell "3"; text_cell "4";
                          text_cell "5"; text_cell "6"; text_cell "7"; text_cell "8" ]]>
             rows_premium |}.

(** Decidable forms of the header-resolution notions, for evaluation. *)
Definition has_token (token : string) (rows : list Row) : bool :=
  existsb (fun row => existsb (fun cell => bool_decide (cell_text cell = Some token)) row) rows.

Definition has_code (code : Z) (row : Row) : bool :=
  existsb (fun cell =>
             match cell_text cell with
             | Some t => Str.isdigit t && bool_decide (py_int t = Ok code)
             | None => false
             end) row.

(** *** Files *)

(** A worksheet classified as a loss schedule that has no name attribute
    and too few rows for the header check. *)
Definition ws_no_name : Worksheet :=
  {| Name := None; Rows := [ [ text_cell "SCHEDULE P - PART 1" ] ] |}.

(** A worksheet with an index attribute that is not a number. *)
Definition ws_bad_index : Worksheet :=
  {| Name := Some "Sheet1"; Rows := [ [ text_cell_at "B" "x" ] ] |}.

(** A file whose first worksheet is fine and whose second one raises. *)
Definition file_second_sheet_raises : XmlFile := Document [ ws_premium; ws_no_name; ws_schedule ].

(** The same with the worksheet whose index attribute is not a number. *)
Definition file_bad_index : XmlFile := Document [ ws_schedule; ws_bad_index ].

(** The records the run holds, apart from the log. *)
Definition collected (acc : Acc) : list dict * list dict :=
  (all_page19_data acc, all_sched_p_data acc).

(** *** Output tables *)

(** The keys of a premium record, in the order of the dictionary literal of
    [process_page19_worksheet]. *)
Definition premium_columns : list string :=
  map fst (page19_record {| p19_year := 0; p19_company_name := ""; p19_naic := "";
                            p19_state := "" |} "" "" None None None None).

Definition is_premium_record (d : dict) : Prop := map fst d = premium_columns.

Definition is_schedule_record (d : dict) : Prop := map fst d = sched_p_column_order.

(** The deduplication key of a premium record. *)
Definition premium_key (d : dict) : list (option pyval) :=
  row_key ["NAIC"; "YEAR"; "State"; "LOB"] d.

(** [r] is the first record of [data] with its key. *)
Definition first_with_key (data : list dict) (r : dict) : Prop :=
  exists i, data !! i = Some r
    /\ forall j r', (j < i)%nat -> data !! j = Some r' -> premium_key r' <> premium_key r.

(** Sheet names with their column labels. *)
Definition sheet_layout (sheets : list (string * DataFrame)) : list (string * list string) :=
  map (fun s => (s.1, columns s.2)) sheets.

(** The records of the sheet of that name, if it was written. *)
Definition sheet_records (name : string) (sheets : list (string * DataFrame))
  : option (list dict) :=
  match list_find (fun s => s.1 = name) sheets with
  | Some (_, (_, df)) => Some (records df)
  | None => None
  end.

(** The layout the specification gives for the output. *)
Definition specified_layout : list (string * list string) :=
  [ ("Premium Exhibit Data",
     ["YEAR"; "Company_Name"; "NAIC"; "State"; "Liability"; "LOB"; "GWP"; "EP";
      "LOSSES_INCURRED"; "DIRECT_LOSSES_INC"; "DCC"]);
    ("Schedule Data",
     ["REPORT_YEAR"; "Company_Name"; "NAIC"; "LOB"; "YEAR"; "EP"; "LOSSES_INC"; "CLAIMS"]) ].

(** A run over one file with a premium sheet and a schedule sheet. *)
Definition sample_run : Acc :=
  @process_files ref_builtins [("a.xml", Document [ws_premium; ws_schedule])] empty_acc.

(** A run over two files that carry the same premium sheet. *)
Definition duplicate_run : Acc :=
  @process_files ref_builtins
    [("a.xml", Document [ws_premium; ws_schedule]); ("b.xml", Document [ws_premium; ws_schedule])]
    empty_acc.

(** Every accumulated record has the keys of its kind. *)
Definition well_shaped (acc : Acc) : Prop :=
  Forall is_premium_record (all_page19_data acc)
  /\ Forall is_schedule_record (all_sched_p_data acc).

(** The sheets [generate_output] hands over for well-shaped accumulators. *)
Definition premium_sheet (data : list dict) : list (string * DataFrame) :=
  match data with
  | [] => []
  | _ :: _ =>
      [ ("Page 14 Data",
         {| columns := premium_columns;
            records := sort_rows ["Compan_Name"; "YEAR"; "State"; "Liability"; "LOB"]
                         (keep_first ["NAIC"; "YEAR"; "State"; "LOB"] [] data) |}) ]
  end.

Definition schedule_sheet (data : list dict) : list (string * DataFrame) :=
  match data with
  | [] => []
  | _ :: _ =>
      [ ("Schedule P Data",
         {| columns := sched_p_column_order;
            records := sort_rows ["Company_Name"; "REPORT_YEAR"; "LOB"; "YEAR"] data |}) ]
  end.

(** The layout of the written sheets, the label of the company column of
    the premium sheet being left open. *)
Definition written_layout (company_column : string) (acc : Acc) : list (string * list string) :=
  match all_page19_data acc with
  | [] => []
  | _ :: _ =>
      [ ("Page 14 Data",
         ["YEAR"; company_column; "NAIC"; "State"; "Liability"; "LOB"; "GWP"; "EP";
          "LOSSES_INCURRED"; "DIRECT_LOSSES_INC"; "DCC"]) ]
  end ++
  match all_sched_p_data acc with
  | [] => []
  | _ :: _ =>
      [ ("Schedule P Data",
         ["REPORT_YEAR"; "Company_Name"; "NAIC"; "LOB"; "YEAR"; "EP"; "LOSSES_INC"; "CLAIMS"]) ]
  end.

(** *** Notions for the further properties *)

(** A cell without an index attribute that counts (absent or empty). *)
Definition no_index (c : Cell) : bool :=
  match Index c with
  | Some s => negb (Str.truthy s)
  | None => true
  end.

(** The resolved index of the last cell of [pre], 0 for no cell. *)
Definition last_resolved (pre : Row) : Z := default 0 (last (resolved_indices pre)).

(** A row whose third cell has an index attribute that is not a number. *)
Definition row_bad_third : Row :=
  [ text_cell "a"; text_cell_at "4" "d"; text_cell_at "x" "e"; text_cell "f" ].

(** A value that is a number, not [None] and not a string. *)
Definition is_number (v : option pyval) : Prop :=
  match v with
  | Some (VInt _) | Some (VFloat _) => True
  | _ => False
  end.

(** The recognised codes with their liability types. *)
Definition lob_pairs : list (option pyval * option pyval) :=
  [ (Some (VStr "19.3"), Some (VStr "AL"));
    (Some (VStr "19.4"), Some (VStr "AL"));
    (Some (VStr "21.2"), Some (VStr "APD")) ].

(** The records of the sample premium worksheet. *)
Definition premium_sample_records : list dict :=
  [ [ ("YEAR", VInt 2022); ("Compan_Name", VStr "ACME INSURANCE CO");
      ("NAIC", VStr "12345"); ("State", VStr "TEXAS");
      ("Liability", VStr "APD"); ("LOB", VStr "21.2");
      ("GWP", VFloat 1000); ("EP", VFloat 900);
      ("LOSSES_INCURRED", VFloat (-50));
      ("DIRECT_LOSSES_INC", VFloat (-50)); ("DCC", VNone) ];
    [ ("YEAR", VInt 2022); ("Compan_Name", VStr "ACME INSURANCE CO");
      ("NAIC", VStr "12345"); ("State", VStr "TEXAS");
      ("Liability", VStr "AL"); ("LOB", VStr "19.3");
      ("GWP", VFloat 2500); ("EP", VFloat 2400);
      ("LOSSES_INCURRED", VFloat 11.5);
      ("DIRECT_LOSSES_INC", VFloat 10); ("DCC", VFloat 1.5) ] ].

(** The state label test of the premium exhibit on column 2. *)
Definition is_state_label (row : Row) : bool :=
  match get_cell_data row (Some 2) with
  | Ok (Some t) => Str.truthy t && Str.contains "DIRECT BUSINESS IN THE STATE OF" (Str.upper t)
  | _ => false
  end.

(** The state token in column [j] of a row, if the cell has text. *)
Definition state_token (row : Row) (j : Z) : option string :=
  match get_cell_data row (Some j) with
  | Ok (Some v) => if Str.truthy v && Str.truthy (Str.strip v) then Some v else None
  | _ => None
  end.

(** The state a token stands for. *)
Definition normalize_state (v : string) : string :=
  let state := Str.upper (Str.strip v) in
  if Str.contains "GRAND TOTAL" state then "GRAND_TOTAL" else state.

(** Rows with a state label whose first token is in column 5, and a later
    label row that is not reached. *)
Definition rows_state : list Row :=
  [ [ no_data_cell; text_cell "Annual Statement" ];
    [ no_data_cell; text_cell "Direct business in the state of"; text_cell_at "5" " Ohio " ];
    [ no_data_cell; text_cell "DIRECT BUSINESS IN THE STATE OF"; text_cell "Texas" ] ].

(** The column of the first cell of a row whose text is the token; the
    cells follow a cell resolved at [prev]. *)
Fixpoint first_in_row (token : string) (prev : Z) (cells : list Cell) : option Z :=
  match cells with
  | [] => None
  | c :: cells' =>
      if bool_decide (cell_text c = Some token) then Some (resolve prev c)
      else first_in_row token (resolve prev c) cells'
  end.

(** The column of the first cell, in row-major order, whose text is the
    token. *)
Fixpoint first_in_rows (token : string) (rows : list Row) : option Z :=
  match rows with
  | [] => None
  | row :: rows' =>
      match first_in_row token 0 row with
      | Some k => Some k
      | None => first_in_rows token rows'
      end
  end.

(** The column map that first occurrences give: empty unless all three
    tokens occur. *)
Definition schedule_columns (rows : list Row) : gmap string (option Z) :=
  match first_in_rows "1" rows, first_in_rows "25" rows, first_in_rows "26" rows with
  | Some ep, Some claims, Some losses =>
      <["CLAIMS" := Some claims]> (<["LOSSES_INC" := Some losses]> (<["EP" := Some ep]> ∅))
  | _, _, _ => ∅
  end.

(** Header rows in which the tokens 1 and 25 occur twice. *)
Definition rows_repeated_tokens : list Row :=
  [ [ text_cell "Years"; text_cell_at "4" "1"; text_cell "25" ];
    [ text_cell "1"; text_cell_at "7" "26"; text_cell "25" ];
    [ text_cell_at "x" "never read" ] ].

(** The cell carries the code: its trimmed text is made of digits and has
    that value. *)
Definition carries_code (code : Z) (c : Cell) : bool :=
  match cell_text c with
  | Some t => Str.isdigit t && bool_decide (py_int t = Ok code)
  | None => false
  end.

(** The column of the last cell of a row that carries the code; the cells
    follow a cell resolved at [prev]. *)
Fixpoint last_in_row (code : Z) (prev : Z) (cells : list Cell) : option Z :=
  match cells with
  | [] => None
  | c :: cells' =>
      match last_in_row code (resolve prev c) cells' with
      | Some k => Some k
      | None => if carries_code code c then Some (resolve prev c) else None
      end
  end.

(** The header map that the last occurrences on the anchor row give. *)
Definition anchor_columns (anchor : Row) : gmap string (option Z) :=
  <["Direct Defense and Cost Containment Expense Incurred" := last_in_row 9 0 anchor]>
  (<["Direct Losses Incurred" := last_in_row 6 0 anchor]>
  (<["Direct Premiums Earned" := last_in_row 2 0 anchor]>
  (<["Direct Premiums Written" := last_in_row 1 0 anchor]> ∅))).

(** An anchor row on which the code 1 occurs a second time, after a title
    row. *)
Definition rows_repeated_codes : list Row :=
  [ [ text_cell "Exhibit" ];
    [ text_cell_at "8" "1"; text_cell "2"; text_cell "6"; text_cell "9"; text_cell " 1 " ] ].

(** The "Prior" test of the loss schedule on column 3. *)
Definition is_prior_row (row : Row) : bool :=
  match get_cell_data row (Some 3) with
  | Ok (Some y) => Str.truthy y && Str.contains "Prior" y
  | _ => false
  end.

(** The indices of the "Prior" rows, in row order; [i] is the index of the
    first of [rows]. *)
Fixpoint prior_from (i : nat) (rows : list Row) : list nat :=
  match rows with
  | [] => []
  | row :: rows' => (if is_prior_row row then [i] else []) ++ prior_from (S i) rows'
  end.

Definition prior_indices (rows : list Row) : list nat := prior_from 0 rows.

(** The records offset [i] contributes, the three blocks starting at the
    given rows: the year and the earned premium come from the row of the
    first block, the claims from the second, the losses from the third. *)
Definition offset_records `{Builtins} (all_rows : list Row) (column_map : gmap string (option Z))
    (meta : SchedMeta) (start_row_ep start_row_claims start_row_losses : nat) (i : nat)
  : list dict :=
  match all_rows !! (start_row_ep + i)%nat, all_rows !! (start_row_claims + i)%nat,
        all_rows !! (start_row_losses + i)%nat with
  | Some row_ep, Some row_claims, Some row_losses =>
      match get_cell_data row_ep (Some 3) with
      | Ok (Some year) =>
          if Str.truthy year then
            [sched_record meta year (numeric_at column_map "EP" row_ep)
               (numeric_at column_map "LOSSES_INC" row_losses)
               (numeric_at column_map "CLAIMS" row_claims)]
          else []
      | _ => []
      end
  | _, _, _ => []
  end.

(** What the header line of a worksheet establishes for the schedule
    records. *)
Definition schedule_meta_of (rows : list Row) (lob : string) (meta : SchedMeta) : Prop :=
  exists first_row header_string groups,
    rows !! 0%nat = Some first_row
    /\ get_cell_data first_row (Some 2) = Ok (Some header_string)
    /\ Header.search header_string = Some groups
    /\ header_fields groups = Ok (sp_report_year meta, sp_company_name meta, sp_naic meta)
    /\ sp_lob meta = lob.

Definition schedule_sample_records : list dict :=
  [ [ ("REPORT_YEAR", VInt 2022); ("Company_Name", VStr "ACME INSURANCE CO");
      ("NAIC", VStr "12345"); ("LOB", VStr "AL"); ("YEAR", VStr "Prior");
      ("EP", VFloat 100); ("LOSSES_INC", VFloat 50); ("CLAIMS", VFloat 3) ];
    [ ("REPORT_YEAR", VInt 2022); ("Company_Name", VStr "ACME INSURANCE CO");
      ("NAIC", VStr "12345"); ("LOB", VStr "AL"); ("YEAR", VStr "2021");
      ("EP", VFloat 200); ("LOSSES_INC", VFloat 60); ("CLAIMS", VFloat 4) ] ].

(** The loss-schedule worksheet cut after its second block. *)
Definition ws_schedule_two_blocks : Worksheet :=
  {| Name := Some "Pg35 Comm'l Auto L"; Rows := take 8 (schedule_rows "26") |}.

(** Accumulators put one after the other, list by list. *)
Definition acc_app (a b : Acc) : Acc :=
  {| all_page19_data := all_page19_data a ++ all_page19_data b;
     all_sched_p_data := all_sched_p_data a ++ all_sched_p_data b;
     critical_log := critical_log a ++ critical_log b |}.

(** The lines of business of the schedule table. *)
Definition schedule_lobs : list (option pyval) := [ Some (VStr "AL"); Some (VStr "APD") ].

(** A numeric field of a record with a missing value or a zero counted as
    the integer 0. *)
Definition field_or_zero (v : option pyval) : pyval :=
  match v with
  | Some (VFloat f) => if PrimFloat.eqb f 0%float then VInt 0 else VFloat f
  | _ => VInt 0
  end.

(** What holds of every premium record and of every schedule record that
    a run collects. *)
Definition good_premium_record (rec : dict) : Prop :=
  is_premium_record rec
  /\ (dict_get "LOB" rec, dict_get "Liability" rec) ∈ lob_pairs
  /\ is_number (dict_get "LOSSES_INCURRED" rec)
  /\ dict_get "LOSSES_INCURRED" rec
     = Some (py_add (field_or_zero (dict_get "DIRECT_LOSSES_INC" rec))
                    (field_or_zero (dict_get "DCC" rec))).

Definition good_schedule_record (rec : dict) : Prop :=
  is_schedule_record rec /\ dict_get "LOB" rec ∈ schedule_lobs.

(** What the header line and the state rows of a worksheet establish for
    the premium records. *)
Definition premium_meta_of (rows : list Row) (meta : Page19Meta) : Prop :=
  exists first_row header_string groups,
    rows !! 0%nat = Some first_row
    /\ get_cell_data first_row (Some 2) = Ok (Some header_string)
    /\ Header.search header_string = Some groups
    /\ header_fields groups = Ok (p19_year meta, p19_company_name meta, p19_naic meta)
    /\ state_rows (take 5 rows) "GRAND_TOTAL" = Ok (p19_state meta).

(** The header map binds each of the four fields to a column. *)
Definition binds_page19_columns (header_map : gmap string (option Z)) : Prop :=
  forall key,
    key ∈ [ "Direct Premiums Written"; "Direct Premiums Earned"; "Direct Losses Incurred";
            "Direct Defense and Cost Containment Expense Incurred" ] ->
    exists column, header_map !! key = Some (Some column).

(** The loss-schedule worksheet with the token 25 in a cell whose index
    attribute is 0. *)
Definition ws_schedule_column_zero : Worksheet :=
  {| Name := Some "Pg35 Comm'l Auto L";
     Rows := <[3%nat := [ text_cell_at "4" "1"; text_cell_at "0" "25"; text_cell_at "6" "26" ]]>
             (schedule_rows "26") |}.

(** A worksheet of two rows whose name gives the line of business. *)
Definition ws_two_rows : Worksheet :=
  {| Name := Some "Pg35 Comm'l Auto L";
     Rows := [ [ text_cell "SCHEDULE P - PART 1C" ]; [ text_cell "Commercial Auto Liability" ] ] |}.

(** A company text the header pattern reads back unchanged: it has no
    opening parenthesis and no newline. *)
Fixpoint plain_company (s : string) : bool :=
  match s with
  | EmptyString => true
  | String a s' =>
      negb (Ascii.eqb a "("%char) && negb (Ascii.eqb a Header.newline) && plain_company s'
  end.

Fixpoint ends_with_space (s : string) : bool :=
  match s with
  | EmptyString => false
  | String a EmptyString => Ascii.eqb a " "%char
  | String _ s' => ends_with_space s'
  end.

Fixpoint no_digit (s : string) : bool :=
  match s with
  | EmptyString => true
  | String a s' => negb (Str.is_digit a) && no_digit s'
  end.

(** The header line of a statement, with and without the NAIC suffix. *)
Definition header_line (intro year company : string) : string :=
  intro +:+ year +:+ " OF THE " +:+ company.

Definition header_line_naic (intro year company naic : string) : string :=
  intro +:+ year +:+ " OF THE " +:+ company +:+ " (NAIC #" +:+ naic +:+ ")".

(** * Properties *)

(** ** Evaluation on the sample worksheets *)

Example header_search_naic :
  Header.search "ANNUAL STATEMENT FOR THE YEAR 2022 OF THE ACME INSURANCE CO (NAIC #12345)"
  = Some ("2022", "ACME INSURANCE CO", Some "12345").
Proof. vm_compute. reflexivity. Qed.

Example header_search_plain :
  Header.search "2021 OF THE ACME (HOLDING) CO" = Some ("2021", "ACME (HOLDING) CO", None).
Proof. vm_compute. reflexivity. Qed.

Example header_search_none : Header.search "STATEMENT OF THE ACME CO" = None.
Proof. vm_compute. reflexivity. Qed.

Example classify_lob_samples :
  @classify_lob ref_builtins "19.3" = Some ("19.3", "AL")
  /\ @classify_lob ref_builtins "19.35" = Some ("19.4", "AL")
  /\ @classify_lob ref_builtins "21.2" = Some ("21.2", "APD")
  /\ @classify_lob ref_builtins "19.25" = None
  /\ @classify_lob ref_builtins "Totals" = None.
Proof. vm_compute. repeat split. Qed.

Example process_page19_sample :
  @process_page19_worksheet ref_builtins ws_premium
  = Ok [ [ ("YEAR", VInt 2022); ("Compan_Name", VStr "ACME INSURANCE CO");
           ("NAIC", VStr "12345"); ("State", VStr "TEXAS");
           ("Liability", VStr "APD"); ("LOB", VStr "21.2");
           ("GWP", VFloat 1000); ("EP", VFloat 900);
           ("LOSSES_INCURRED", VFloat (-50));
           ("DIRECT_LOSSES_INC", VFloat (-50)); ("DCC", VNone) ];
         [ ("YEAR", VInt 2022); ("Compan_Name", VStr "ACME INSURANCE CO");
           ("NAIC", VStr "12345"); ("State", VStr "TEXAS");
           ("Liability", VStr "AL"); ("LOB", VStr "19.3");
           ("GWP", VFloat 2500); ("EP", VFloat 2400);
           ("LOSSES_INCURRED", VFloat 11.5);
           ("DIRECT_LOSSES_INC", VFloat 10); ("DCC", VFloat 1.5) ] ].
Proof. vm_compute. reflexivity. Qed.

Example identify_sched_p_lob_no_name :
  identify_sched_p_lob ws_no_name (Rows ws_no_name) = Raise AttributeError
  /\ identify_report_type (Rows ws_bad_index) = Raise ValueError.
Proof. split; reflexivity. Qed.

Example process_schedule_p_sample :
  @process_schedule_p_worksheet ref_builtins ws_schedule "AL"
  = Ok [ [ ("REPORT_YEAR", VInt 2022); ("Company_Name", VStr "ACME INSURANCE CO");
           ("NAIC", VStr "12345"); ("LOB", VStr "AL"); ("YEAR", VStr "Prior");
           ("EP", VFloat 100); ("LOSSES_INC", VFloat 50); ("CLAIMS", VFloat 3) ];
         [ ("REPORT_YEAR", VInt 2022); ("Company_Name", VStr "ACME INSURANCE CO");
           ("NAIC", VStr "12345"); ("LOB", VStr "AL"); ("YEAR", VStr "2021");
           ("EP", VFloat 200); ("LOSSES_INC", VFloat 60); ("CLAIMS", VFloat 4) ] ].
Proof. vm_compute. reflexivity. Qed.

(** ** Cell lookup *)

Lemma cell_column_resolve (c : Cell) (cur : Z) :
  cell_column c 0 <> Raise ValueError ->
  cell_column c cur = Ok (resolve (cur - 1) c).
Proof.
  unfold cell_column, resolve, explicit_index.
  destruct (Index c) as [s|]; [destruct (Str.truthy s)|].
  - unfold py_int. destruct (Str.strip_c s) as [|a r]; cbn zeta.
    + destruct (Str.int_digits _ _ _); [reflexivity | congruence].
    + destruct (let '(neg, body) := _ in _) eqn:E; [reflexivity|].
      intros H. exfalso. apply H. revert E.
      repeat case_match; congruence.
  - intros _. f_equal. lia.
  - intros _. f_equal. lia.
Qed.

Lemma get_cell_data_from_resolved (row : Row) (cur target : Z) :
  well_indexed row ->
  get_cell_data_from row cur target =
  Ok (match list_find (fun kc => kc.1 = target) (zip (resolved_from (cur - 1) row) row) with
      | Some (_, (_, c)) => cell_text c
      | None => None
      end).
Proof.
  intros Hwf. revert cur. induction Hwf as [|c row Hc Hrow IH]; intros cur.
  - reflexivity.
  - cbn [get_cell_data_from resolved_from zip zip_with list_find].
    rewrite (cell_column_resolve c cur Hc). cbn [mbind result_bind].
    destruct (Z.eqb_spec (resolve (cur - 1) c) target) as [E|E].
    + rewrite decide_True by exact E. reflexivity.
    + rewrite decide_False by exact E.
      rewrite IH. replace (resolve (cur - 1) c + 1 - 1) with (resolve (cur - 1) c) by lia.
      destruct (list_find _ _) as [[i [k c']]|]; reflexivity.
Qed.

Lemma text_at_same_data (ks : list Z) (row row' : Row) (target : Z) :
  map data row' = map data row ->
  text_at target (zip ks row') = text_at target (zip ks row).
Proof.
  revert ks row'. induction row as [|c row IH]; intros ks [|c' row'] H; try discriminate.
  - reflexivity.
  - injection H as Hc Hrow. destruct ks as [|k ks]; [reflexivity|].
    unfold text_at in *. cbn [zip zip_with list_find].
    destruct (decide ((k, c').1 = target)) as [E|E]; cbn [fst] in E.
    + rewrite decide_True by exact E. unfold cell_text. rewrite Hc. reflexivity.
    + rewrite decide_False by exact E. specialize (IH ks row' Hrow).
      destruct (list_find _ (zip ks row')) as [[i [k1 c1]]|];
        destruct (list_find _ (zip ks row)) as [[j [k2 c2]]|]; exact IH.
Qed.

Lemma resolve_no_index (prev : Z) (c : Cell) :
  resolve prev {| Index := None; data := data c |} = prev + 1.
Proof. reflexivity. Qed.

Lemma only_skips_from_resolved (prev : Z) (row : Row) :
  resolved_from prev (only_skips_from prev row) = resolved_from prev row.
Proof.
  revert prev. induction row as [|c row IH]; intros prev; [reflexivity|].
  cbn [only_skips_from resolved_from].
  destruct (Z.eqb_spec (resolve prev c) (prev + 1)) as [E|E].
  - rewrite resolve_no_index, <- E, IH. reflexivity.
  - rewrite IH. reflexivity.
Qed.

Lemma only_skips_from_data (prev : Z) (row : Row) :
  map data (only_skips_from prev row) = map data row.
Proof.
  revert prev. induction row as [|c row IH]; intros prev; [reflexivity|].
  cbn [only_skips_from map]. rewrite IH. destruct (_ =? _); reflexivity.
Qed.

Lemma only_skips_from_well_indexed (prev : Z) (row : Row) :
  well_indexed row -> well_indexed (only_skips_from prev row).
Proof.
  intros H. revert prev. induction H as [|c row Hc Hrow IH]; intros prev; constructor.
  - destruct (_ =? _); [discriminate | exact Hc].
  - apply IH.
Qed.

(** In the sparse row an index attribute that counts is kept only on a
    cell that skips a position: its index is not the previous resolved
    index plus one. *)
Lemma only_skips_from_explicit (prev : Z) (row : Row) (i : nat) (c : Cell) (k p : Z) :
  only_skips_from prev row !! i = Some c ->
  explicit_index c = Some k ->
  (prev :: resolved_from prev row) !! i = Some p ->
  k <> p + 1.
Proof.
  revert prev i. induction row as [|c0 row IH]; intros prev i Hi Hk Hp; [discriminate|].
  destruct i as [|i]; cbn [only_skips_from] in Hi.
  - injection Hi as <-. injection Hp as <-.
    destruct (Z.eqb_spec (resolve prev c0) (prev + 1)) as [E|E]; [discriminate|].
    unfold resolve in E. rewrite Hk in E. exact E.
  - cbn [lookup list_lookup] in Hi. exact (IH _ _ Hi Hk Hp).
Qed.

Lemma resolved_from_rule (prev : Z) (row : Row) (i : nat) (c : Cell) :
  row !! i = Some c ->
  exists p, (prev :: resolved_from prev row) !! i = Some p
    /\ resolved_from prev row !! i = Some (resolve p c).
Proof.
  revert prev i. induction row as [|c0 row IH]; intros prev i Hi; [discriminate|].
  destruct i as [|i].
  - injection Hi as ->. exists prev. split; reflexivity.
  - cbn [lookup list_lookup] in Hi. exact (IH (resolve prev c0) i Hi).
Qed.

(** C1.  Carry-forward lookup: on a row whose index attributes are integer
    literals, the resolved index of a cell is its explicit index when it
    has one and the previous resolved index plus one otherwise;
    [get_cell_data] returns the text of the first cell whose resolved
    index is the target, or [None]; and the answer is the same for any
    other row with the same texts and the same resolved indices, in
    particular for the row that keeps index attributes on skipping cells
    only. *)
Theorem get_cell_data_carry_forward (row : Row) (target : Z) :
  well_indexed row ->
  (forall i c, row !! i = Some c ->
     exists prev, (0 :: resolved_indices row) !! i = Some prev
       /\ resolved_indices row !! i =
          Some (match explicit_index c with
                | Some k => k
                | None => prev + 1
                end))
  /\ get_cell_data row (Some target) = Ok (text_at target (zip (resolved_indices row) row))
  /\ (forall row', well_indexed row' ->
        map data row' = map data row ->
        resolved_indices row' = resolved_indices row ->
        get_cell_data row' (Some target) = get_cell_data row (Some target))
  /\ well_indexed (only_skips row)
  /\ (forall i c k p, only_skips row !! i = Some c ->
        explicit_index c = Some k ->
        (0 :: resolved_indices row) !! i = Some p ->
        k <> p + 1)
  /\ get_cell_data (only_skips row) (Some target) = get_cell_data row (Some target).
Proof.
  intros Hwf.
  assert (Hget : forall r, well_indexed r ->
            get_cell_data r (Some target) = Ok (text_at target (zip (resolved_indices r) r))).
  { intros r Hr. unfold get_cell_data. rewrite get_cell_data_from_resolved by exact Hr.
    reflexivity. }
  assert (Hsame : forall row', well_indexed row' ->
            map data row' = map data row ->
            resolved_indices row' = resolved_indices row ->
            get_cell_data row' (Some target) = get_cell_data row (Some target)).
  { intros row' Hwf' Hdata Hres. rewrite (Hget row' Hwf'), (Hget row Hwf), Hres.
    f_equal. apply text_at_same_data, Hdata. }
  split; [|split; [apply Hget, Hwf | split; [exact Hsame | split; [|split]]]].
  - intros i c. apply resolved_from_rule.
  - apply only_skips_from_well_indexed, Hwf.
  - intros i c k p. apply only_skips_from_explicit.
  - apply Hsame.
    + apply only_skips_from_well_indexed, Hwf.
    + apply only_skips_from_data.
    + apply only_skips_from_resolved.
Qed.

Lemma get_cell_data_carry_forward_witness :
  only_skips row_explicit =
    [ {| Index := None; data := Some {| text := Some "a" |} |};
      {| Index := None; data := Some {| text := Some " b " |} |};
      {| Index := Some "5"; data := Some {| text := Some "e" |} |};
      {| Index := None; data := None |} ]
  /\ get_cell_data (only_skips row_explicit) (Some 5) = Ok (Some "e")
  /\ get_cell_data (only_skips row_explicit) (Some 5) = get_cell_data row_explicit (Some 5).
Proof.
  split; [reflexivity | split; [reflexivity|]].
  apply (get_cell_data_carry_forward row_explicit 5).
  repeat constructor; discriminate.
Defined.

(** ** The numeric normalizer *)

Lemma rev_onto_app (s t acc : string) :
  Str.rev_onto (s +:+ t) acc = Str.rev_onto t (Str.rev_onto s acc).
Proof.
  revert acc. induction s as [|c s IH]; intros acc; [reflexivity|].
  cbn. apply IH.
Qed.

Lemma rev_onto_acc (s a b : string) :
  Str.rev_onto s (a +:+ b) = Str.rev_onto s a +:+ b.
Proof.
  revert a. induction s as [|c s IH]; intros a; [reflexivity|].
  cbn [Str.rev_onto]. rewrite <- IH. reflexivity.
Qed.

Lemma rev_onto_rev (s acc : string) : Str.rev_onto s acc = Str.rev s +:+ acc.
Proof. unfold Str.rev. rewrite <- rev_onto_acc. reflexivity. Qed.

Lemma rev_onto_twice (s acc : string) :
  Str.rev_onto (Str.rev_onto s acc) "" = Str.rev_onto acc s.
Proof.
  revert acc. induction s as [|c s IH]; intros acc; [reflexivity|].
  cbn [Str.rev_onto]. rewrite IH. reflexivity.
Qed.

Lemma rev_involutive (s : string) : Str.rev (Str.rev s) = s.
Proof. unfold Str.rev. rewrite rev_onto_twice. reflexivity. Qed.

Lemma prefix_nil (s : string) : String.prefix "" s = true.
Proof. destruct s; reflexivity. Qed.

Lemma prefix_one (c : ascii) (s : string) : String.prefix (String c "") (String c s) = true.
Proof.
  cbn [String.prefix]. destruct (ascii_dec c c); [apply prefix_nil | congruence].
Qed.

(** A token of the form [(inner)]: what the parenthesis rule makes of it. *)
Lemma parenthesized_inner (inner : string) :
  let s := String "("%char (inner +:+ ")") in
  Str.strip s = s /\ parenthesized s = true /\ Str.slice_1_m1 s = inner.
Proof.
  cbn zeta. set (s := String "("%char (inner +:+ ")")).
  assert (Hrev : Str.rev s = String ")"%char (Str.rev inner +:+ "(")).
  { unfold s, Str.rev. cbn [Str.rev_onto]. rewrite rev_onto_app. cbn [Str.rev_onto].
    rewrite rev_onto_rev. reflexivity. }
  split; [|split].
  - unfold Str.strip, Str.rstrip. cbn [Str.lstrip s]. change (Str.isspace "("%char) with false.
    cbn iota. fold s. rewrite Hrev. cbn [Str.lstrip]. change (Str.isspace ")"%char) with false.
    cbn iota. rewrite <- Hrev. apply rev_involutive.
  - unfold parenthesized, Str.startswith, Str.endswith. rewrite Hrev.
    unfold s. change (Str.rev ")") with ")". rewrite !prefix_one. reflexivity.
  - unfold Str.slice_1_m1. cbn [s Str.drop_first].
    unfold Str.rev at 2. rewrite rev_onto_app. cbn [Str.rev_onto Str.drop_first].
    apply rev_involutive.
Qed.

(** C3.  The numeric normalizer is a total function whose rules apply in
    this order: a missing input is missing; the input is trimmed; a token
    whose upper case contains XXX, or that is empty or NA, is missing; a
    parenthesized token loses its parentheses and gets a minus sign; all
    commas are removed; the rest is handed to [float], and a parse failure
    is missing.  So [(1,234.5)] is what [float] makes of [-1234.5], and
    XXX, the empty string and NA are missing. *)
Theorem clean_numeric_rules `{Builtins} :
  clean_numeric None = None
  /\ (forall v, missing_token (Str.strip v) = true -> clean_numeric (Some v) = None)
  /\ (forall v, missing_token (Str.strip v) = false ->
        parenthesized (Str.strip v) = true ->
        clean_numeric (Some v) =
        py_float (Str.remove_char ","%char (String "-"%char (Str.slice_1_m1 (Str.strip v)))))
  /\ (forall v, missing_token (Str.strip v) = false ->
        parenthesized (Str.strip v) = false ->
        clean_numeric (Some v) = py_float (Str.remove_char ","%char (Str.strip v)))
  /\ (forall inner, missing_token (String "("%char (inner +:+ ")")) = false ->
        clean_numeric (Some (String "("%char (inner +:+ ")"))) =
        py_float (String "-"%char (Str.remove_char ","%char inner)))
  /\ (forall v x, clean_numeric (Some v) = Some x ->
        exists token, py_float token = Some x)
  /\ clean_numeric (Some "(1,234.5)") = py_float "-1234.5"
  /\ (py_float "-1234.5" = Some (-1234.5)%float ->
      clean_numeric (Some "(1,234.5)") = Some (-1234.5)%float)
  /\ clean_numeric (Some "(1,234.5),") = py_float "(1234.5)"
  /\ clean_numeric (Some "(XXX)") = None
  /\ clean_numeric (Some "XXX") = None
  /\ clean_numeric (Some "") = None
  /\ clean_numeric (Some "NA") = None.
Proof.
  assert (Hparen : forall v, missing_token (Str.strip v) = false ->
            parenthesized (Str.strip v) = true ->
            clean_numeric (Some v) =
            py_float (Str.remove_char ","%char (String "-"%char (Str.slice_1_m1 (Str.strip v))))).
  { intros v Hm Hp. unfold clean_numeric. cbn zeta.
    unfold missing_token in Hm. rewrite Hm.
    unfold parenthesized in Hp. rewrite Hp. reflexivity. }
  repeat apply conj; try reflexivity.
  - intros v Hm. unfold clean_numeric. cbn zeta.
    unfold missing_token in Hm. rewrite Hm. reflexivity.
  - exact Hparen.
  - intros v Hm Hp. unfold clean_numeric. cbn zeta.
    unfold missing_token in Hm. rewrite Hm.
    unfold parenthesized in Hp. rewrite Hp. reflexivity.
  - intros inner Hm.
    destruct (parenthesized_inner inner) as (Hs & Hp & Hi).
    rewrite Hparen; rewrite Hs; try assumption.
    rewrite Hi. reflexivity.
  - intros v x. unfold clean_numeric. cbn zeta.
    destruct (_ || _); [discriminate|]. eauto.
  - intros Hf. rewrite <- Hf. reflexivity.
Qed.

Lemma clean_numeric_rules_witness :
  @clean_numeric ref_builtins (Some "(1,234.5)") = Some (-1234.5)%float
  /\ @clean_numeric ref_builtins (Some " n/a xxx ") = None
  /\ @clean_numeric ref_builtins (Some " 1,000.00 ") = Some 1000%float
  /\ @clean_numeric ref_builtins (Some "12 apples") = None.
Proof.
  pose proof (@clean_numeric_rules ref_builtins)
    as (_ & Hmissing & _ & Hplain & _ & _ & _ & Hexample & _).
  split; [|split; [|split]].
  - apply Hexample. vm_compute. reflexivity.
  - apply Hmissing. vm_compute. reflexivity.
  - rewrite Hplain; vm_compute; reflexivity.
  - rewrite Hplain; vm_compute; reflexivity.
Defined.

(** ** The report classifier *)

Lemma get_cell_data_ok (row : Row) (c : Z) :
  well_indexed row -> exists t, get_cell_data row (Some c) = Ok t.
Proof.
  intros Hwf. eexists. unfold get_cell_data.
  apply get_cell_data_from_resolved, Hwf.
Qed.

Lemma report_type_cols_wf (row : Row) :
  well_indexed row -> report_type_cols row [1; 2; 3; 4] = Ok (row_marker row).
Proof.
  intros Hwf. unfold row_marker, cell_marker. cbn [report_type_cols].
  destruct (get_cell_data_ok row 1 Hwf) as [t1 ->].
  destruct (get_cell_data_ok row 2 Hwf) as [t2 ->].
  destruct (get_cell_data_ok row 3 Hwf) as [t3 ->].
  destruct (get_cell_data_ok row 4 Hwf) as [t4 ->].
  cbn [mbind result_bind].
  destruct (report_marker t1); [reflexivity|].
  destruct (report_marker t2); [reflexivity|].
  destruct (report_marker t3); [reflexivity|].
  destruct (report_marker t4); reflexivity.
Qed.

Lemma report_type_rows_wf (rows : list Row) :
  Forall well_indexed rows ->
  report_type_rows rows = Ok (first_marker (map row_marker rows)).
Proof.
  induction 1 as [|row rows Hrow Hrows IH]; [reflexivity|].
  cbn [report_type_rows map first_marker].
  rewrite (report_type_cols_wf row Hrow). cbn [mbind result_bind].
  destruct (row_marker row); [reflexivity | exact IH].
Qed.

Lemma first_marker_none (l : list (option ReportType)) :
  (forall i o, l !! i = Some o -> o = None) -> first_marker l = None.
Proof.
  induction l as [|o l IH]; intros H; [reflexivity|].
  rewrite (H 0%nat o eq_refl). cbn. apply IH. intros i o' Hi. exact (H (S i) o' Hi).
Qed.

Lemma first_marker_at (l : list (option ReportType)) (i : nat) (t : ReportType) :
  l !! i = Some (Some t) ->
  (forall j o, (j < i)%nat -> l !! j = Some o -> o = None) ->
  first_marker l = Some t.
Proof.
  revert i. induction l as [|o l IH]; intros i Hi Hbefore; [discriminate|].
  destruct i as [|i].
  - injection Hi as ->. reflexivity.
  - rewrite (Hbefore 0%nat o (Nat.lt_0_succ i) eq_refl). cbn.
    apply (IH i Hi). intros j o' Hj Ho'. apply (Hbefore (S j) o'); [lia | exact Ho'].
Qed.

Lemma first_marker_first (l : list (option ReportType)) (t : ReportType) :
  first_marker l = Some t ->
  exists i, l !! i = Some (Some t) /\ forall j, (j < i)%nat -> l !! j = Some None.
Proof.
  induction l as [|o l IH]; [discriminate|].
  destruct o as [t'|]; cbn.
  - intros [= ->]. exists 0%nat. split; [reflexivity | lia].
  - intros H. destruct (IH H) as (i & Hi & Hbefore). exists (S i). split; [exact Hi|].
    intros [|j] Hj; [reflexivity|]. apply Hbefore. lia.
Qed.

Lemma row_marker_none (row : Row) :
  row_marker row = None <-> forall c, 1 <= c <= 4 -> cell_marker row c = None.
Proof.
  unfold row_marker. split.
  - intros H c Hc.
    assert (c = 1 \/ c = 2 \/ c = 3 \/ c = 4) as [-> | [-> | [-> | ->]]] by lia;
      repeat case_match; congruence.
  - intros H. rewrite !H by lia. reflexivity.
Qed.

Lemma row_marker_first (row : Row) (t : ReportType) :
  row_marker row = Some t <->
  exists c, 1 <= c <= 4 /\ cell_marker row c = Some t
    /\ forall c', 1 <= c' < c -> cell_marker row c' = None.
Proof.
  unfold row_marker. split.
  - intros H.
    destruct (cell_marker row 1) eqn:E1;
      [exists 1; repeat split; [lia | lia | congruence | intros; lia]|].
    destruct (cell_marker row 2) eqn:E2;
      [exists 2; repeat split; [lia | lia | congruence |];
       intros c' ?; assert (c' = 1) as -> by lia; assumption|].
    destruct (cell_marker row 3) eqn:E3;
      [exists 3; repeat split; [lia | lia | congruence |];
       intros c' ?; assert (c' = 1 \/ c' = 2) as [-> | ->] by lia; assumption|].
    exists 4; repeat split; [lia | lia | congruence |].
    intros c' ?; assert (c' = 1 \/ c' = 2 \/ c' = 3) as [-> | [-> | ->]] by lia; assumption.
  - intros (c & Hc & Ht & Hbefore).
    assert (c = 1 \/ c = 2 \/ c = 3 \/ c = 4) as [-> | [-> | [-> | ->]]] by lia.
    + rewrite Ht. reflexivity.
    + rewrite (Hbefore 1), Ht by lia. reflexivity.
    + rewrite (Hbefore 1), (Hbefore 2), Ht by lia. reflexivity.
    + rewrite (Hbefore 1), (Hbefore 2), (Hbefore 3), Ht by lia. reflexivity.
Qed.

Lemma contains_truthy (phrase t : string) :
  Str.truthy phrase = true -> Str.contains phrase (Str.upper t) = true -> Str.truthy t = true.
Proof.
  destruct t; [|reflexivity]. destruct phrase; [discriminate|]. cbn. discriminate.
Qed.

Lemma marker_at_premium (rows : list Row) (r : nat) (c : Z) :
  marker_at rows r c = Some Page19 <-> has_phrase premium_phrase rows r c = true.
Proof.
  unfold marker_at, has_phrase, cell_marker, report_marker, premium_phrase.
  destruct (rows !! r) as [row|]; [|split; intros ?; discriminate].
  destruct (get_cell_data row (Some c)) as [[t|]|]; try (split; intros ?; discriminate).
  destruct (Str.contains "EXHIBIT OF PREMIUMS AND LOSSES" (Str.upper t)) eqn:E.
  - rewrite (contains_truthy "EXHIBIT OF PREMIUMS AND LOSSES" t eq_refl E). split; reflexivity.
  - destruct (Str.truthy t); [|split; intros ?; discriminate].
    destruct (Str.contains "SCHEDULE P - PART 1" (Str.upper t)); split; intros ?; discriminate.
Qed.

Lemma marker_at_schedule (rows : list Row) (r : nat) (c : Z) :
  marker_at rows r c = Some ScheduleP <->
  has_phrase schedule_phrase rows r c = true /\ has_phrase premium_phrase rows r c = false.
Proof.
  unfold marker_at, has_phrase, cell_marker, report_marker, premium_phrase, schedule_phrase.
  destruct (rows !! r) as [row|]; [|split; [intros ?; discriminate | intros [? _]; discriminate]].
  destruct (get_cell_data row (Some c)) as [[t|]|];
    try (split; [intros ?; discriminate | intros [? _]; discriminate]).
  destruct (Str.contains "EXHIBIT OF PREMIUMS AND LOSSES" (Str.upper t)) eqn:E.
  - rewrite (contains_truthy "EXHIBIT OF PREMIUMS AND LOSSES" t eq_refl E). split; [intros ?; discriminate | intros [_ ?]; discriminate].
  - destruct (Str.contains "SCHEDULE P - PART 1" (Str.upper t)) eqn:E'.
    + rewrite (contains_truthy "SCHEDULE P - PART 1" t eq_refl E'). split; [split|]; reflexivity.
    + destruct (Str.truthy t); (split; [intros ?; discriminate | intros [? _]; discriminate]).
Qed.

Lemma first_marker_none_inv (l : list (option ReportType)) :
  first_marker l = None -> forall i o, l !! i = Some o -> o = None.
Proof.
  induction l as [|o l IH]; intros H i o' Hi; [discriminate|].
  destruct o as [t|]; [discriminate|]. destruct i as [|i].
  - injection Hi as <-. reflexivity.
  - exact (IH H i o' Hi).
Qed.

Lemma identify_report_type_first (rows : list Row) (r : nat) (c : Z) (t : ReportType) :
  Forall well_indexed (take 5 rows) ->
  in_window r c ->
  marker_at rows r c = Some t ->
  (forall r' c', in_window r' c' -> scanned_before r' c' r c -> marker_at rows r' c' = None) ->
  identify_report_type rows = Ok (Some t).
Proof.
  intros Hwf [Hr Hc] Ht Hbefore. unfold identify_report_type.
  rewrite (report_type_rows_wf _ Hwf). f_equal.
  unfold marker_at in Ht. destruct (rows !! r) as [row|] eqn:Er; [|discriminate].
  change (map row_marker (take 5 rows)) with (row_marker <$> take 5 rows).
  apply (first_marker_at _ r).
  - rewrite list_lookup_fmap, lookup_take_lt, Er by exact Hr. cbn. f_equal.
    apply row_marker_first. exists c. split; [exact Hc | split; [exact Ht|]].
    intros c' Hc'. specialize (Hbefore r c'). unfold marker_at in Hbefore.
    rewrite Er in Hbefore. apply Hbefore; [split; [exact Hr | lia]|].
    right. split; [reflexivity | lia].
  - intros j o Hj. rewrite list_lookup_fmap, lookup_take_lt by lia.
    destruct (rows !! j) as [row'|] eqn:Ej; [|discriminate]. cbn. intros [= <-].
    apply row_marker_none. intros c' Hc'. specialize (Hbefore j c').
    unfold marker_at in Hbefore. rewrite Ej in Hbefore.
    apply Hbefore; [split; [lia | exact Hc'] | left; exact Hj].
Qed.

Lemma identify_report_type_result (rows : list Row) (o : option ReportType) :
  Forall well_indexed (take 5 rows) ->
  identify_report_type rows = Ok o ->
  match o with
  | Some t => exists r c, in_window r c /\ marker_at rows r c = Some t
      /\ forall r' c', in_window r' c' -> scanned_before r' c' r c -> marker_at rows r' c' = None
  | None => forall r c, in_window r c -> marker_at rows r c = None
  end.
Proof.
  intros Hwf. unfold identify_report_type. rewrite (report_type_rows_wf _ Hwf).
  change (map row_marker (take 5 rows)) with (row_marker <$> take 5 rows).
  intros [= Ho]. destruct o as [t|].
  - apply first_marker_first in Ho as (r & Hr & Hbefore).
    rewrite list_lookup_fmap in Hr.
    destruct (take 5 rows !! r) as [row|] eqn:Er; [|discriminate].
    apply lookup_take_Some in Er as [Er Hr5]. cbn in Hr. injection Hr as Hr.
    apply row_marker_first in Hr as (c & Hc & Ht & Hcols).
    exists r, c. split; [split; assumption|]. unfold marker_at. rewrite Er.
    split; [exact Ht|]. intros r' c' [Hr' Hc'] [Hlt | [-> Hlt]].
    + specialize (Hbefore r' Hlt). rewrite list_lookup_fmap, lookup_take_lt in Hbefore by lia.
      destruct (rows !! r') as [row'|]; [|reflexivity]. cbn in Hbefore.
      injection Hbefore as Hbefore. apply row_marker_none; assumption.
    + rewrite Er. apply Hcols. lia.
  - intros r c [Hr Hc]. unfold marker_at.
    destruct (rows !! r) as [row|] eqn:Er; [|reflexivity].
    apply row_marker_none; [|exact Hc].
    apply (first_marker_none_inv _ Ho r).
    rewrite list_lookup_fmap, lookup_take_lt, Er by lia. reflexivity.
Qed.

Lemma report_marker_upper (t t' : string) :
  Str.upper t = Str.upper t' -> report_marker (Some t) = report_marker (Some t').
Proof.
  intros H. unfold report_marker. rewrite H.
  destruct t, t'; try discriminate; reflexivity.
Qed.

(** C6.  [identify_report_type] looks at rows 0..4 and columns 1..4 in
    row-major order and tests the upper-cased cell text for the two
    phrases, the premium phrase first; the first cell that matches decides.
    With the premium phrase on an earlier row than every schedule phrase
    the answer is [Page19]; with neither phrase in the window the answer is
    [None] and the file loop leaves the accumulators as they are. *)
Theorem identify_report_type_first_match (rows : list Row) :
  Forall well_indexed (take 5 rows) ->
  (forall t t', Str.upper t = Str.upper t' -> report_marker (Some t) = report_marker (Some t'))
  /\ (forall r c, marker_at rows r c = Some Page19 <-> has_phrase premium_phrase rows r c = true)
  /\ (forall r c, marker_at rows r c = Some ScheduleP <->
        has_phrase schedule_phrase rows r c = true /\ has_phrase premium_phrase rows r c = false)
  /\ (forall r c t, in_window r c ->
        marker_at rows r c = Some t ->
        (forall r' c', in_window r' c' -> scanned_before r' c' r c -> marker_at rows r' c' = None) ->
        identify_report_type rows = Ok (Some t))
  /\ (forall r1 c1, in_window r1 c1 ->
        has_phrase premium_phrase rows r1 c1 = true ->
        (forall r2 c2, in_window r2 c2 ->
           has_phrase schedule_phrase rows r2 c2 = true -> (r1 < r2)%nat) ->
        identify_report_type rows = Ok (Some Page19))
  /\ ((forall r c, in_window r c ->
         has_phrase premium_phrase rows r c = false
         /\ has_phrase schedule_phrase rows r c = false) ->
      identify_report_type rows = Ok None
      /\ forall (B : Builtins) name acc,
           process_worksheet {| Name := name; Rows := rows |} acc = Ok acc).
Proof.
  intros Hwf.
  assert (Hres : exists o, identify_report_type rows = Ok o).
  { unfold identify_report_type. rewrite (report_type_rows_wf _ Hwf). eauto. }
  destruct Hres as [o Ho]. pose proof (identify_report_type_result rows o Hwf Ho) as Hspec.
  split; [exact report_marker_upper|].
  split; [apply marker_at_premium|].
  split; [apply marker_at_schedule|].
  split; [intros r c t; apply identify_report_type_first; exact Hwf|].
  split.
  - intros r1 c1 Hin1 Hp Hlater. apply marker_at_premium in Hp.
    rewrite Ho. destruct o as [t|].
    + destruct Hspec as (r & c & Hin & Ht & Hbefore). destruct t; [reflexivity|].
      apply marker_at_schedule in Ht as [Hs _].
      specialize (Hlater r c Hin Hs).
      rewrite (Hbefore r1 c1 Hin1) in Hp; [discriminate | left; exact Hlater].
    + rewrite (Hspec r1 c1 Hin1) in Hp. discriminate.
  - intros Hnone.
    assert (Ho' : o = None).
    { destruct o as [t|]; [|reflexivity]. exfalso.
      destruct Hspec as (r & c & Hin & Ht & _). destruct (Hnone r c Hin) as [Hp Hs].
      destruct t.
      - apply marker_at_premium in Ht. congruence.
      - apply marker_at_schedule in Ht as [Ht _]. congruence. }
    subst o. split; [exact Ho|].
    intros B name acc. unfold process_worksheet. cbn [Rows]. rewrite Ho. reflexivity.
Qed.

Lemma identify_report_type_first_match_witness :
  Forall well_indexed (take 5 rows_both_markers)
  /\ has_phrase premium_phrase rows_both_markers 1 2 = true
  /\ has_phrase schedule_phrase rows_both_markers 2 1 = true
  /\ identify_report_type rows_both_markers = Ok (Some Page19).
Proof.
  assert (Hwf : Forall well_indexed (take 5 rows_both_markers)).
  { repeat constructor; discriminate. }
  split; [exact Hwf | split; [reflexivity | split; [reflexivity|]]].
  pose proof (identify_report_type_first_match rows_both_markers Hwf)
    as (_ & _ & _ & _ & Hboth & _).
  apply (Hboth 1%nat 2).
  - split; lia.
  - reflexivity.
  - intros r2 c2 [Hr Hc] Hs.
    assert (c2 = 1 \/ c2 = 2 \/ c2 = 3 \/ c2 = 4) as [-> | [-> | [-> | ->]]] by lia;
      destruct r2 as [|[|r2]]; try discriminate Hs; lia.
Defined.

(** ** The schedule line-of-business chain *)

Lemma lob_from_header_signal (rows : list Row) :
  (forall row, rows !! 2%nat = Some row -> well_indexed row) ->
  lob_from_header rows = Ok (header_signal rows).
Proof.
  intros Hwf. unfold lob_from_header, header_signal, third_row_text, list_item.
  destruct (rows !! 2%nat) as [row|] eqn:E.
  - apply lookup_lt_Some in E as Hlen.
    destruct (Nat.leb_spec 3 (length rows)) as [_|?]; [|lia].
    cbn [mbind result_bind].
    destruct (get_cell_data_ok row 1 (Hwf row eq_refl)) as [t ->]. cbn [mbind result_bind].
    destruct t as [t|]; [|reflexivity].
    unfold header_rules. cbn [first_rule].
    destruct (Str.truthy t) eqn:Et.
    + repeat (destruct (Str.contains _ (Str.upper t)); [reflexivity|]). reflexivity.
    + destruct t; [reflexivity | discriminate].
  - apply lookup_ge_None in E.
    destruct (Nat.leb_spec 3 (length rows)) as [?|_]; [lia | reflexivity].
Qed.

Lemma lob_from_name_rules (worksheet : Worksheet) (name : string) :
  Name worksheet = Some name ->
  lob_from_name worksheet =
  Ok (match first_rule name_rules (Str.upper name) with
      | Some lob => Some lob
      | None => first_rule summary_name_rules (Str.upper name)
      end).
Proof.
  intros E. unfold lob_from_name. rewrite E.
  unfold name_rules, summary_name_rules. cbn [first_rule].
  repeat (destruct (Str.contains _ (Str.upper name)); [reflexivity|]). reflexivity.
Qed.

(** C7.  [identify_sched_p_lob] is a fixed priority chain: the header text
    of the third row, column 1, decides first (liability, then physical
    damage, then summary); the worksheet-name rules and then the PG33 rule
    are consulted only when the header gave nothing, and then they alone
    decide; when nothing matches the answer is [None]. *)
Theorem identify_sched_p_lob_priority (worksheet : Worksheet) (rows : list Row) :
  (forall row, rows !! 2%nat = Some row -> well_indexed row) ->
  (forall lob, header_signal rows = Some lob ->
     identify_sched_p_lob worksheet rows = Ok (Some lob))
  /\ (header_signal rows = None ->
      identify_sched_p_lob worksheet rows = lob_from_name worksheet)
  /\ (forall name, Name worksheet = Some name ->
        identify_sched_p_lob worksheet rows = Ok (lob_chain rows name))
  /\ (forall name, Name worksheet = Some name ->
        header_signal rows = None ->
        first_rule name_rules (Str.upper name) = None ->
        first_rule summary_name_rules (Str.upper name) = None ->
        identify_sched_p_lob worksheet rows = Ok None).
Proof.
  intros Hwf. unfold identify_sched_p_lob. rewrite (lob_from_header_signal rows Hwf).
  cbn [mbind result_bind]. repeat split.
  - intros lob ->. reflexivity.
  - intros ->. reflexivity.
  - intros name Hname. unfold lob_chain.
    destruct (header_signal rows); [reflexivity|].
    apply lob_from_name_rules, Hname.
  - intros name Hname -> Hn Hs. rewrite (lob_from_name_rules _ _ Hname), Hn, Hs. reflexivity.
Qed.

Lemma identify_sched_p_lob_priority_witness :
  first_rule name_rules (Str.upper "Pg35 Auto Phys") = Some "APD"
  /\ identify_sched_p_lob ws_al_header rows_al_header = Ok (Some "AL").
Proof.
  split; [reflexivity|].
  assert (Hwf : forall row, rows_al_header !! 2%nat = Some row -> well_indexed row).
  { intros row [= <-]. repeat constructor; discriminate. }
  pose proof (identify_sched_p_lob_priority ws_al_header rows_al_header Hwf) as (Hheader & _).
  apply Hheader. reflexivity.
Defined.

(** The stand-alone check and the parser agree on which worksheets are
    processed, and as which line of business, whenever the worksheet has
    the three rows the check asks for. *)
Lemma test_verdict_agrees (worksheet : Worksheet) (name lob : string) :
  (3 <= length (Rows worksheet))%nat ->
  Name worksheet = Some name ->
  (forall row, Rows worksheet !! 2%nat = Some row -> well_indexed row) ->
  test_schedule_p_lob_identification worksheet = Ok (Processed lob) <->
  identify_sched_p_lob worksheet (Rows worksheet) = Ok (Some lob)
  /\ lob_is_al_or_apd (Some lob) = true.
Proof.
  intros Hlen Hname Hwf.
  unfold test_schedule_p_lob_identification, identify_sched_p_lob, lob_from_header,
    lob_from_name, list_item.
  rewrite Hname.
  destruct (Nat.ltb_spec (length (Rows worksheet)) 3) as [?|_]; [lia|].
  destruct (Nat.leb_spec 3 (length (Rows worksheet))) as [_|?]; [|lia].
  destruct (Rows worksheet !! 2%nat) as [row|] eqn:Erow;
    [|apply lookup_ge_None in Erow; lia].
  cbn [mbind result_bind].
  destruct (get_cell_data_ok row 1 (Hwf row eq_refl)) as [t ->]. cbn [mbind result_bind].
  destruct t as [t|]; [destruct (Str.truthy t)|]; cbv zeta;
    repeat (match goal with
            | |- context [Str.contains ?p ?s] => destruct (Str.contains p s)
            end; cbn [andb is_none mbind result_bind]);
    (split; [intros [= <-]; split; reflexivity | intros [[= <-] Hl]; try reflexivity; discriminate Hl]).
Qed.

(** ** Premium-exhibit extraction *)

Lemma read_numeric_inv `{Builtins} (data_row : Row) (hm : gmap string (option Z))
    (key : string) (x : option float) :
  read_numeric data_row hm key = Ok x -> x = numeric_at hm key data_row.
Proof.
  unfold read_numeric, numeric_at, getitem.
  destruct (hm !! key) as [col|]; [|discriminate]. cbn [mbind result_bind].
  destruct (get_cell_data data_row col); [|discriminate]. cbn [mbind result_bind].
  congruence.
Qed.

Lemma get_cell_data_opt_ok (row : Row) (col : option Z) :
  well_indexed row -> exists t, get_cell_data row col = Ok t.
Proof.
  intros Hwf. destruct col as [c|]; [apply get_cell_data_ok, Hwf | eexists; reflexivity].
Qed.

Lemma read_numeric_ok `{Builtins} (data_row : Row) (hm : gmap string (option Z)) (key : string) :
  well_indexed data_row -> is_Some (hm !! key) ->
  read_numeric data_row hm key = Ok (numeric_at hm key data_row).
Proof.
  intros Hwf [col Hcol]. unfold read_numeric, numeric_at, getitem. rewrite Hcol.
  cbn [mbind result_bind].
  destruct (get_cell_data_opt_ok data_row col Hwf) as [t ->]. reflexivity.
Qed.

Lemma page19_row_inv `{Builtins} (all_rows : list Row) (hm : gmap string (option Z))
    (meta : Page19Meta) (i : nat) (row : Row) (acc recs : list dict) :
  page19_row all_rows hm meta i row acc = Ok recs ->
  recs = acc ++ row_records all_rows hm meta i row.
Proof.
  unfold page19_row, row_records, row_lob, lagged_row, list_item.
  destruct (get_cell_data row (Some 2)) as [[s|]|]; cbn [mbind result_bind];
    [| intros [= <-]; symmetry; apply app_nil_r | discriminate].
  destruct (Str.truthy s); [|intros [= <-]; symmetry; apply app_nil_r].
  destruct (classify_lob (Str.strip s)) as [[code liab]|];
    [|intros [= <-]; symmetry; apply app_nil_r].
  replace (i + 1)%nat with (S i) by lia.
  destruct (String.eqb code "19.3").
  - destruct (all_rows !! S i) as [d|]; [|discriminate]. cbn [mbind result_bind].
    unfold record_from.
    destruct (read_numeric d hm "Direct Premiums Written") eqn:E1; [|discriminate].
    destruct (read_numeric d hm "Direct Premiums Earned") eqn:E2; [|discriminate].
    destruct (read_numeric d hm "Direct Losses Incurred") eqn:E3; [|discriminate].
    destruct (read_numeric d hm "Direct Defense and Cost Containment Expense Incurred") eqn:E4;
      [|discriminate].
    cbn [mbind result_bind]. intros [= <-].
    apply read_numeric_inv in E1, E2, E3, E4. subst. reflexivity.
  - cbn [mbind result_bind]. unfold record_from.
    destruct (read_numeric row hm "Direct Premiums Written") eqn:E1; [|discriminate].
    destruct (read_numeric row hm "Direct Premiums Earned") eqn:E2; [|discriminate].
    destruct (read_numeric row hm "Direct Losses Incurred") eqn:E3; [|discriminate].
    destruct (read_numeric row hm "Direct Defense and Cost Containment Expense Incurred") eqn:E4;
      [|discriminate].
    cbn [mbind result_bind]. intros [= <-].
    apply read_numeric_inv in E1, E2, E3, E4. subst. reflexivity.
Qed.

Lemma page19_loop_inv `{Builtins} (all_rows : list Row) (hm : gmap string (option Z))
    (meta : Page19Meta) (rows : list Row) (i : nat) (acc recs : list dict) :
  page19_loop all_rows hm meta i rows acc = Ok recs ->
  recs = acc ++ concat (imap (fun k => row_records all_rows hm meta (i + k)) rows).
Proof.
  revert i acc recs. induction rows as [|row rows IH]; intros i acc recs.
  - cbn. intros [= <-]. symmetry. apply app_nil_r.
  - cbn [page19_loop]. destruct (page19_row all_rows hm meta i row acc) as [acc'|] eqn:E;
      [|discriminate].
    cbn [mbind result_bind]. intros Hloop. apply IH in Hloop. apply page19_row_inv in E.
    subst. rewrite imap_cons. cbn [concat]. rewrite Nat.add_0_r, <- app_assoc.
    f_equal. f_equal. f_equal. apply imap_ext. intros k r _. cbn. f_equal. lia.
Qed.

Lemma page19_row_ok `{Builtins} (all_rows : list Row) (hm : gmap string (option Z))
    (meta : Page19Meta) (i : nat) (row : Row) (acc : list dict) :
  well_indexed row ->
  (forall d, all_rows !! S i = Some d -> well_indexed d) ->
  has_page19_keys hm ->
  (forall liab, row_lob row = Some ("19.3", liab) -> is_Some (all_rows !! S i)) ->
  page19_row all_rows hm meta i row acc = Ok (acc ++ row_records all_rows hm meta i row).
Proof.
  intros Hrow Hnext (K1 & K2 & K3 & K4) Hlag.
  unfold page19_row, row_records, row_lob, lagged_row, list_item in *.
  destruct (get_cell_data_ok row 2 Hrow) as [t Ht]. rewrite Ht in *. cbn [mbind result_bind].
  destruct t as [s|]; [|rewrite app_nil_r; reflexivity].
  destruct (Str.truthy s); [|rewrite app_nil_r; reflexivity].
  destruct (classify_lob (Str.strip s)) as [[code liab]|]; [|rewrite app_nil_r; reflexivity].
  replace (i + 1)%nat with (S i) by lia.
  destruct (String.eqb_spec code "19.3") as [->|Hne].
  - destruct (Hlag liab eq_refl) as [d Hd]. rewrite Hd. cbn [mbind result_bind].
    rewrite !read_numeric_ok by auto. reflexivity.
  - cbn [mbind result_bind]. rewrite !read_numeric_ok by auto. reflexivity.
Qed.

Lemma page19_loop_ok `{Builtins} (all_rows : list Row) (hm : gmap string (option Z))
    (meta : Page19Meta) (rows : list Row) (i : nat) (acc : list dict) :
  Forall well_indexed all_rows ->
  Forall well_indexed rows ->
  has_page19_keys hm ->
  (forall k row liab, rows !! k = Some row -> row_lob row = Some ("19.3", liab) ->
     is_Some (all_rows !! S (i + k))) ->
  page19_loop all_rows hm meta i rows acc =
  Ok (acc ++ concat (imap (fun k => row_records all_rows hm meta (i + k)) rows)).
Proof.
  intros Hall Hrows Hkeys. revert i acc.
  induction Hrows as [|row rows Hrow Hrows IH]; intros i acc Hlag.
  - cbn. rewrite app_nil_r. reflexivity.
  - cbn [page19_loop]. rewrite page19_row_ok; try assumption.
    + cbn [mbind result_bind]. rewrite IH.
      * rewrite imap_cons. cbn [concat]. rewrite Nat.add_0_r, <- app_assoc.
        f_equal. f_equal. f_equal. f_equal. apply imap_ext. intros k r _. cbn. f_equal. lia.
      * intros k r liab Hk Hr. replace (S i + k)%nat with (i + S k)%nat by lia.
        apply (Hlag (S k) r liab Hk Hr).
    + intros d Hd. exact (Forall_lookup_1 _ _ _ _ Hall Hd).
    + intros liab Hr. specialize (Hlag 0%nat row liab eq_refl Hr).
      rewrite Nat.add_0_r in Hlag. exact Hlag.
Qed.

Lemma page19_row_index_error `{Builtins} (all_rows : list Row) (hm : gmap string (option Z))
    (meta : Page19Meta) (i : nat) (row : Row) (liab : string) (acc : list dict) :
  row_lob row = Some ("19.3", liab) ->
  all_rows !! S i = None ->
  page19_row all_rows hm meta i row acc = Raise IndexError.
Proof.
  unfold page19_row, row_lob, list_item. intros Hlob Hnone.
  destruct (get_cell_data row (Some 2)) as [[s|]|]; try discriminate.
  cbn [mbind result_bind]. destruct (Str.truthy s); [|discriminate]. rewrite Hlob.
  replace (i + 1)%nat with (S i) by lia. cbn. rewrite Hnone. reflexivity.
Qed.

Lemma page19_loop_app `{Builtins} (all_rows : list Row) (hm : gmap string (option Z))
    (meta : Page19Meta) (l1 l2 : list Row) (i : nat) (acc : list dict) :
  page19_loop all_rows hm meta i (l1 ++ l2) acc =
  (acc' ← page19_loop all_rows hm meta i l1 acc;
   page19_loop all_rows hm meta (i + length l1) l2 acc').
Proof.
  revert i acc. induction l1 as [|row l1 IH]; intros i acc.
  - cbn. rewrite Nat.add_0_r. reflexivity.
  - cbn [app page19_loop length]. destruct (page19_row all_rows hm meta i row acc) as [acc'|].
    + cbn [mbind result_bind]. rewrite IH. replace (S i + length l1)%nat with (i + S (length l1))%nat by lia.
      reflexivity.
    + reflexivity.
Qed.

(** What the records of the body are when it does not stop early. *)
Lemma process_page19_body_inv `{Builtins} (worksheet : Worksheet) (recs : list dict) :
  process_page19_body worksheet = Ok recs ->
  recs = [] \/
  exists hm meta,
    find_page19_header_map (Rows worksheet) = Ok hm
    /\ hm <> ∅ /\ any_none hm = false
    /\ page19_loop (Rows worksheet) hm meta 0 (Rows worksheet) [] = Ok recs.
Proof.
  unfold process_page19_body. destruct (Rows worksheet) as [|first rest] eqn:Erows.
  { intros [= <-]. left. reflexivity. }
  destruct (get_cell_data first (Some 2)) as [[hs|]|]; cbn [mbind result_bind];
    [| intros [= <-]; left; reflexivity | discriminate].
  destruct (Str.truthy hs); cbn [negb]; [|intros [= <-]; left; reflexivity].
  destruct (Header.search hs) as [groups|]; [|intros [= <-]; left; reflexivity].
  destruct (header_fields groups) as [[[year company] naic]|]; [|discriminate].
  cbn [mbind result_bind].
  destruct (state_rows _ _) as [state|]; [|discriminate]. cbn [mbind result_bind].
  destruct (find_page19_header_map (first :: rest)) as [hm|] eqn:Ehm; [|discriminate].
  cbn [mbind result_bind].
  destruct (bool_decide (hm = ∅)) eqn:Eempty; [intros [= <-]; left; reflexivity|].
  destruct (any_none hm) eqn:Enone; [intros [= <-]; left; reflexivity|].
  cbn [orb]. intros Hloop. right. eexists hm, _. repeat split; try eassumption.
  apply bool_decide_eq_false in Eempty. exact Eempty.
Qed.

Lemma row_lob_rounded `{Builtins} (row : Row) (code liab : string) :
  row_lob row = Some (code, liab) <->
  exists y, rounded_code row = Some y
    /\ ((PrimFloat.eqb y 19.3%float = true /\ code = "19.3" /\ liab = "AL")
        \/ (PrimFloat.eqb y 19.3%float = false /\ PrimFloat.eqb y 19.4%float = true
            /\ code = "19.4" /\ liab = "AL")
        \/ (PrimFloat.eqb y 19.3%float = false /\ PrimFloat.eqb y 19.4%float = false
            /\ PrimFloat.eqb y 21.2%float = true /\ code = "21.2" /\ liab = "APD")).
Proof.
  unfold row_lob, rounded_code, classify_lob.
  destruct (get_cell_data row (Some 2)) as [[s|]|];
    try (split; [discriminate | intros (y & Hy & _); discriminate]).
  destruct (Str.truthy s);
    [|split; [discriminate | intros (y & Hy & _); discriminate]].
  destruct (py_float (Str.strip s)) as [x|];
    [|split; [discriminate | intros (y & Hy & _); discriminate]].
  destruct (PrimFloat.eqb (py_round1 x) 19.3%float) eqn:E1;
    [|destruct (PrimFloat.eqb (py_round1 x) 19.4%float) eqn:E2;
      [|destruct (PrimFloat.eqb (py_round1 x) 21.2%float) eqn:E3]].
  all: split;
    [ intros [= <- <-]; (eexists; split; [reflexivity|]; tauto)
    | intros (y & [= <-] & Hcases);
      destruct Hcases as [(? & -> & ->) | [(? & ? & -> & ->) | (? & ? & ? & -> & ->)]];
      congruence ].
Qed.

Lemma elem_of_expected_records `{Builtins} (all_rows : list Row) (hm : gmap string (option Z))
    (meta : Page19Meta) (rec : dict) :
  rec ∈ expected_records all_rows hm meta <->
  exists r row code liab d,
    all_rows !! r = Some row /\ row_lob row = Some (code, liab)
    /\ lagged_row all_rows r row code = Some d
    /\ rec = record_from hm meta liab code d.
Proof.
  unfold expected_records. rewrite list_elem_of_In, in_concat. split.
  - intros (l & Hl & Hrec). apply list_elem_of_In, elem_of_lookup_imap in Hl
      as (r & row & -> & Hrow).
    unfold row_records in Hrec.
    destruct (row_lob row) as [[code liab]|] eqn:Elob; [|destruct Hrec].
    destruct (lagged_row all_rows r row code) as [d|] eqn:Ed; [|destruct Hrec].
    destruct Hrec as [<-|[]]. exists r, row, code, liab, d. auto.
  - intros (r & row & code & liab & d & Hrow & Hlob & Hd & ->).
    exists (row_records all_rows hm meta r row). split.
    + apply list_elem_of_In, elem_of_lookup_imap. eauto.
    + unfold row_records. rewrite Hlob, Hd. left. reflexivity.
Qed.

Lemma process_page19_records `{Builtins} (worksheet : Worksheet) (recs : list dict) :
  process_page19_worksheet worksheet = Ok recs ->
  recs = [] \/
  exists hm meta,
    find_page19_header_map (Rows worksheet) = Ok hm
    /\ recs = expected_records (Rows worksheet) hm meta.
Proof.
  unfold process_page19_worksheet, try_except.
  destruct (process_page19_body worksheet) as [recs0|] eqn:E;
    [|intros [= <-]; left; reflexivity].
  intros [= <-].
  apply process_page19_body_inv in E as [-> | (hm & meta & Hhm & _ & _ & Hloop)];
    [left; reflexivity|].
  right. exists hm, meta. split; [exact Hhm|].
  apply page19_loop_inv in Hloop. exact Hloop.
Qed.

(** ** The lagged row past the end *)

Lemma page19_loop_last_raises `{Builtins} (pre : list Row) (last : Row) (liab : string)
    (hm : gmap string (option Z)) (meta : Page19Meta) :
  row_lob last = Some ("19.3", liab) ->
  page19_loop (pre ++ [last]) hm meta 0 (pre ++ [last]) [] =
  match page19_loop (pre ++ [last]) hm meta 0 pre [] with
  | Ok _ => Raise IndexError
  | Raise e => Raise e
  end.
Proof.
  intros Hlob. rewrite page19_loop_app at 1.
  destruct (page19_loop (pre ++ [last]) hm meta 0 pre []) as [assembled|e]; [|reflexivity].
  cbn [mbind result_bind page19_loop].
  rewrite (page19_row_index_error _ _ _ _ _ liab); [reflexivity | exact Hlob |].
  apply lookup_ge_None. rewrite length_app. cbn. lia.
Qed.

(** C10.  When the last row of a premium-exhibit worksheet carries code
    19.3, reading the row after it raises [IndexError]; the handler of the
    worksheet catches it and the worksheet yields no record at all,
    whatever had been assembled from the rows before. *)
Theorem page19_lag_past_end `{Builtins} (worksheet : Worksheet) (pre : list Row) (last : Row)
    (liab : string) :
  Rows worksheet = pre ++ [last] ->
  row_lob last = Some ("19.3", liab) ->
  process_page19_worksheet worksheet = Ok []
  /\ (forall hm meta assembled,
        page19_loop (Rows worksheet) hm meta 0 pre [] = Ok assembled ->
        page19_loop (Rows worksheet) hm meta 0 (Rows worksheet) [] = Raise IndexError)
  /\ (forall hm meta recs,
        page19_loop (Rows worksheet) hm meta 0 (Rows worksheet) [] <> Ok recs)
  /\ (forall recs, process_page19_body worksheet = Ok recs -> recs = []).
Proof.
  intros Hrows Hlob.
  assert (Hraise : forall hm meta assembled,
            page19_loop (Rows worksheet) hm meta 0 pre [] = Ok assembled ->
            page19_loop (Rows worksheet) hm meta 0 (Rows worksheet) [] = Raise IndexError).
  { intros hm meta assembled. rewrite Hrows, (page19_loop_last_raises pre last liab) by exact Hlob.
    intros ->. reflexivity. }
  assert (Hnever : forall hm meta recs,
            page19_loop (Rows worksheet) hm meta 0 (Rows worksheet) [] <> Ok recs).
  { intros hm meta recs. rewrite Hrows, (page19_loop_last_raises pre last liab) by exact Hlob.
    destruct (page19_loop _ _ _ _ pre []); discriminate. }
  assert (Hbody : forall recs, process_page19_body worksheet = Ok recs -> recs = []).
  { intros recs Hrecs. apply process_page19_body_inv in Hrecs as [-> | (hm & meta & _ & _ & _ & Hloop)];
      [reflexivity | destruct (Hnever _ _ _ Hloop)]. }
  split; [|split; [exact Hraise | split; [exact Hnever | exact Hbody]]].
  unfold process_page19_worksheet, try_except.
  destruct (process_page19_body worksheet) as [recs|]; [|reflexivity].
  rewrite (Hbody recs eq_refl). reflexivity.
Qed.

Lemma page19_lag_past_end_witness :
  @page19_loop ref_builtins (Rows ws_premium_cut) hm_premium meta_premium 0 (take 5 rows_premium) []
  = Ok [ [ ("YEAR", VInt 2022); ("Compan_Name", VStr "ACME INSURANCE CO");
           ("NAIC", VStr "12345"); ("State", VStr "TEXAS");
           ("Liability", VStr "APD"); ("LOB", VStr "21.2");
           ("GWP", VFloat 1000); ("EP", VFloat 900);
           ("LOSSES_INCURRED", VFloat (-50));
           ("DIRECT_LOSSES_INC", VFloat (-50)); ("DCC", VNone) ] ]
  /\ @page19_loop ref_builtins (Rows ws_premium_cut) hm_premium meta_premium 0
       (Rows ws_premium_cut) [] = Raise IndexError
  /\ @process_page19_worksheet ref_builtins ws_premium_cut = Ok [].
Proof.
  pose proof (@page19_lag_past_end ref_builtins ws_premium_cut (take 5 rows_premium)
                [ text_cell_at "2" "19.3"; text_cell_at "8" "7" ] "AL"
                eq_refl ltac:(vm_compute; reflexivity)) as (Hempty & Hraise & _).
  split; [vm_compute; reflexivity | split; [|exact Hempty]].
  eapply Hraise. vm_compute. reflexivity.
Defined.

(** ** Header resolution failure *)

Lemma sched_row_scan_found (row cells : list Cell) (idx : Z) (m m' : gmap Z Z)
    (found found' : gset string) (P : string -> Prop) :
  (forall cell, cell ∈ cells -> cell ∈ row) ->
  (forall t, (exists cell, cell ∈ row /\ cell_text cell = Some t) -> t ∈ targets_to_find -> P t) ->
  (forall t, t ∈ found -> P t) ->
  sched_row_scan cells idx m found = Ok (m', found') ->
  forall t, t ∈ found' -> P t.
Proof.
  intros Hsub Hrow. revert idx m found.
  induction cells as [|cell cells IH]; intros idx m found Hfound.
  - cbn. intros [= <- <-]. exact Hfound.
  - cbn [sched_row_scan]. destruct (cell_column cell idx) as [k|]; [|discriminate].
    cbn [mbind result_bind].
    assert (Hcells : forall c, c ∈ cells -> c ∈ row).
    { intros c Hc. apply Hsub. right. exact Hc. }
    destruct (cell_text cell) as [t0|] eqn:Et; [|apply (IH Hcells); exact Hfound].
    destruct (bool_decide (t0 ∈ targets_to_find)) eqn:Ein; cbn [andb];
      [|apply (IH Hcells); exact Hfound].
    destruct (bool_decide (t0 ∉ found)); [|apply (IH Hcells); exact Hfound].
    destruct (py_int t0) as [num|]; [|discriminate]. cbn [mbind result_bind].
    apply (IH Hcells). intros t [Ht | Ht%elem_of_singleton]%elem_of_union.
    + apply Hfound, Ht.
    + subst t. apply Hrow.
      * exists cell. split; [apply Hsub; left | exact Et].
      * apply bool_decide_eq_true in Ein. exact Ein.
Qed.

Lemma sched_rows_scan_found (all_rows rows : list Row) (m m' : gmap Z Z)
    (found found' : gset string) :
  (forall row, row ∈ rows -> row ∈ all_rows) ->
  (forall t, t ∈ found -> t ∈ targets_to_find /\ token_in_rows t all_rows) ->
  sched_rows_scan rows m found = Ok (m', found') ->
  forall t, t ∈ found' -> t ∈ targets_to_find /\ token_in_rows t all_rows.
Proof.
  revert m found. induction rows as [|row rows IH]; intros m found Hsub Hfound.
  - cbn. intros [= <- <-]. exact Hfound.
  - cbn [sched_rows_scan].
    destruct (sched_row_scan row 1 m found) as [[m1 found1]|] eqn:Erow; [|discriminate].
    cbn [mbind result_bind].
    assert (Hfound1 : forall t, t ∈ found1 -> t ∈ targets_to_find /\ token_in_rows t all_rows).
    { apply (sched_row_scan_found row row 1 m m1 found found1); [auto | | exact Hfound | exact Erow].
      intros t (cell & Hcell & Ht) Hin. split; [exact Hin|].
      exists row, cell. split; [apply Hsub; left | split; assumption]. }
    destruct (bool_decide (size found1 = size targets_to_find)).
    + intros [= <- <-]. exact Hfound1.
    + apply IH; [|exact Hfound1]. intros r Hr. apply Hsub. right. exact Hr.
Qed.

Lemma find_schedule_p_headers_inv (rows : list Row) (hm : gmap string (option Z)) :
  find_schedule_p_headers rows = Ok hm -> hm = ∅ \/ schedule_tokens_found rows.
Proof.
  unfold find_schedule_p_headers.
  destruct (sched_rows_scan (take 50 rows) ∅ ∅) as [[m found]|] eqn:E; [|discriminate].
  cbn [mbind result_bind].
  destruct (bool_decide (size found ≠ size targets_to_find)) eqn:Esize.
  - intros [= <-]. left. reflexivity.
  - intros _. right. apply bool_decide_eq_false in Esize.
    assert (Hsize : size found = size targets_to_find).
    { destruct (decide (size found = size targets_to_find)); [assumption | contradiction]. }
    pose proof (sched_rows_scan_found (take 50 rows) (take 50 rows) ∅ m ∅ found
                  (fun _ H => H) ltac:(set_solver) E) as Hfound.
    assert (Heq : found = targets_to_find).
    { apply set_subseteq_size_eq; [|lia]. intros t Ht. apply Hfound, Ht. }
    subst found. unfold schedule_tokens_found.
    repeat split; apply Hfound; unfold targets_to_find; set_solver.
Qed.

Lemma sched_loop_no_columns `{Builtins} (all_rows : list Row) (meta : SchedMeta)
    (a b c : nat) (offsets : list nat) (recs : list dict) :
  sched_loop all_rows ∅ meta a b c offsets [] = Ok recs -> recs = [].
Proof.
  revert recs. induction offsets as [|i offsets IH]; intros recs.
  - cbn. congruence.
  - cbn [sched_loop]. cbv zeta.
    destruct (negb _); [congruence|].
    destruct (list_item all_rows (a + i)) as [row_ep|]; [|discriminate].
    destruct (list_item all_rows (b + i)) as [row_claims|]; [|discriminate].
    destruct (list_item all_rows (c + i)) as [row_losses|]; [|discriminate].
    cbn [mbind result_bind].
    destruct (get_cell_data row_ep (Some 3)) as [[year|]|]; cbn [mbind result_bind];
      [|apply IH|discriminate].
    destruct (Str.truthy year); [|apply IH].
    unfold read_numeric at 1, getitem. rewrite lookup_empty. discriminate.
Qed.

Lemma process_schedule_p_body_inv `{Builtins} (worksheet : Worksheet) (lob : string)
    (recs : list dict) :
  process_schedule_p_body worksheet lob = Ok recs ->
  recs = [] \/
  exists hm meta a b c,
    find_schedule_p_headers (Rows worksheet) = Ok hm
    /\ sched_loop (Rows worksheet) hm meta a b c (seq 0 12) [] = Ok recs.
Proof.
  unfold process_schedule_p_body. destruct (Rows worksheet) as [|first rest] eqn:Erows.
  { intros [= <-]. left. reflexivity. }
  destruct (get_cell_data first (Some 2)) as [[hs|]|]; cbn [mbind result_bind];
    [| intros [= <-]; left; reflexivity | discriminate].
  destruct (Str.truthy hs); cbn [negb]; [|intros [= <-]; left; reflexivity].
  destruct (Header.search hs) as [groups|]; [|intros [= <-]; left; reflexivity].
  destruct (header_fields groups) as [[[year company] naic]|]; [|discriminate].
  cbn [mbind result_bind].
  destruct (find_schedule_p_headers (first :: rest)) as [hm|] eqn:Ehm; [|discriminate].
  cbn [mbind result_bind].
  destruct (all_values hm); cbn [negb]; [|intros [= <-]; left; reflexivity].
  destruct (prior_rows 0 (first :: rest) []) as [prior|]; [|discriminate].
  cbn [mbind result_bind].
  destruct prior as [|a prior]; [intros [= <-]; left; reflexivity|].
  destruct prior as [|b prior]; [intros [= <-]; left; reflexivity|].
  destruct prior as [|c prior]; [intros [= <-]; left; reflexivity|].
  intros Hloop. right. eexists hm, _, a, b, c. split; [reflexivity | exact Hloop].
Qed.

Lemma process_schedule_p_unresolved `{Builtins} (worksheet : Worksheet) (lob : string) :
  ~ schedule_tokens_found (Rows worksheet) ->
  process_schedule_p_worksheet worksheet lob = Ok [].
Proof.
  intros Hmissing. unfold process_schedule_p_worksheet, try_except.
  destruct (process_schedule_p_body worksheet lob) as [recs|] eqn:E; [|reflexivity].
  apply process_schedule_p_body_inv in E as [-> | (hm & meta & a & b & c & Hhm & Hloop)];
    [reflexivity|].
  apply find_schedule_p_headers_inv in Hhm as [-> | Hfound]; [|contradiction].
  apply sched_loop_no_columns in Hloop. subst recs. reflexivity.
Qed.

Lemma number_row_scan_code (cells : list Cell) (idx code : Z) (m m' : gmap Z Z) :
  number_row_scan cells idx m = Ok m' ->
  m !! code = None ->
  (forall cell t, cell ∈ cells -> cell_text cell = Some t ->
     Str.isdigit t = true -> py_int t <> Ok code) ->
  m' !! code = None.
Proof.
  revert idx m. induction cells as [|cell cells IH]; intros idx m.
  - cbn. intros [= <-] Hm _. exact Hm.
  - cbn [number_row_scan]. destruct (cell_column cell idx) as [k|]; [|discriminate].
    cbn [mbind result_bind]. intros Hscan Hm Hcells.
    assert (Htail : forall c t, c ∈ cells -> cell_text c = Some t ->
              Str.isdigit t = true -> py_int t <> Ok code).
    { intros c t Hc. apply Hcells. right. exact Hc. }
    destruct (cell_text cell) as [t|] eqn:Et; [|exact (IH _ _ Hscan Hm Htail)].
    destruct (Str.isdigit t) eqn:Ed; [|exact (IH _ _ Hscan Hm Htail)].
    destruct (py_int t) as [num|] eqn:Enum; [|discriminate]. cbn [mbind result_bind] in Hscan.
    apply (IH _ _ Hscan); [|exact Htail].
    rewrite lookup_insert_ne; [exact Hm|]. intros ->.
    apply (Hcells cell t); [left | exact Et | exact Ed | exact Enum].
Qed.

Lemma find_number_row_no_anchor (rows : list Row) (m : gmap Z Z) :
  (forall row, row ∈ rows -> is_anchor row = false) ->
  find_number_row rows = Ok m -> m = ∅.
Proof.
  induction rows as [|row rows IH]; intros Hnone.
  - cbn. congruence.
  - cbn [find_number_row]. pose proof (Hnone row ltac:(left)) as Hrow.
    unfold is_anchor in Hrow.
    destruct (get_cell_data row (Some 8)) as [c1|]; [|discriminate].
    destruct (get_cell_data row (Some 9)) as [c2|]; [|discriminate].
    cbn [mbind result_bind]. rewrite Hrow. apply IH.
    intros r Hr. apply Hnone. right. exact Hr.
Qed.

Lemma find_number_row_anchor (rows : list Row) (i : nat) (anchor : Row) (m : gmap Z Z) :
  rows !! i = Some anchor ->
  is_anchor anchor = true ->
  (forall j row, (j < i)%nat -> rows !! j = Some row -> is_anchor row = false) ->
  find_number_row rows = Ok m -> number_row_scan anchor 1 ∅ = Ok m.
Proof.
  revert i. induction rows as [|row rows IH]; intros i Hi Hanchor Hbefore; [discriminate|].
  cbn [find_number_row]. destruct i as [|i].
  - injection Hi as ->. unfold is_anchor in Hanchor.
    destruct (get_cell_data anchor (Some 8)) as [c1|]; [|discriminate].
    destruct (get_cell_data anchor (Some 9)) as [c2|]; [|discriminate].
    cbn [mbind result_bind]. rewrite Hanchor. auto.
  - pose proof (Hbefore 0%nat row (Nat.lt_0_succ i) eq_refl) as Hrow.
    unfold is_anchor in Hrow.
    destruct (get_cell_data row (Some 8)) as [c1|]; [|discriminate].
    destruct (get_cell_data row (Some 9)) as [c2|]; [|discriminate].
    cbn [mbind result_bind]. rewrite Hrow. apply (IH i Hi Hanchor).
    intros j r Hj Hr. apply (Hbefore (S j) r); [lia | exact Hr].
Qed.

Lemma any_none_lookup (hm : gmap string (option Z)) (k : string) :
  hm !! k = Some None -> any_none hm = true.
Proof.
  intros Hk. unfold any_none. apply existsb_exists. exists (k, None).
  split; [|reflexivity]. apply list_elem_of_In, elem_of_map_to_list. exact Hk.
Qed.

Lemma find_page19_header_map_untranslated (rows : list Row) (i : nat) (anchor : Row)
    (code : Z) (hm : gmap string (option Z)) :
  take 10 rows !! i = Some anchor ->
  is_anchor anchor = true ->
  (forall j row, (j < i)%nat -> take 10 rows !! j = Some row -> is_anchor row = false) ->
  code = 1 \/ code = 2 \/ code = 6 \/ code = 9 ->
  ~ code_on_row code anchor ->
  find_page19_header_map rows = Ok hm ->
  hm = ∅ \/ any_none hm = true.
Proof.
  intros Hi Hanchor Hbefore Hcode Hnot. unfold find_page19_header_map.
  destruct (find_number_row (take 10 rows)) as [m|] eqn:Em; [|discriminate].
  cbn [mbind result_bind].
  destruct (bool_decide (m = ∅)); [intros [= <-]; left; reflexivity|].
  intros [= <-]. right.
  apply (find_number_row_anchor _ i anchor m Hi Hanchor Hbefore) in Em.
  assert (Hm : m !! code = None).
  { apply (number_row_scan_code anchor 1 code ∅ m Em); [apply lookup_empty|].
    intros cell t Hcell Ht Hd Hnum. apply Hnot. exists cell, t. auto. }
  destruct Hcode as [-> | [-> | [-> | ->]]].
  - apply (any_none_lookup _ "Direct Premiums Written").
    rewrite !lookup_insert_ne by discriminate. rewrite lookup_insert_eq. f_equal. exact Hm.
  - apply (any_none_lookup _ "Direct Premiums Earned").
    rewrite !lookup_insert_ne by discriminate. rewrite lookup_insert_eq. f_equal. exact Hm.
  - apply (any_none_lookup _ "Direct Losses Incurred").
    rewrite !lookup_insert_ne by discriminate. rewrite lookup_insert_eq. f_equal. exact Hm.
  - apply (any_none_lookup _ "Direct Defense and Cost Containment Expense Incurred").
    rewrite lookup_insert_eq. f_equal. exact Hm.
Qed.

Lemma find_page19_header_map_no_anchor (rows : list Row) (hm : gmap string (option Z)) :
  (forall row, row ∈ take 10 rows -> is_anchor row = false) ->
  find_page19_header_map rows = Ok hm -> hm = ∅.
Proof.
  intros Hnone. unfold find_page19_header_map.
  destruct (find_number_row (take 10 rows)) as [m|] eqn:Em; [|discriminate].
  cbn [mbind result_bind].
  rewrite (find_number_row_no_anchor _ m Hnone Em).
  rewrite bool_decide_eq_true_2 by reflexivity. congruence.
Qed.

Lemma process_page19_unresolved `{Builtins} (worksheet : Worksheet) :
  (forall hm, find_page19_header_map (Rows worksheet) = Ok hm -> hm = ∅ \/ any_none hm = true) ->
  process_page19_worksheet worksheet = Ok [].
Proof.
  intros Hhm. unfold process_page19_worksheet, try_except.
  destruct (process_page19_body worksheet) as [recs|] eqn:E; [|reflexivity].
  apply process_page19_body_inv in E as [-> | (hm & meta & Hmap & Hne & Hnone & _)];
    [reflexivity|].
  destruct (Hhm hm Hmap) as [-> | Hany]; [contradiction | congruence].
Qed.

(** C4.  When header resolution fails the worksheet yields no record and
    the extraction returns normally: in the loss-schedule variant when not
    all of the tokens 1, 25 and 26 occur within the first 50 rows; in the
    premium-exhibit variant when none of the first 10 rows is the anchor
    row, or when the anchor row lacks one of the codes 1, 2, 6 and 9. *)
Theorem header_resolution_failure `{Builtins} (worksheet : Worksheet) :
  (forall lob, ~ schedule_tokens_found (Rows worksheet) ->
     process_schedule_p_worksheet worksheet lob = Ok [])
  /\ ((forall row, row ∈ take 10 (Rows worksheet) -> is_anchor row = false) ->
      process_page19_worksheet worksheet = Ok [])
  /\ (forall i anchor code,
        take 10 (Rows worksheet) !! i = Some anchor ->
        is_anchor anchor = true ->
        (forall j row, (j < i)%nat -> take 10 (Rows worksheet) !! j = Some row ->
           is_anchor row = false) ->
        code = 1 \/ code = 2 \/ code = 6 \/ code = 9 ->
        ~ code_on_row code anchor ->
        process_page19_worksheet worksheet = Ok [])
  /\ (forall lob, exists recs, process_schedule_p_worksheet worksheet lob = Ok recs)
  /\ (exists recs, process_page19_worksheet worksheet = Ok recs).
Proof.
  split; [|split; [|split; [|split]]].
  - intros lob. apply process_schedule_p_unresolved.
  - intros Hnone. apply process_page19_unresolved. intros hm Hhm. left.
    exact (find_page19_header_map_no_anchor _ hm Hnone Hhm).
  - intros i anchor code Hi Hanchor Hbefore Hcode Hnot. apply process_page19_unresolved.
    intros hm. exact (find_page19_header_map_untranslated _ i anchor code hm
                        Hi Hanchor Hbefore Hcode Hnot).
  - intros lob. unfold process_schedule_p_worksheet, try_except.
    destruct (process_schedule_p_body worksheet lob); eauto.
  - unfold process_page19_worksheet, try_except.
    destruct (process_page19_body worksheet); eauto.
Qed.

Lemma token_in_rows_has_token (token : string) (rows : list Row) :
  token_in_rows token rows -> has_token token rows = true.
Proof.
  intros (row & cell & Hrow & Hcell & Ht). unfold has_token.
  apply existsb_exists. exists row. split; [apply list_elem_of_In, Hrow|].
  apply existsb_exists. exists cell. split; [apply list_elem_of_In, Hcell|].
  apply bool_decide_eq_true_2, Ht.
Qed.

Lemma code_on_row_has_code (code : Z) (row : Row) :
  code_on_row code row -> has_code code row = true.
Proof.
  intros (cell & t & Hcell & Ht & Hd & Hnum). unfold has_code.
  apply existsb_exists. exists cell. split; [apply list_elem_of_In, Hcell|].
  rewrite Ht, Hd. apply bool_decide_eq_true_2, Hnum.
Qed.

Lemma header_resolution_failure_witness :
  has_token "1" (take 50 (Rows ws_schedule_two_tokens)) = true
  /\ has_token "25" (take 50 (Rows ws_schedule_two_tokens)) = true
  /\ has_token "26" (take 50 (Rows ws_schedule_two_tokens)) = false
  /\ @process_schedule_p_body ref_builtins ws_schedule_two_tokens "AL" = Raise KeyError
  /\ @process_schedule_p_worksheet ref_builtins ws_schedule_two_tokens "AL" = Ok []
  /\ @process_page19_worksheet ref_builtins ws_premium_no_code_9 = Ok [].
Proof.
  pose proof (@header_resolution_failure ref_builtins ws_schedule_two_tokens)
    as (Hschedule & _).
  pose proof (@header_resolution_failure ref_builtins ws_premium_no_code_9)
    as (_ & _ & Hcode & _).
  split; [vm_compute; reflexivity|].
  split; [vm_compute; reflexivity|].
  split; [vm_compute; reflexivity|].
  split; [vm_compute; reflexivity|].
  split.
  - apply Hschedule. intros (_ & _ & H26).
    apply token_in_rows_has_token in H26. vm_compute in H26. discriminate.
  - apply (Hcode 3%nat
             [ text_cell_at "8" "1"; text_cell "2"; text_cell "3"; text_cell "4";
               text_cell "5"; text_cell "6"; text_cell "7"; text_cell "8" ] 9).
    + reflexivity.
    + vm_compute. reflexivity.
    + intros j row Hj Hrow. destruct j as [|[|[|j]]]; [| | |lia];
        injection Hrow as <-; vm_compute; reflexivity.
    + auto.
    + intros Hon. apply code_on_row_has_code in Hon. vm_compute in Hon. discriminate.
Defined.

(** ** Fault containment in the file loop *)

Lemma process_worksheets_app `{Builtins} (l1 l2 : list Worksheet) (acc : Acc) :
  process_worksheets (l1 ++ l2) acc =
  match process_worksheets l1 acc with
  | (acc', None) => process_worksheets l2 acc'
  | (acc', Some e) => (acc', Some e)
  end.
Proof.
  revert acc. induction l1 as [|w l1 IH]; intros acc; [reflexivity|].
  cbn [app process_worksheets]. destruct (process_worksheet w acc); [apply IH | reflexivity].
Qed.

Lemma process_worksheet_log `{Builtins} (w : Worksheet) (acc acc' : Acc) :
  process_worksheet w acc = Ok acc' ->
  critical_log acc' = critical_log acc
  /\ (exists l, all_page19_data acc' = all_page19_data acc ++ l)
  /\ (exists l, all_sched_p_data acc' = all_sched_p_data acc ++ l).
Proof.
  unfold process_worksheet.
  destruct (identify_report_type (Rows w)) as [[[|]|]|]; cbn [mbind result_bind];
    try discriminate.
  - destruct (process_page19_worksheet w) as [recs|]; [|discriminate].
    intros [= <-]. cbn. split; [reflexivity|]. split; [eauto|]. exists []. now rewrite app_nil_r.
  - destruct (identify_sched_p_lob w (Rows w)) as [[l|]|]; cbn [mbind result_bind];
      try discriminate.
    + destruct (lob_is_al_or_apd (Some l)).
      * destruct (process_schedule_p_worksheet w l) as [recs|]; [|discriminate].
        intros [= <-]. cbn. split; [reflexivity|]. split; [|eauto].
        exists []. now rewrite app_nil_r.
      * intros [= <-]. repeat split; exists []; now rewrite app_nil_r.
    + intros [= <-]. repeat split; exists []; now rewrite app_nil_r.
  - intros [= <-]. repeat split; exists []; now rewrite app_nil_r.
Qed.

Lemma process_worksheets_log `{Builtins} (wss : list Worksheet) (acc acc' : Acc)
    (r : option exn) :
  process_worksheets wss acc = (acc', r) ->
  critical_log acc' = critical_log acc
  /\ (exists l, all_page19_data acc' = all_page19_data acc ++ l)
  /\ (exists l, all_sched_p_data acc' = all_sched_p_data acc ++ l).
Proof.
  revert acc. induction wss as [|w wss IH]; intros acc.
  - cbn. intros [= <- <-]. repeat split; exists []; now rewrite app_nil_r.
  - cbn [process_worksheets]. destruct (process_worksheet w acc) as [acc1|e] eqn:E.
    + intros Hrest. apply IH in Hrest as (Hlog & [l1 H1] & [l2 H2]).
      apply process_worksheet_log in E as (Hlog' & [k1 K1] & [k2 K2]).
      split; [congruence|]. split.
      * exists (k1 ++ l1). rewrite H1, K1, app_assoc. reflexivity.
      * exists (k2 ++ l2). rewrite H2, K2, app_assoc. reflexivity.
    + intros [= <- <-]. repeat split; exists []; now rewrite app_nil_r.
Qed.

(** C8, as the code has it.  An exception raised while one file is
    processed is caught and logged, and the run goes on with the next
    file.  A file that does not parse contributes nothing.  A file in
    which a worksheet raises contributes what its earlier worksheets
    appended, and nothing from the failing worksheet on; records already
    accumulated are never removed. *)
Theorem file_fault_containment `{Builtins} (file_path : string) (acc : Acc) :
  (forall file rest,
     process_files ((file_path, file) :: rest) acc
     = process_files rest (process_file file_path file acc))
  /\ (collected (process_file file_path Malformed acc) = collected acc
      /\ critical_log (process_file file_path Malformed acc)
         = critical_log acc ++ [(file_path, ParseError)])
  /\ (forall pre w post e acc',
        process_worksheets pre acc = (acc', None) ->
        process_worksheet w acc' = Raise e ->
        collected (process_file file_path (Document (pre ++ w :: post)) acc)
        = collected (process_file file_path (Document pre) acc)
        /\ critical_log (process_file file_path (Document (pre ++ w :: post)) acc)
           = critical_log acc ++ [(file_path, e)])
  /\ (forall file,
        exists l1 l2,
          all_page19_data (process_file file_path file acc) = all_page19_data acc ++ l1
          /\ all_sched_p_data (process_file file_path file acc) = all_sched_p_data acc ++ l2).
Proof.
  split; [reflexivity|]. split; [split; reflexivity|]. split.
  - intros pre w post e acc' Hpre Hw. unfold process_file.
    rewrite process_worksheets_app, Hpre. cbn [process_worksheets]. rewrite Hw.
    apply process_worksheets_log in Hpre as (Hlog & _). cbn. rewrite Hlog. split; reflexivity.
  - intros [|wss]; cbn [process_file].
    + exists [], []. cbn. now rewrite !app_nil_r.
    + destruct (process_worksheets wss acc) as [acc' r] eqn:E.
      apply process_worksheets_log in E as (_ & [l1 H1] & [l2 H2]).
      exists l1, l2. destruct r; cbn; auto.
Qed.

Lemma file_fault_containment_witness :
  collected (@process_file ref_builtins "a.xml" file_second_sheet_raises empty_acc)
  = collected (@process_file ref_builtins "a.xml" (Document [ws_premium]) empty_acc)
  /\ critical_log (@process_file ref_builtins "a.xml" file_second_sheet_raises empty_acc)
     = [("a.xml", AttributeError)].
Proof.
  pose proof (@file_fault_containment ref_builtins "a.xml" empty_acc) as (_ & _ & Hraise & _).
  apply (Hraise [ws_premium] ws_no_name [ws_schedule] AttributeError
           (fst (@process_worksheets ref_builtins [ws_premium] empty_acc)));
    vm_compute; reflexivity.
Defined.

(** The claim as stated fails: after a file whose second worksheet raises,
    the premium accumulator holds the two records of the first worksheet;
    likewise for the schedule accumulator when the failure is an index
    attribute that is not a number. *)
Lemma file_failure_leaks :
  critical_log (@process_file ref_builtins "a.xml" file_second_sheet_raises empty_acc)
  = [("a.xml", AttributeError)]
  /\ length (all_page19_data
               (@process_file ref_builtins "a.xml" file_second_sheet_raises empty_acc)) = 2%nat
  /\ collected (@process_file ref_builtins "a.xml" file_second_sheet_raises empty_acc)
     <> collected empty_acc
  /\ critical_log (@process_file ref_builtins "b.xml" file_bad_index empty_acc)
     = [("b.xml", ValueError)]
  /\ length (all_sched_p_data
               (@process_file ref_builtins "b.xml" file_bad_index empty_acc)) = 2%nat
  /\ collected (@process_file ref_builtins "b.xml" file_bad_index empty_acc)
     <> collected empty_acc.
Proof.
  split; [vm_compute; reflexivity|]. split; [vm_compute; reflexivity|].
  split; [vm_compute; discriminate|].
  split; [vm_compute; reflexivity|]. split; [vm_compute; reflexivity|].
  vm_compute. discriminate.
Qed.

(** ** Output generation *)

Lemma dict_get_cons (c k : string) (v : pyval) (d : dict) :
  dict_get c ((k, v) :: d) = if String.eqb c k then Some v else dict_get c d.
Proof. reflexivity. Qed.

Lemma align_same_keys (d : dict) : NoDup (map fst d) -> align (map fst d) d = d.
Proof.
  unfold align. induction d as [|[k v] d IH]; [reflexivity|].
  cbn [map fst]. intros Hnd. apply NoDup_cons in Hnd as [Hk Hnd].
  rewrite dict_get_cons, String.eqb_refl. cbn [default]. f_equal.
  rewrite <- (IH Hnd) at 2. apply map_ext_in. intros c Hc.
  rewrite dict_get_cons. destruct (String.eqb_spec c k) as [-> | _]; [|reflexivity].
  exfalso. apply Hk, list_elem_of_In, Hc.
Qed.

Lemma add_keys_present (ks seen : list string) :
  (forall k, k ∈ ks -> k ∈ seen) ->
  fold_left (fun acc k => if bool_decide (k ∈ acc) then acc else acc ++ [k]) ks seen = seen.
Proof.
  induction ks as [|k ks IH]; intros Hin; [reflexivity|].
  cbn [fold_left]. rewrite bool_decide_eq_true_2 by (apply Hin; left).
  apply IH. intros k' Hk'. apply Hin. right. exact Hk'.
Qed.

Lemma add_keys_absent (ks seen : list string) :
  NoDup (seen ++ ks) ->
  fold_left (fun acc k => if bool_decide (k ∈ acc) then acc else acc ++ [k]) ks seen = seen ++ ks.
Proof.
  revert seen. induction ks as [|k ks IH]; intros seen Hnd; [now rewrite app_nil_r|].
  cbn [fold_left]. rewrite bool_decide_eq_false_2.
  - rewrite IH; rewrite <- app_assoc; [reflexivity | exact Hnd].
  - apply NoDup_app in Hnd as (_ & Hdisj & _). intros Hk. apply (Hdisj k Hk). left.
Qed.

Lemma union_keys_same (cols : list string) (data : list dict) :
  NoDup cols -> data <> [] -> Forall (fun d => map fst d = cols) data ->
  union_keys [] data = cols.
Proof.
  intros Hnd Hne Hall. destruct Hall as [|d data Hd Hall]; [contradiction|].
  cbn [union_keys]. rewrite Hd, add_keys_absent by exact Hnd. cbn [app].
  clear Hne Hd d. induction Hall as [|d data Hd Hall IH]; [reflexivity|].
  cbn [union_keys]. rewrite Hd, add_keys_present by auto. exact IH.
Qed.

Lemma map_align_same (cols : list string) (data : list dict) :
  NoDup cols -> Forall (fun d => map fst d = cols) data -> map (align cols) data = data.
Proof.
  intros Hnd. induction 1 as [|d data Hd Hall IH]; [reflexivity|].
  cbn [map]. rewrite IH. f_equal. rewrite <- Hd. apply align_same_keys. rewrite Hd. exact Hnd.
Qed.

Lemma premium_columns_nodup : NoDup premium_columns.
Proof. apply (bool_decide_eq_true_1 (NoDup premium_columns)). vm_compute. reflexivity. Qed.

Lemma sched_p_column_order_nodup : NoDup sched_p_column_order.
Proof.
  apply (bool_decide_eq_true_1 (NoDup sched_p_column_order)). vm_compute. reflexivity.
Qed.

(** [keep_first] keeps exactly the first row of every key not seen before. *)
Lemma keep_first_elem (subset : list string) (rows : list dict)
    (seen : list (list (option pyval))) (r : dict) :
  r ∈ keep_first subset seen rows ->
  (row_key subset r ∉ seen)
  /\ exists i, rows !! i = Some r
       /\ forall j r', (j < i)%nat -> rows !! j = Some r' -> row_key subset r' <> row_key subset r.
Proof.
  revert seen. induction rows as [|r0 rows IH]; intros seen; [intros H; inversion H|].
  cbn [keep_first]. destruct (bool_decide (row_key subset r0 ∈ seen)) eqn:E.
  - apply bool_decide_eq_true in E. intros Hr. apply IH in Hr as (Hseen & i & Hi & Hbefore).
    split; [exact Hseen|]. exists (S i). split; [exact Hi|].
    intros [|j] r' Hj Hr'.
    + injection Hr' as <-. intros Heq. apply Hseen. rewrite <- Heq. exact E.
    + apply (Hbefore j r'); [lia | exact Hr'].
  - apply bool_decide_eq_false in E. intros [-> | Hr]%elem_of_cons.
    + split; [exact E|]. exists 0%nat. split; [reflexivity | intros j r' Hj; lia].
    + apply IH in Hr as (Hseen & i & Hi & Hbefore).
      split; [intros Hin; apply Hseen; right; exact Hin|].
      exists (S i). split; [exact Hi|]. intros [|j] r' Hj Hr'.
      * injection Hr' as <-. intros Heq. apply Hseen. rewrite <- Heq. left.
      * apply (Hbefore j r'); [lia | exact Hr'].
Qed.

Lemma keep_first_nodup (subset : list string) (rows : list dict)
    (seen : list (list (option pyval))) :
  NoDup (map (row_key subset) (keep_first subset seen rows)).
Proof.
  revert seen. induction rows as [|r0 rows IH]; intros seen; [constructor|].
  cbn [keep_first]. destruct (bool_decide (row_key subset r0 ∈ seen)); [apply IH|].
  cbn [map]. apply NoDup_cons. split; [|apply IH].
  intros Hin. apply list_elem_of_In, in_map_iff in Hin as (r & Hkey & Hr).
  apply list_elem_of_In, keep_first_elem in Hr as (Hseen & _).
  apply Hseen. rewrite Hkey. left.
Qed.

Lemma keep_first_covers (subset : list string) (rows : list dict)
    (seen : list (list (option pyval))) (r : dict) :
  r ∈ rows ->
  (row_key subset r ∈ seen)
  \/ exists r', r' ∈ keep_first subset seen rows /\ row_key subset r' = row_key subset r.
Proof.
  revert seen. induction rows as [|r0 rows IH]; intros seen; [intros H; inversion H|].
  cbn [keep_first]. intros [-> | Hr]%elem_of_cons.
  - destruct (bool_decide (row_key subset r0 ∈ seen)) eqn:E.
    + left. apply bool_decide_eq_true in E. exact E.
    + right. exists r0. split; [left | reflexivity].
  - destruct (bool_decide (row_key subset r0 ∈ seen)) eqn:E; [apply IH, Hr|].
    destruct (IH (row_key subset r0 :: seen) Hr) as [[Heq | Hin]%elem_of_cons | (r' & Hr' & Hkey)].
    + right. exists r0. split; [left | symmetry; exact Heq].
    + left. exact Hin.
    + right. exists r'. split; [right; exact Hr' | exact Hkey].
Qed.

Lemma insert_row_perm (by_cols : list string) (r : dict) (l : list dict) :
  Permutation (insert_row by_cols r l) (r :: l).
Proof.
  induction l as [|r' l IH]; [reflexivity|].
  cbn [insert_row]. destruct (row_leb by_cols r r'); [reflexivity|].
  rewrite IH. apply perm_swap.
Qed.

Lemma sort_rows_perm (by_cols : list string) (l : list dict) :
  Permutation (sort_rows by_cols l) l.
Proof.
  induction l as [|r l IH]; [reflexivity|].
  cbn [sort_rows]. rewrite insert_row_perm, IH. reflexivity.
Qed.

Lemma generate_output_sheets (acc : Acc) :
  well_shaped acc ->
  generate_output acc
  = Ok (premium_sheet (all_page19_data acc) ++ schedule_sheet (all_sched_p_data acc)).
Proof.
  intros [Hp Hs]. unfold generate_output.
  destruct (all_page19_data acc) as [|d data] eqn:Ep;
    destruct (all_sched_p_data acc) as [|s sched] eqn:Es; try reflexivity;
    unfold frame_of_dicts; cbv zeta; cbn [from_option id];
    rewrite ?(map_align_same _ _ sched_p_column_order_nodup Hs);
    rewrite ?(union_keys_same premium_columns (d :: data) premium_columns_nodup
                ltac:(discriminate) Hp);
    rewrite ?(map_align_same _ _ premium_columns_nodup Hp);
    reflexivity.
Qed.

(** C5.  The aggregator keeps, of the premium records, the first one of
    every key (NAIC, YEAR, State, LOB) in input order, so that the premium
    sheet has no two rows with the same key and every key of the input is
    still there; the schedule records are all kept. *)
Theorem premium_dedup_first_seen (acc : Acc) :
  well_shaped acc ->
  exists sheets, generate_output acc = Ok sheets
    /\ (all_page19_data acc <> [] ->
        exists out, sheet_records "Page 14 Data" sheets = Some out
          /\ NoDup (map premium_key out)
          /\ (forall r, r ∈ out -> first_with_key (all_page19_data acc) r)
          /\ (forall r, r ∈ all_page19_data acc ->
                exists r', r' ∈ out /\ premium_key r' = premium_key r))
    /\ (all_sched_p_data acc <> [] ->
        exists out, sheet_records "Schedule P Data" sheets = Some out
          /\ Permutation out (all_sched_p_data acc)).
Proof.
  intros Hshape. eexists. split; [apply generate_output_sheets, Hshape|]. split.
  - intros Hne. destruct (all_page19_data acc) as [|d data] eqn:Ep; [contradiction|].
    eexists. split; [reflexivity|].
    set (out := sort_rows _ _).
    assert (Hperm : Permutation out (keep_first ["NAIC"; "YEAR"; "State"; "LOB"] [] (d :: data)))
      by apply sort_rows_perm.
    split; [|split].
    + cbn [records]. rewrite Hperm. apply keep_first_nodup.
    + intros r Hr. cbn [records] in Hr. rewrite Hperm in Hr. apply keep_first_elem in Hr as (_ & Hfirst).
      exact Hfirst.
    + intros r Hr.
      destruct (keep_first_covers ["NAIC"; "YEAR"; "State"; "LOB"] (d :: data) [] r Hr)
        as [Hin | (r' & Hr' & Hkey)]; [inversion Hin|].
      exists r'. split; [cbn [records]; rewrite Hperm; exact Hr' | exact Hkey].
  - intros Hne. destruct (all_sched_p_data acc) as [|s sched] eqn:Es; [contradiction|].
    destruct (all_page19_data acc); (eexists; split; [reflexivity | apply sort_rows_perm]).
Qed.

(** Whatever the run accumulates is well shaped. *)
Lemma process_page19_shape `{Builtins} (w : Worksheet) (recs : list dict) :
  process_page19_worksheet w = Ok recs -> Forall is_premium_record recs.
Proof.
  unfold process_page19_worksheet, try_except.
  destruct (process_page19_body w) as [recs0|] eqn:E; [|intros [= <-]; constructor].
  intros [= <-].
  apply process_page19_body_inv in E as [-> | (hm & meta & _ & _ & _ & Hloop)]; [constructor|].
  apply page19_loop_inv in Hloop. cbn [app] in Hloop. subst recs0.
  apply Forall_forall. intros rec Hrec.
  apply (elem_of_expected_records (Rows w) hm meta) in Hrec
    as (r & row & code & liab & d & _ & _ & _ & ->).
  reflexivity.
Qed.

Lemma sched_loop_shape `{Builtins} (all_rows : list Row) (cm : gmap string (option Z))
    (meta : SchedMeta) (a b c : nat) (offsets : list nat) (acc recs : list dict) :
  Forall is_schedule_record acc ->
  sched_loop all_rows cm meta a b c offsets acc = Ok recs ->
  Forall is_schedule_record recs.
Proof.
  revert acc. induction offsets as [|i offsets IH]; intros acc Hacc.
  - cbn. intros [= <-]. exact Hacc.
  - cbn [sched_loop]. cbv zeta.
    destruct (negb _); [intros [= <-]; exact Hacc|].
    destruct (list_item all_rows (a + i)) as [row_ep|]; [|discriminate].
    destruct (list_item all_rows (b + i)) as [row_claims|]; [|discriminate].
    destruct (list_item all_rows (c + i)) as [row_losses|]; [|discriminate].
    cbn [mbind result_bind].
    destruct (get_cell_data row_ep (Some 3)) as [[year|]|]; cbn [mbind result_bind];
      [|apply IH, Hacc|discriminate].
    destruct (Str.truthy year); [|apply IH, Hacc].
    destruct (read_numeric row_ep cm "EP") as [ep|]; [|discriminate].
    destruct (read_numeric row_losses cm "LOSSES_INC") as [losses|]; [|discriminate].
    destruct (read_numeric row_claims cm "CLAIMS") as [claims|]; [|discriminate].
    cbn [mbind result_bind]. apply IH.
    apply Forall_app. split; [exact Hacc|]. constructor; [reflexivity | constructor].
Qed.

Lemma process_schedule_p_shape `{Builtins} (w : Worksheet) (lob : string) (recs : list dict) :
  process_schedule_p_worksheet w lob = Ok recs -> Forall is_schedule_record recs.
Proof.
  unfold process_schedule_p_worksheet, try_except.
  destruct (process_schedule_p_body w lob) as [recs0|] eqn:E; [|intros [= <-]; constructor].
  intros [= <-].
  apply process_schedule_p_body_inv in E as [-> | (hm & meta & a & b & c & _ & Hloop)];
    [constructor|].
  exact (sched_loop_shape _ _ _ _ _ _ _ [] recs0 (Forall_nil_2 _) Hloop).
Qed.

Lemma process_worksheet_shaped `{Builtins} (w : Worksheet) (acc acc' : Acc) :
  well_shaped acc -> process_worksheet w acc = Ok acc' -> well_shaped acc'.
Proof.
  intros [Hp Hs]. unfold process_worksheet.
  destruct (identify_report_type (Rows w)) as [[[|]|]|]; cbn [mbind result_bind];
    try discriminate.
  - destruct (process_page19_worksheet w) as [recs|] eqn:E; [|discriminate].
    intros [= <-]. split; cbn; [|exact Hs].
    apply Forall_app. split; [exact Hp | exact (process_page19_shape w recs E)].
  - destruct (identify_sched_p_lob w (Rows w)) as [[l|]|]; cbn [mbind result_bind];
      try discriminate.
    + destruct (lob_is_al_or_apd (Some l)).
      * destruct (process_schedule_p_worksheet w l) as [recs|] eqn:E; [|discriminate].
        intros [= <-]. split; cbn; [exact Hp|].
        apply Forall_app. split; [exact Hs | exact (process_schedule_p_shape w l recs E)].
      * intros [= <-]. split; assumption.
    + intros [= <-]. split; assumption.
  - intros [= <-]. split; assumption.
Qed.

Lemma process_worksheets_shaped `{Builtins} (wss : list Worksheet) (acc : Acc) :
  well_shaped acc -> well_shaped (process_worksheets wss acc).1.
Proof.
  revert acc. induction wss as [|w wss IH]; intros acc Hacc; [exact Hacc|].
  cbn [process_worksheets]. destruct (process_worksheet w acc) as [acc'|] eqn:E.
  - apply IH. exact (process_worksheet_shaped w acc acc' Hacc E).
  - exact Hacc.
Qed.

Lemma process_files_shaped `{Builtins} (xml_files : list (string * XmlFile)) (acc : Acc) :
  well_shaped acc -> well_shaped (process_files xml_files acc).
Proof.
  revert acc. induction xml_files as [|[path file] rest IH]; intros acc Hacc; [exact Hacc|].
  cbn [process_files]. apply IH. destruct file as [|wss]; cbn [process_file].
  - exact Hacc.
  - pose proof (process_worksheets_shaped wss acc Hacc) as Hw.
    destruct (process_worksheets wss acc) as [acc' [e|]]; exact Hw.
Qed.

Lemma premium_dedup_first_seen_witness :
  length (all_page19_data duplicate_run) = 4%nat
  /\ length (all_sched_p_data duplicate_run) = 4%nat
  /\ exists sheets, generate_output duplicate_run = Ok sheets
       /\ (all_page19_data duplicate_run <> [] ->
           exists out, sheet_records "Page 14 Data" sheets = Some out
             /\ NoDup (map premium_key out)
             /\ (forall r, r ∈ out -> first_with_key (all_page19_data duplicate_run) r)
             /\ (forall r, r ∈ all_page19_data duplicate_run ->
                   exists r', r' ∈ out /\ premium_key r' = premium_key r))
       /\ (all_sched_p_data duplicate_run <> [] ->
           exists out, sheet_records "Schedule P Data" sheets = Some out
             /\ Permutation out (all_sched_p_data duplicate_run)).
Proof.
  split; [vm_compute; reflexivity|]. split; [vm_compute; reflexivity|].
  apply (premium_dedup_first_seen duplicate_run).
  apply (@process_files_shaped ref_builtins). split; constructor.
Defined.

(** C9, as the code has it.  The output has a sheet named "Page 14 Data"
    when premium records were collected, followed by a sheet named
    "Schedule P Data" when schedule records were collected.  The first has
    the eleven columns YEAR, a company-name column, NAIC, State, Liability,
    LOB, GWP, EP, LOSSES_INCURRED, DIRECT_LOSSES_INC, DCC; the second has
    the fixed column order REPORT_YEAR, Company_Name, NAIC, LOB, YEAR, EP,
    LOSSES_INC, CLAIMS. *)
Theorem output_layout (acc : Acc) :
  well_shaped acc ->
  exists company_column,
    sheet_layout <$> generate_output acc = Ok (written_layout company_column acc).
Proof.
  intros Hshape. exists "Compan_Name". rewrite (generate_output_sheets acc Hshape).
  unfold written_layout, premium_sheet, schedule_sheet.
  destruct (all_page19_data acc), (all_sched_p_data acc); reflexivity.
Qed.

Lemma output_layout_witness :
  exists company_column,
    sheet_layout <$> generate_output sample_run = Ok (written_layout company_column sample_run).
Proof.
  apply (output_layout sample_run).
  apply (@process_files_shaped ref_builtins). split; constructor.
Defined.

(** The claim as stated fails: the sheets are not named as the
    specification names them. *)
Lemma output_layout_differs :
  sheet_layout <$> generate_output sample_run
  = Ok [ ("Page 14 Data",
          ["YEAR"; "Compan_Name"; "NAIC"; "State"; "Liability"; "LOB"; "GWP"; "EP";
           "LOSSES_INCURRED"; "DIRECT_LOSSES_INC"; "DCC"]);
         ("Schedule P Data",
          ["REPORT_YEAR"; "Company_Name"; "NAIC"; "LOB"; "YEAR"; "EP"; "LOSSES_INC"; "CLAIMS"]) ]
  /\ sheet_layout <$> generate_output sample_run <> Ok specified_layout
  /\ sheet_layout <$> generate_output empty_acc = Ok [].
Proof.
  split; [vm_compute; reflexivity|]. split; [|reflexivity].
  vm_compute. discriminate.
Qed.

(** * Further properties of the parser *)

(** ** Trimmed text *)

Lemma lstrip_idem (s : string) : Str.lstrip (Str.lstrip s) = Str.lstrip s.
Proof.
  induction s as [|c s IH]; [reflexivity|].
  cbn [Str.lstrip]. destruct (Str.isspace c) eqn:E; [exact IH|].
  cbn [Str.lstrip]. rewrite E. reflexivity.
Qed.

Lemma lstrip_first (s t : string) (c : ascii) :
  Str.lstrip s = String c t -> Str.isspace c = false.
Proof.
  induction s as [|d s IH]; [discriminate|].
  cbn [Str.lstrip]. destruct (Str.isspace d) eqn:E; [exact IH|].
  intros [= <- _]. exact E.
Qed.

Lemma lstrip_split (s : string) : exists w, s = w +:+ Str.lstrip s.
Proof.
  induction s as [|c s [w IH]]; [exists ""; reflexivity|].
  cbn [Str.lstrip]. destruct (Str.isspace c).
  - exists (String c w). change (String c s = String c (w +:+ Str.lstrip s)).
    rewrite <- IH. reflexivity.
  - exists "". reflexivity.
Qed.

Lemma rev_app (s t : string) : Str.rev (s +:+ t) = Str.rev t +:+ Str.rev s.
Proof. unfold Str.rev at 1. rewrite rev_onto_app, rev_onto_rev. reflexivity. Qed.

Lemma strip_idem (s : string) : Str.strip (Str.strip s) = Str.strip s.
Proof.
  unfold Str.strip, Str.rstrip.
  set (u := Str.lstrip s). set (v := Str.lstrip (Str.rev u)).
  assert (Hleft : Str.lstrip (Str.rev v) = Str.rev v).
  { destruct (lstrip_split (Str.rev u)) as [w Hw]. fold v in Hw.
    assert (Hu : u = Str.rev v +:+ Str.rev w).
    { rewrite <- (rev_involutive u), Hw, rev_app. reflexivity. }
    destruct (Str.rev v) as [|c r] eqn:Er; [reflexivity|].
    cbn [Str.lstrip]. unfold u in Hu.
    change (String c r +:+ Str.rev w) with (String c (r +:+ Str.rev w)) in Hu.
    rewrite (lstrip_first s _ c Hu). reflexivity. }
  rewrite Hleft, rev_involutive. unfold v. rewrite lstrip_idem. reflexivity.
Qed.

Lemma get_cell_data_from_text (cells : list Cell) (cur k : Z) (t : string) :
  get_cell_data_from cells cur k = Ok (Some t) ->
  exists c, c ∈ cells /\ cell_text c = Some t.
Proof.
  revert cur. induction cells as [|c cells IH]; intros cur; [discriminate|].
  cbn [get_cell_data_from]. destruct (cell_column c cur) as [col|]; [|discriminate].
  cbn [mbind result_bind]. destruct (col =? k).
  - intros [= H]. exists c. split; [left | exact H].
  - intros H. destruct (IH _ H) as (c' & Hc' & Ht). exists c'. split; [right; exact Hc' | exact Ht].
Qed.

(** X1.  The text [get_cell_data] returns is trimmed: stripping it again
    changes nothing, and it is the stripped text of a cell of the row. *)
Theorem get_cell_data_trimmed (row : Row) (k : option Z) (t : string) :
  get_cell_data row k = Ok (Some t) ->
  Str.strip t = t
  /\ exists c raw, c ∈ row /\ data c = Some {| text := Some raw |}
       /\ Str.truthy raw = true /\ t = Str.strip raw.
Proof.
  destruct k as [k|]; [|discriminate]. cbn [get_cell_data]. intros H.
  apply get_cell_data_from_text in H as (c & Hc & Ht).
  unfold cell_text in Ht. destruct (data c) as [[[raw|]]|] eqn:Ed; try discriminate.
  cbn [text] in Ht. destruct (Str.truthy raw) eqn:Eraw; [|discriminate].
  injection Ht as <-. split; [apply strip_idem|]. exists c, raw. auto.
Qed.

Lemma get_cell_data_trimmed_witness :
  Str.strip "b" = "b"
  /\ exists c raw, c ∈ row_explicit /\ data c = Some {| text := Some raw |}
       /\ Str.truthy raw = true /\ "b" = Str.strip raw.
Proof. apply (get_cell_data_trimmed row_explicit (Some 2) "b"). reflexivity. Defined.

(** ** Rows without index attributes, and where a lookup stops *)

Lemma get_cell_data_from_dense (cells : list Cell) (cur k : Z) :
  Forall (fun c => no_index c = true) cells ->
  get_cell_data_from cells cur k =
  Ok (if cur <=? k
      then match cells !! Z.to_nat (k - cur) with
           | Some c => cell_text c
           | None => None
           end
      else None).
Proof.
  intros H. revert cur. induction H as [|c cells Hc Hcells IH]; intros cur.
  - cbn. destruct (cur <=? k); reflexivity.
  - cbn [get_cell_data_from].
    assert (Hcol : cell_column c cur = Ok cur).
    { unfold cell_column, no_index in *. destruct (Index c) as [s|]; [|reflexivity].
      destruct (Str.truthy s); [discriminate | reflexivity]. }
    rewrite Hcol. cbn [mbind result_bind].
    destruct (Z.eqb_spec cur k) as [-> | Hne].
    + rewrite Z.leb_refl, Z.sub_diag. reflexivity.
    + rewrite IH. destruct (Z.leb_spec (cur + 1) k), (Z.leb_spec cur k); try lia; [|reflexivity].
      replace (Z.to_nat (k - cur)) with (S (Z.to_nat (k - (cur + 1)))) by lia. reflexivity.
Qed.

(** X2.  In a row none of whose cells carries an index attribute the
    logical column is the position: column [k] is the [k]-th cell, and a
    column below 1 or past the last cell is missing. *)
Theorem get_cell_data_dense (row : Row) (k : Z) :
  Forall (fun c => no_index c = true) row ->
  get_cell_data row (Some k) =
  Ok (if 1 <=? k
      then match row !! Z.to_nat (k - 1) with
           | Some c => cell_text c
           | None => None
           end
      else None).
Proof. intros H. apply get_cell_data_from_dense, H. Qed.

Lemma get_cell_data_dense_witness :
  get_cell_data [ text_cell "a"; text_cell " b "; no_data_cell ] (Some 2) = Ok (Some "b")
  /\ get_cell_data [ text_cell "a"; text_cell " b "; no_data_cell ] (Some 4) = Ok None
  /\ get_cell_data [ text_cell "a"; text_cell " b "; no_data_cell ] (Some 0) = Ok None.
Proof.
  assert (H : Forall (fun c => no_index c = true) [ text_cell "a"; text_cell " b "; no_data_cell ])
    by (repeat constructor).
  split; [|split].
  - rewrite (get_cell_data_dense _ 2 H). reflexivity.
  - rewrite (get_cell_data_dense _ 4 H). reflexivity.
  - rewrite (get_cell_data_dense _ 0 H). reflexivity.
Defined.

Lemma last_cons (x prev : Z) (l : list Z) :
  default prev (last (x :: l)) = default x (last l).
Proof.
  assert (H : forall y, last (y :: l) = Some (default y (last l))).
  { induction l as [|z l IH]; intros y; [reflexivity|].
    change (last (y :: z :: l)) with (last (z :: l)). rewrite (IH z). reflexivity. }
  rewrite H. reflexivity.
Qed.

Lemma cell_column_raise (c : Cell) (cur : Z) :
  cell_column c 0 = Raise ValueError -> cell_column c cur = Raise ValueError.
Proof.
  unfold cell_column. destruct (Index c) as [s|]; [|discriminate].
  destruct (Str.truthy s); [auto | discriminate].
Qed.

Lemma get_cell_data_from_skip (pre rest : list Cell) (prev k : Z) :
  well_indexed pre ->
  k ∉ resolved_from prev pre ->
  get_cell_data_from (pre ++ rest) (prev + 1) k =
  get_cell_data_from rest (default prev (last (resolved_from prev pre)) + 1) k.
Proof.
  intros Hwf. revert prev. induction Hwf as [|c pre Hc Hpre IH]; intros prev Hk; [reflexivity|].
  cbn [app get_cell_data_from resolved_from] in *.
  rewrite (cell_column_resolve c (prev + 1) Hc). cbn [mbind result_bind].
  replace (prev + 1 - 1) with prev by lia.
  apply not_elem_of_cons in Hk as [Hne Hk].
  destruct (Z.eqb_spec (resolve prev c) k) as [E|_]; [congruence|].
  rewrite (IH _ Hk), last_cons. reflexivity.
Qed.

(** X3.  A lookup stops at the first cell whose resolved index is the
    target: the cells after it are not examined, so an index attribute
    there that is not a number does no harm; one at or before that cell
    makes the lookup raise [ValueError]. *)
Theorem get_cell_data_stops_at_match (pre post : Row) (c : Cell) (k : Z) :
  well_indexed pre ->
  k ∉ resolved_indices pre ->
  (cell_column c 0 <> Raise ValueError -> resolve (last_resolved pre) c = k ->
   get_cell_data (pre ++ c :: post) (Some k) = Ok (cell_text c))
  /\ (cell_column c 0 = Raise ValueError ->
      get_cell_data (pre ++ c :: post) (Some k) = Raise ValueError).
Proof.
  intros Hwf Hk. unfold get_cell_data, last_resolved, resolved_indices in *.
  change 1 with (0 + 1). rewrite (get_cell_data_from_skip pre (c :: post) 0 k Hwf Hk).
  cbn [get_cell_data_from]. split.
  - intros Hc Hres. rewrite (cell_column_resolve c _ Hc). cbn [mbind result_bind].
    replace (default 0 (last (resolved_from 0 pre)) + 1 - 1)
      with (default 0 (last (resolved_from 0 pre))) by lia.
    rewrite Hres, Z.eqb_refl. reflexivity.
  - intros Hc. rewrite (cell_column_raise c _ Hc). reflexivity.
Qed.

Lemma get_cell_data_stops_at_match_witness :
  get_cell_data row_bad_third (Some 4) = Ok (Some "d")
  /\ get_cell_data row_bad_third (Some 5) = Raise ValueError.
Proof.
  split.
  - apply (get_cell_data_stops_at_match [ text_cell "a" ]
             [ text_cell_at "x" "e"; text_cell "f" ] (text_cell_at "4" "d") 4).
    + repeat constructor; discriminate.
    + intros H%list_elem_of_In. vm_compute in H. intuition discriminate.
    + discriminate.
    + reflexivity.
  - apply (get_cell_data_stops_at_match [ text_cell "a"; text_cell_at "4" "d" ]
             [ text_cell "f" ] (text_cell_at "x" "e") 5).
    + repeat constructor; discriminate.
    + intros H%list_elem_of_In. vm_compute in H. intuition discriminate.
    + reflexivity.
Defined.

(** ** What every premium record of a worksheet has *)

Lemma row_lob_pairs `{Builtins} (row : Row) (code liab : string) :
  row_lob row = Some (code, liab) ->
  (Some (VStr code), Some (VStr liab)) ∈ lob_pairs.
Proof.
  unfold row_lob, classify_lob, lob_pairs.
  destruct (get_cell_data row (Some 2)) as [[s|]|]; try discriminate.
  destruct (Str.truthy s); [|discriminate].
  destruct (py_float (Str.strip s)) as [x|]; [|discriminate].
  repeat (destruct (PrimFloat.eqb _ _);
          [intros [= <- <-]; repeat first [left | right] |]).
  discriminate.
Qed.

Lemma row_records_length `{Builtins} (all_rows : list Row) (hm : gmap string (option Z))
    (meta : Page19Meta) (r : nat) (row : Row) :
  (length (row_records all_rows hm meta r row) <= 1)%nat.
Proof.
  unfold row_records. destruct (row_lob row) as [[code liab]|]; [|cbn; lia].
  destruct (lagged_row all_rows r row code); cbn; lia.
Qed.

Lemma concat_imap_length {A B} (f : nat -> A -> list B) (l : list A) :
  (forall i a, (length (f i a) <= 1)%nat) -> (length (concat (imap f l)) <= length l)%nat.
Proof.
  revert f. induction l as [|a l IH]; intros f Hf; [cbn; lia|].
  rewrite imap_cons. cbn [concat length]. rewrite length_app.
  specialize (IH (f ∘ S) (fun i => Hf (S i))). specialize (Hf 0%nat a). lia.
Qed.

Lemma losses_incurred_number (losses dcc : option float) :
  is_number (Some (py_add (or_zero losses) (or_zero dcc))).
Proof.
  unfold or_zero. destruct losses as [f|], dcc as [g|];
    repeat (destruct (PrimFloat.eqb _ _)); exact I.
Qed.

(** X4.  All premium records of one worksheet carry the same year,
    company, NAIC code and state; their line of business is one of 19.3,
    19.4 and 21.2 with the liability type that goes with it (AL, AL, APD);
    their combined losses are a number even when both components are
    missing; and there is at most one record per row. *)
Theorem premium_records_invariants `{Builtins} (worksheet : Worksheet) (recs : list dict) :
  process_page19_worksheet worksheet = Ok recs ->
  (length recs <= length (Rows worksheet))%nat
  /\ exists year company naic state,
       forall rec, rec ∈ recs ->
         dict_get "YEAR" rec = Some (VInt year)
         /\ dict_get "Compan_Name" rec = Some (VStr company)
         /\ dict_get "NAIC" rec = Some (VStr naic)
         /\ dict_get "State" rec = Some (VStr state)
         /\ (dict_get "LOB" rec, dict_get "Liability" rec) ∈ lob_pairs
         /\ is_number (dict_get "LOSSES_INCURRED" rec).
Proof.
  intros Hrecs. apply process_page19_records in Hrecs as [-> | (hm & meta & _ & ->)].
  - split; [cbn; lia|]. exists 0, "", "", "". intros rec Hrec. inversion Hrec.
  - split; [apply concat_imap_length; intros; apply row_records_length|].
    exists (p19_year meta), (p19_company_name meta), (p19_naic meta), (p19_state meta).
    intros rec Hrec. apply elem_of_expected_records in Hrec
      as (r & row & code & liab & d & _ & Hlob & _ & ->).
    repeat split; try reflexivity.
    + apply (row_lob_pairs row code liab Hlob).
    + apply losses_incurred_number.
Qed.

Lemma premium_records_invariants_witness :
  (length premium_sample_records <= length (Rows ws_premium))%nat
  /\ exists year company naic state,
       forall rec, rec ∈ premium_sample_records ->
         dict_get "YEAR" rec = Some (VInt year)
         /\ dict_get "Compan_Name" rec = Some (VStr company)
         /\ dict_get "NAIC" rec = Some (VStr naic)
         /\ dict_get "State" rec = Some (VStr state)
         /\ (dict_get "LOB" rec, dict_get "Liability" rec) ∈ lob_pairs
         /\ is_number (dict_get "LOSSES_INCURRED" rec).
Proof.
  apply (@premium_records_invariants ref_builtins ws_premium premium_sample_records).
  vm_compute. reflexivity.
Defined.

(** ** The header line *)

Lemma digit_not_space (c : ascii) : Str.is_digit c = true -> Str.isspace_c c = false.
Proof. destruct c as [[] [] [] [] [] [] [] []]; vm_compute; congruence. Qed.

Lemma all_digits_lstrip_c (s : string) : Str.all_digits s = true -> Str.lstrip_c s = s.
Proof.
  destruct s as [|c s]; [reflexivity|]. cbn [Str.all_digits Str.lstrip_c].
  intros [Hc _]%andb_true_iff. rewrite (digit_not_space c Hc). reflexivity.
Qed.

Lemma all_digits_rev_onto (s acc : string) :
  Str.all_digits (Str.rev_onto s acc) = Str.all_digits s && Str.all_digits acc.
Proof.
  revert acc. induction s as [|c s IH]; intros acc; [reflexivity|].
  cbn [Str.rev_onto Str.all_digits]. rewrite IH. cbn [Str.all_digits].
  destruct (Str.is_digit c), (Str.all_digits s), (Str.all_digits acc); reflexivity.
Qed.

Lemma all_digits_strip_c (s : string) : Str.all_digits s = true -> Str.strip_c s = s.
Proof.
  intros H. unfold Str.strip_c. rewrite (all_digits_lstrip_c s H).
  rewrite all_digits_lstrip_c; [apply rev_involutive|].
  unfold Str.rev. rewrite all_digits_rev_onto, H. reflexivity.
Qed.

Lemma int_digits_all_digits (s : string) (acc : Z) (prev : bool) :
  Str.all_digits s = true ->
  (s <> "" \/ prev = true) ->
  exists v, Str.int_digits s acc prev = Some v
    /\ acc * 10 ^ Z.of_nat (String.length s) <= v
    /\ v < (acc + 1) * 10 ^ Z.of_nat (String.length s).
Proof.
  revert acc prev. induction s as [|c s IH]; intros acc prev Hd Hne.
  - destruct Hne as [? | ->]; [congruence|]. exists acc. cbn. split; [reflexivity | lia].
  - cbn [Str.all_digits] in Hd. apply andb_true_iff in Hd as [Hc Hs].
    cbn [Str.int_digits String.length].
    assert (Hu : Ascii.eqb c "_"%char = false).
    { destruct c as [[] [] [] [] [] [] [] []]; vm_compute in Hc |- *; congruence. }
    rewrite Hu. unfold Str.is_digit in Hc.
    destruct (Str.digit_val c) as [d|] eqn:Ed; [|discriminate].
    assert (Hdig : 0 <= d <= 9).
    { unfold Str.digit_val in Ed. destruct (_ && _)%bool eqn:E; [|discriminate].
      injection Ed as <-. apply andb_true_iff in E as [E1 E2].
      apply N.leb_le in E1, E2. lia. }
    destruct (IH (10 * acc + d) true Hs (or_intror eq_refl)) as (v & Hv & Hlo & Hhi).
    exists v. split; [exact Hv|].
    rewrite Nat2Z.inj_succ, Z.pow_succ_r by lia.
    set (p := 10 ^ Z.of_nat (String.length s)) in *.
    assert (0 < p) by (apply Z.pow_pos_nonneg; lia). nia.
Qed.

Lemma py_int_all_digits (s : string) :
  Str.all_digits s = true -> s <> "" ->
  exists v, py_int s = Ok v /\ 0 <= v < 10 ^ Z.of_nat (String.length s).
Proof.
  intros Hd Hne. unfold py_int. rewrite (all_digits_strip_c s Hd).
  destruct (int_digits_all_digits s 0 false Hd (or_introl Hne)) as (v & Hv & Hlo & Hhi).
  exists v. split; [|lia].
  destruct s as [|c s]; [congruence|].
  cbn [Str.all_digits] in Hd. apply andb_true_iff in Hd as [Hc _].
  destruct c as [[] [] [] [] [] [] [] []]; try (vm_compute in Hc; discriminate Hc);
    cbv zeta; rewrite Hv; reflexivity.
Qed.

Lemma naic_backtrack_truthy (n : nat) (r x : string) :
  Header.naic_backtrack n r = Some x -> Str.truthy x = true.
Proof.
  induction n as [|n IH]; [discriminate|]. cbn [Header.naic_backtrack].
  destruct (String.get (S n) r) as [c|] eqn:Eget; [|exact IH].
  destruct (Ascii.eqb c ")"%char && _)%bool; [|exact IH].
  intros [= <-]. destruct r as [|a r]; [discriminate Eget | reflexivity].
Qed.

Lemma opt_naic_end_truthy (u n : string) :
  Header.opt_naic_end u = Some (Some n) -> Str.truthy n = true.
Proof.
  unfold Header.opt_naic_end, Header.naic_suffix.
  destruct (String.prefix _ u).
  - destruct (Header.naic_backtrack _ _) as [x|] eqn:E.
    + intros [= <-]. exact (naic_backtrack_truthy _ _ _ E).
    + destruct (Header.at_end u); discriminate.
  - destruct (Header.at_end u); discriminate.
Qed.

Lemma tail_match_truthy (t n : string) :
  Header.tail_match t = Some (Some n) -> Str.truthy n = true.
Proof.
  unfold Header.tail_match. intros E.
  repeat case_match; simplify_eq; eauto using opt_naic_end_truthy.
Qed.

Lemma lazy_company_group3 (t acc company : string) (g3 : option string) :
  Header.lazy_company t acc = Some (company, g3) ->
  forall n, g3 = Some n -> Str.truthy n = true.
Proof.
  revert acc. induction t as [|c t IH]; intros acc; cbn [Header.lazy_company].
  - destruct (Header.tail_match "") as [o|] eqn:E; [|discriminate].
    intros [= _ <-] n ->. exact (tail_match_truthy _ _ E).
  - destruct (Header.tail_match (String c t)) as [o|] eqn:E.
    + intros [= _ <-] n ->. exact (tail_match_truthy _ _ E).
    + destruct (Ascii.eqb c Header.newline); [discriminate | apply IH].
Qed.

Lemma match_here_groups (s g1 g2 : string) (g3 : option string) :
  Header.match_here s = Some (g1, g2, g3) ->
  Str.all_digits g1 = true /\ String.length g1 = 4%nat
  /\ forall n, g3 = Some n -> Str.truthy n = true.
Proof.
  unfold Header.match_here. cbv zeta.
  destruct (Nat.eqb_spec (String.length (String.substring 0 4 s)) 4) as [Hlen|]; [|discriminate].
  destruct (Str.all_digits (String.substring 0 4 s)) eqn:Hd; [|discriminate].
  destruct (String.prefix _ _); [|discriminate]. cbn [andb].
  destruct (Header.lazy_company _ "") as [[company naic]|] eqn:E; [|discriminate].
  intros [= <- <- <-]. split; [exact Hd | split; [exact Hlen|]].
  exact (lazy_company_group3 _ _ _ _ E).
Qed.

Lemma search_match_here (s : string) (g : string * string * option string) :
  Header.search s = Some g -> exists s', Header.match_here s' = Some g.
Proof.
  induction s as [|c s IH]; cbn [Header.search].
  - destruct (Header.match_here "") eqn:E; [intros [= <-]; eauto | discriminate].
  - destruct (Header.match_here (String c s)) eqn:E; [intros [= <-]; eauto | exact IH].
Qed.

(** X5.  Whenever the header pattern matches, turning its groups into
    year, company and NAIC code cannot fail: group 1 is four digits, so
    [int] gives a year between 0 and 9999; the company is group 2 trimmed;
    and the NAIC code is group 3 without its leading and trailing closing
    parentheses, the default N/A being taken only when the suffix is
    absent (a matched group 3 is never empty). *)
Theorem header_fields_of_match (s g1 g2 : string) (g3 : option string) :
  Header.search s = Some (g1, g2, g3) ->
  exists year,
    header_fields (g1, g2, g3)
    = Ok (year, Str.strip g2,
          match g3 with
          | Some n => Str.strip_char ")"%char n
          | None => "N/A"
          end)
    /\ 0 <= year <= 9999.
Proof.
  intros Hs. apply search_match_here in Hs as [s' Hm].
  apply match_here_groups in Hm as (Hd & Hlen & Hg3).
  destruct (py_int_all_digits g1 Hd) as (year & Hyear & Hbound).
  { intros ->. discriminate Hlen. }
  rewrite Hlen in Hbound. exists year. split; [|change (10 ^ Z.of_nat 4) with 10000 in Hbound; lia].
  unfold header_fields. rewrite Hyear. cbn [mbind result_bind]. do 3 f_equal.
  destruct g3 as [n|]; [|reflexivity]. rewrite (Hg3 n eq_refl). reflexivity.
Qed.

Lemma header_fields_of_match_witness :
  exists year,
    header_fields ("2022", "ACME INSURANCE CO", Some "12345")
    = Ok (year, Str.strip "ACME INSURANCE CO", Str.strip_char ")"%char "12345")
    /\ 0 <= year <= 9999.
Proof.
  apply (header_fields_of_match
           "ANNUAL STATEMENT FOR THE YEAR 2022 OF THE ACME INSURANCE CO (NAIC #12345)").
  vm_compute. reflexivity.
Defined.

(** ** The state of a premium exhibit *)

Lemma state_cols_none (row : Row) (cols : list Z) (state : string) :
  well_indexed row ->
  (forall j, j ∈ cols -> state_token row j = None) ->
  state_cols row cols state = Ok state.
Proof.
  intros Hwf. induction cols as [|j cols IH]; intros Hnone; [reflexivity|].
  cbn [state_cols]. pose proof (Hnone j ltac:(left)) as Hj. unfold state_token in Hj.
  destruct (get_cell_data_ok row j Hwf) as [t Ht]. rewrite Ht in *. cbn [mbind result_bind].
  assert (Hrest : state_cols row cols state = Ok state).
  { apply IH. intros j' Hj'. apply Hnone. right. exact Hj'. }
  destruct t as [v|]; [|exact Hrest].
  destruct (Str.truthy v && Str.truthy (Str.strip v)); [discriminate | exact Hrest].
Qed.

Lemma state_cols_first (row : Row) (pre post : list Z) (j : Z) (v state : string) :
  well_indexed row ->
  (forall j', j' ∈ pre -> state_token row j' = None) ->
  state_token row j = Some v ->
  state_cols row (pre ++ j :: post) state = Ok (normalize_state v).
Proof.
  intros Hwf Hpre Hj. induction pre as [|j0 pre IH].
  - cbn [app state_cols]. unfold state_token in Hj.
    destruct (get_cell_data row (Some j)) as [[v0|]|]; try discriminate.
    cbn [mbind result_bind].
    destruct (Str.truthy v0 && Str.truthy (Str.strip v0)); [|discriminate].
    injection Hj as ->. reflexivity.
  - cbn [app state_cols]. pose proof (Hpre j0 ltac:(left)) as Hj0. unfold state_token in Hj0.
    destruct (get_cell_data_ok row j0 Hwf) as [t Ht]. rewrite Ht in *. cbn [mbind result_bind].
    assert (Hrest : state_cols row (pre ++ j :: post) state = Ok (normalize_state v)).
    { apply IH. intros j' Hj'. apply Hpre. right. exact Hj'. }
    destruct t as [v0|]; [|exact Hrest].
    destruct (Str.truthy v0 && Str.truthy (Str.strip v0)); [discriminate | exact Hrest].
Qed.

Lemma state_rows_label (rows : list Row) (i : nat) (row : Row) (state : string) :
  Forall well_indexed rows ->
  rows !! i = Some row ->
  is_state_label row = true ->
  (forall i' row', (i' < i)%nat -> rows !! i' = Some row' -> is_state_label row' = false) ->
  state_rows rows state = state_cols row [3; 4; 5; 6; 7; 8; 9] state.
Proof.
  intros Hwf. revert i. induction Hwf as [|r rows Hr Hrows IH]; intros i Hi Hlabel Hbefore;
    [discriminate|].
  cbn [state_rows]. destruct (get_cell_data_ok r 2 Hr) as [t Ht].
  destruct i as [|i].
  - injection Hi as ->. unfold is_state_label in Hlabel. rewrite Ht in *.
    cbn [mbind result_bind]. destruct t as [t|]; [|discriminate]. rewrite Hlabel. reflexivity.
  - pose proof (Hbefore 0%nat r (Nat.lt_0_succ i) eq_refl) as Hr0.
    unfold is_state_label in Hr0. rewrite Ht in *. cbn [mbind result_bind].
    assert (Hrest : state_rows rows state = state_cols row [3; 4; 5; 6; 7; 8; 9] state).
    { apply (IH i Hi Hlabel). intros i' row' Hlt Hrow'.
      apply (Hbefore (S i') row'); [lia | exact Hrow']. }
    destruct t as [t|]; [rewrite Hr0|]; exact Hrest.
Qed.

Lemma state_rows_no_label (rows : list Row) (state : string) :
  Forall well_indexed rows ->
  (forall row, row ∈ rows -> is_state_label row = false) ->
  state_rows rows state = Ok state.
Proof.
  intros Hwf. induction Hwf as [|r rows Hr Hrows IH]; intros Hnone; [reflexivity|].
  cbn [state_rows]. destruct (get_cell_data_ok r 2 Hr) as [t Ht].
  pose proof (Hnone r ltac:(left)) as Hr0. unfold is_state_label in Hr0. rewrite Ht in *.
  cbn [mbind result_bind].
  assert (Hrest : state_rows rows state = Ok state).
  { apply IH. intros row Hrow. apply Hnone. right. exact Hrow. }
  destruct t as [t|]; [rewrite Hr0|]; exact Hrest.
Qed.

Lemma state_columns_split (j : Z) :
  3 <= j <= 9 ->
  exists pre post, [3; 4; 5; 6; 7; 8; 9] = pre ++ j :: post
    /\ forall j', j' ∈ pre -> 3 <= j' < j.
Proof.
  intros Hj.
  assert (j = 3 \/ j = 4 \/ j = 5 \/ j = 6 \/ j = 7 \/ j = 8 \/ j = 9)
    as [-> | [-> | [-> | [-> | [-> | [-> | ->]]]]]] by lia.
  - exists [], [4; 5; 6; 7; 8; 9]. split; [reflexivity | set_solver].
  - exists [3], [5; 6; 7; 8; 9]. split; [reflexivity|]. intros j' Hj'. set_unfold. lia.
  - exists [3; 4], [6; 7; 8; 9]. split; [reflexivity|]. intros j' Hj'. set_unfold. lia.
  - exists [3; 4; 5], [7; 8; 9]. split; [reflexivity|]. intros j' Hj'. set_unfold. lia.
  - exists [3; 4; 5; 6], [8; 9]. split; [reflexivity|]. intros j' Hj'. set_unfold. lia.
  - exists [3; 4; 5; 6; 7], [9]. split; [reflexivity|]. intros j' Hj'. set_unfold. lia.
  - exists [3; 4; 5; 6; 7; 8], []. split; [reflexivity|]. intros j' Hj'. set_unfold. lia.
Qed.

(** X6.  The state of a premium exhibit is decided by the first of rows
    0..4 whose column 2 contains the state label (in any case): it is the
    first non-empty token of columns 3..9 of that row, trimmed and
    upper-cased, or GRAND_TOTAL when the token contains GRAND TOTAL.  When
    that row has no token in columns 3..9, or no row carries the label,
    the state stays GRAND_TOTAL; later label rows are not consulted. *)
Theorem state_of_exhibit (all_rows : list Row) :
  Forall well_indexed (take 5 all_rows) ->
  ((forall row, row ∈ take 5 all_rows -> is_state_label row = false) ->
   state_rows (take 5 all_rows) "GRAND_TOTAL" = Ok "GRAND_TOTAL")
  /\ (forall i row,
        take 5 all_rows !! i = Some row ->
        is_state_label row = true ->
        (forall i' row', (i' < i)%nat -> take 5 all_rows !! i' = Some row' ->
           is_state_label row' = false) ->
        (forall j v, 3 <= j <= 9 ->
           state_token row j = Some v ->
           (forall j', 3 <= j' < j -> state_token row j' = None) ->
           state_rows (take 5 all_rows) "GRAND_TOTAL" = Ok (normalize_state v))
        /\ ((forall j, 3 <= j <= 9 -> state_token row j = None) ->
            state_rows (take 5 all_rows) "GRAND_TOTAL" = Ok "GRAND_TOTAL")).
Proof.
  intros Hwf. split; [apply state_rows_no_label, Hwf|].
  intros i row Hi Hlabel Hbefore.
  rewrite (state_rows_label _ i row _ Hwf Hi Hlabel Hbefore).
  assert (Hrow : well_indexed row) by exact (Forall_lookup_1 _ _ _ _ Hwf Hi).
  split.
  - intros j v Hj Hv Hpre. destruct (state_columns_split j Hj) as (pre & post & -> & Hlt).
    apply state_cols_first; [exact Hrow | | exact Hv].
    intros j' Hj'. apply Hpre, Hlt, Hj'.
  - intros Hnone. apply state_cols_none; [exact Hrow|].
    intros j Hj. apply Hnone. set_unfold. lia.
Qed.

Lemma state_of_exhibit_witness :
  state_rows (take 5 rows_state) "GRAND_TOTAL" = Ok "OHIO".
Proof.
  assert (Hwf : Forall well_indexed (take 5 rows_state)).
  { repeat constructor; discriminate. }
  pose proof (state_of_exhibit rows_state Hwf) as (_ & Hlabel).
  destruct (Hlabel 1%nat
              [ no_data_cell; text_cell "Direct business in the state of";
                text_cell_at "5" " Ohio " ] eq_refl eq_refl) as (Htoken & _).
  - intros i' row' Hlt Hrow'. destruct i' as [|i']; [|lia].
    injection Hrow' as <-. reflexivity.
  - apply (Htoken 5 "Ohio"); [lia | reflexivity |].
    intros j' Hj'. assert (j' = 3 \/ j' = 4) as [-> | ->] by lia; reflexivity.
Defined.

(** ** The schedule column map *)

Lemma cell_column_ok_resolve (c : Cell) (cur k : Z) :
  cell_column c cur = Ok k -> k = resolve (cur - 1) c.
Proof.
  unfold cell_column, resolve, explicit_index.
  destruct (Index c) as [s|]; [destruct (Str.truthy s)|].
  - destruct (py_int s); [congruence | discriminate].
  - intros [= <-]. lia.
  - intros [= <-]. lia.
Qed.

Lemma target_code (t : string) :
  t ∈ targets_to_find -> exists code, py_int t = Ok code.
Proof.
  unfold targets_to_find. intros Ht. set_unfold.
  destruct Ht as [[-> | ->] | ->]; eexists; vm_compute; reflexivity.
Qed.

Lemma target_code_inj (t t' : string) (code : Z) :
  t ∈ targets_to_find -> t' ∈ targets_to_find ->
  py_int t = Ok code -> py_int t' = Ok code -> t' = t.
Proof.
  unfold targets_to_find. intros Ht Ht'. set_unfold.
  destruct Ht as [[-> | ->] | ->]; destruct Ht' as [[-> | ->] | ->];
    intros H1 H2; try reflexivity; vm_compute in H1, H2; congruence.
Qed.

Lemma sched_row_scan_first (cells : list Cell) (cur : Z) (m m' : gmap Z Z)
    (found found' : gset string) (t : string) (code : Z) :
  sched_row_scan cells cur m found = Ok (m', found') ->
  t ∈ targets_to_find -> py_int t = Ok code ->
  found ⊆ targets_to_find ->
  found' ⊆ targets_to_find
  /\ (t ∈ found -> t ∈ found' /\ m' !! code = m !! code)
  /\ (t ∉ found ->
      match first_in_row t (cur - 1) cells with
      | Some k => t ∈ found' /\ m' !! code = Some k
      | None => (t ∉ found') /\ m' !! code = m !! code
      end).
Proof.
  intros Hscan Ht Hcode. revert cur m found Hscan.
  induction cells as [|cell cells IH]; intros cur m found Hscan Hsub.
  - cbn in Hscan. injection Hscan as <- <-. cbn [first_in_row]. auto.
  - cbn [sched_row_scan] in Hscan.
    destruct (cell_column cell cur) as [k|] eqn:Ek; [|discriminate].
    cbn [mbind result_bind] in Hscan. apply cell_column_ok_resolve in Ek.
    cbn [first_in_row]. rewrite <- Ek.
    assert (Hk : k + 1 - 1 = k) by lia.
    destruct (cell_text cell) as [t0|] eqn:Et0.
    + destruct (bool_decide (t0 ∈ targets_to_find)) eqn:Ein; cbn [andb] in Hscan.
      * apply bool_decide_eq_true in Ein.
        destruct (bool_decide (t0 ∉ found)) eqn:Enew.
        -- apply bool_decide_eq_true in Enew.
           destruct (py_int t0) as [num|] eqn:Enum; [|discriminate].
           cbn [mbind result_bind] in Hscan.
           assert (Hsub1 : found ∪ {[t0]} ⊆ targets_to_find).
           { intros x [Hx | ->%elem_of_singleton]%elem_of_union; [apply Hsub, Hx | exact Ein]. }
           destruct (IH _ _ _ Hscan Hsub1) as (Hsub' & Hold & Hnew).
           rewrite Hk in Hnew. split; [exact Hsub'|].
           destruct (decide (t0 = t)) as [-> | Hne].
           ++ assert (num = code) as -> by congruence.
              assert (Hnow : t ∈ found ∪ {[t]}) by (apply elem_of_union_r, elem_of_singleton_2; reflexivity).
              destruct (Hold Hnow) as [Hin Hm].
              rewrite lookup_insert_eq in Hm.
              split; [intros Hf; contradiction|]. intros _.
              rewrite bool_decide_eq_true_2 by reflexivity. auto.
           ++ assert (Hnum : num <> code).
              { intros ->. apply Hne. exact (target_code_inj t t0 code Ht Ein Hcode Enum). }
              split.
              ** intros Hf. destruct (Hold (elem_of_union_l _ _ _ Hf)) as [Hin Hm].
                 rewrite lookup_insert_ne in Hm by exact Hnum. auto.
              ** intros Hf. rewrite bool_decide_eq_false_2 by congruence.
                 assert (Hout : t ∉ found ∪ {[t0]}).
                 { intros [Hx | Hx%elem_of_singleton]%elem_of_union; [exact (Hf Hx) | congruence]. }
                 specialize (Hnew Hout).
                 rewrite lookup_insert_ne in Hnew by exact Hnum. exact Hnew.
        -- apply bool_decide_eq_false in Enew.
           destruct (IH _ _ _ Hscan Hsub) as (Hsub' & Hold & Hnew).
           rewrite Hk in Hnew. split; [exact Hsub' | split; [exact Hold|]].
           intros Hf. rewrite bool_decide_eq_false_2; [exact (Hnew Hf)|].
           intros [= ->]. apply Enew. exact Hf.
      * apply bool_decide_eq_false in Ein.
        destruct (IH _ _ _ Hscan Hsub) as (Hsub' & Hold & Hnew).
        rewrite Hk in Hnew. split; [exact Hsub' | split; [exact Hold|]].
        intros Hf. rewrite bool_decide_eq_false_2; [exact (Hnew Hf)|].
        intros [= ->]. contradiction.
    + destruct (IH _ _ _ Hscan Hsub) as (Hsub' & Hold & Hnew).
      rewrite Hk in Hnew. split; [exact Hsub' | split; [exact Hold|]].
      intros Hf. rewrite bool_decide_eq_false_2 by discriminate. exact (Hnew Hf).
Qed.

Lemma sched_rows_scan_first (rows : list Row) (m m' : gmap Z Z)
    (found found' : gset string) (t : string) (code : Z) :
  sched_rows_scan rows m found = Ok (m', found') ->
  t ∈ targets_to_find -> py_int t = Ok code ->
  found ⊆ targets_to_find ->
  found' ⊆ targets_to_find
  /\ (t ∈ found -> t ∈ found' /\ m' !! code = m !! code)
  /\ (t ∉ found ->
      match first_in_rows t rows with
      | Some k => t ∈ found' /\ m' !! code = Some k
      | None => (t ∉ found') /\ m' !! code = m !! code
      end).
Proof.
  intros Hscan Ht Hcode. revert m found Hscan.
  induction rows as [|row rows IH]; intros m found Hscan Hsub.
  - cbn in Hscan. injection Hscan as <- <-. cbn [first_in_rows]. auto.
  - cbn [sched_rows_scan] in Hscan.
    destruct (sched_row_scan row 1 m found) as [[m1 found1]|] eqn:Erow; [|discriminate].
    cbn [mbind result_bind] in Hscan.
    destruct (sched_row_scan_first row 1 m m1 found found1 t code Erow Ht Hcode Hsub)
      as (Hsub1 & Hold1 & Hnew1).
    change (1 - 1) with 0 in Hnew1. cbn [first_in_rows].
    destruct (bool_decide (size found1 = size targets_to_find)) eqn:Esize.
    + apply bool_decide_eq_true in Esize. injection Hscan as <- <-.
      assert (Hall : found1 = targets_to_find).
      { apply set_subseteq_size_eq; [exact Hsub1 | lia]. }
      split; [exact Hsub1 | split; [exact Hold1|]].
      intros Hf. specialize (Hnew1 Hf).
      destruct (first_in_row t 0 row); [exact Hnew1|].
      exfalso. apply (proj1 Hnew1). rewrite Hall. exact Ht.
    + destruct (IH _ _ Hscan Hsub1) as (Hsub' & Hold & Hnew).
      split; [exact Hsub' | split].
      * intros Hf. destruct (Hold1 Hf) as [Hin1 Hm1].
        destruct (Hold Hin1) as [Hin Hm]. split; [exact Hin | congruence].
      * intros Hf. specialize (Hnew1 Hf).
        destruct (first_in_row t 0 row) as [k|].
        -- destruct Hnew1 as [Hin1 Hm1]. destruct (Hold Hin1) as [Hin Hm].
           split; [exact Hin | congruence].
        -- destruct Hnew1 as [Hout1 Hm1]. specialize (Hnew Hout1).
           rewrite Hm1 in Hnew. exact Hnew.
Qed.

Lemma sched_row_scan_total (cells : list Cell) (cur : Z) (m : gmap Z Z) (found : gset string) :
  well_indexed cells -> exists r, sched_row_scan cells cur m found = Ok r.
Proof.
  intros Hwf. revert cur m found.
  induction Hwf as [|cell cells Hcell Hcells IH]; intros cur m found.
  - eexists. reflexivity.
  - cbn [sched_row_scan]. rewrite (cell_column_resolve cell cur Hcell).
    cbn [mbind result_bind].
    destruct (cell_text cell) as [t0|]; [|apply IH].
    destruct (bool_decide (t0 ∈ targets_to_find)) eqn:Ein; cbn [andb]; [|apply IH].
    destruct (bool_decide (t0 ∉ found)); [|apply IH].
    apply bool_decide_eq_true in Ein. destruct (target_code t0 Ein) as [num ->].
    cbn [mbind result_bind]. apply IH.
Qed.

Lemma sched_rows_scan_total (rows : list Row) (m : gmap Z Z) (found : gset string) :
  Forall well_indexed rows -> exists r, sched_rows_scan rows m found = Ok r.
Proof.
  intros Hwf. revert m found. induction Hwf as [|row rows Hrow Hrows IH]; intros m found.
  - eexists. reflexivity.
  - cbn [sched_rows_scan].
    destruct (sched_row_scan_total row 1 m found Hrow) as [[m1 found1] ->].
    cbn [mbind result_bind]. destruct (bool_decide _); [eexists; reflexivity | apply IH].
Qed.

Lemma find_schedule_p_headers_first (rows : list Row) (hm : gmap string (option Z)) :
  find_schedule_p_headers rows = Ok hm -> hm = schedule_columns (take 50 rows).
Proof.
  unfold find_schedule_p_headers, schedule_columns.
  destruct (sched_rows_scan (take 50 rows) ∅ ∅) as [[m found]|] eqn:E; [|discriminate].
  cbn [mbind result_bind].
  assert (H1 : "1" ∈ targets_to_find) by (unfold targets_to_find; set_solver).
  assert (H25 : "25" ∈ targets_to_find) by (unfold targets_to_find; set_solver).
  assert (H26 : "26" ∈ targets_to_find) by (unfold targets_to_find; set_solver).
  assert (Hempty : (∅ : gset string) ⊆ targets_to_find) by apply empty_subseteq.
  destruct (sched_rows_scan_first _ _ _ _ _ "1" 1 E H1 eq_refl Hempty) as (Hsub & _ & Hep).
  destruct (sched_rows_scan_first _ _ _ _ _ "25" 25 E H25 eq_refl Hempty) as (_ & _ & Hclaims).
  destruct (sched_rows_scan_first _ _ _ _ _ "26" 26 E H26 eq_refl Hempty) as (_ & _ & Hlosses).
  specialize (Hep (not_elem_of_empty _)). specialize (Hclaims (not_elem_of_empty _)).
  specialize (Hlosses (not_elem_of_empty _)).
  destruct (bool_decide (size found ≠ size targets_to_find)) eqn:Esize.
  - apply bool_decide_eq_true in Esize. intros [= <-].
    destruct (first_in_rows "1" (take 50 rows)) as [ep|]; [|reflexivity].
    destruct (first_in_rows "25" (take 50 rows)) as [claims|]; [|reflexivity].
    destruct (first_in_rows "26" (take 50 rows)) as [losses|]; [|reflexivity].
    exfalso. apply Esize. f_equal. apply set_eq. intros t. split; [apply Hsub|].
    unfold targets_to_find. intros Ht. set_unfold.
    destruct Ht as [[-> | ->] | ->]; tauto.
  - apply bool_decide_eq_false in Esize.
    assert (Hall : found = targets_to_find).
    { apply set_subseteq_size_eq; [exact Hsub|].
      destruct (decide (size found = size targets_to_find)); [lia | contradiction]. }
    intros [= <-].
    destruct (first_in_rows "1" (take 50 rows)) as [ep|];
      [|exfalso; apply (proj1 Hep); rewrite Hall; exact H1].
    destruct (first_in_rows "25" (take 50 rows)) as [claims|];
      [|exfalso; apply (proj1 Hclaims); rewrite Hall; exact H25].
    destruct (first_in_rows "26" (take 50 rows)) as [losses|];
      [|exfalso; apply (proj1 Hlosses); rewrite Hall; exact H26].
    rewrite (proj2 Hep), (proj2 Hclaims), (proj2 Hlosses). reflexivity.
Qed.

(** X7.  The schedule column map is made of first occurrences: scanning
    the first 50 rows in row-major order, each of the tokens 1, 25 and 26
    is bound to the carry-forward column of the first cell whose trimmed
    text is the token (EP to 1, CLAIMS to 25, LOSSES_INC to 26), later
    occurrences never rebind it, and the map is empty unless all three
    occur.  The search returns normally whenever the index attributes of
    those rows are integers. *)
Theorem schedule_headers_first_occurrence (rows : list Row) :
  (forall hm, find_schedule_p_headers rows = Ok hm -> hm = schedule_columns (take 50 rows))
  /\ (Forall well_indexed (take 50 rows) ->
      find_schedule_p_headers rows = Ok (schedule_columns (take 50 rows))).
Proof.
  split; [apply find_schedule_p_headers_first|].
  intros Hwf.
  destruct (sched_rows_scan_total (take 50 rows) ∅ ∅ Hwf) as [r Hr].
  destruct (find_schedule_p_headers rows) as [hm|] eqn:E.
  - f_equal. apply find_schedule_p_headers_first, E.
  - unfold find_schedule_p_headers in E. rewrite Hr in E. cbn [mbind result_bind] in E.
    destruct r as [m found]. destruct (bool_decide _) in E; discriminate.
Qed.

Lemma schedule_headers_first_occurrence_witness :
  find_schedule_p_headers rows_repeated_tokens
  = Ok (<["CLAIMS" := Some 5]> (<["LOSSES_INC" := Some 7]> (<["EP" := Some 4]> ∅)))
  /\ <["CLAIMS" := Some 5]> (<["LOSSES_INC" := Some 7]> (<["EP" := Some 4]> ∅))
     = schedule_columns (take 50 rows_repeated_tokens).
Proof.
  assert (E : find_schedule_p_headers rows_repeated_tokens
              = Ok (<["CLAIMS" := Some 5]> (<["LOSSES_INC" := Some 7]> (<["EP" := Some 4]> ∅))))
    by (vm_compute; reflexivity).
  split; [exact E|].
  exact (proj1 (schedule_headers_first_occurrence rows_repeated_tokens) _ E).
Defined.

(** ** The premium header map *)

Lemma number_row_scan_last (cells : list Cell) (cur code : Z) (m m' : gmap Z Z) :
  number_row_scan cells cur m = Ok m' ->
  m' !! code = match last_in_row code (cur - 1) cells with
               | Some k => Some k
               | None => m !! code
               end.
Proof.
  revert cur m. induction cells as [|cell cells IH]; intros cur m.
  - cbn. intros [= <-]. reflexivity.
  - cbn [number_row_scan last_in_row].
    destruct (cell_column cell cur) as [k|] eqn:Ek; [|discriminate].
    cbn [mbind result_bind]. apply cell_column_ok_resolve in Ek. rewrite <- Ek.
    assert (Hk : k + 1 - 1 = k) by lia. unfold carries_code.
    destruct (cell_text cell) as [t|].
    + destruct (Str.isdigit t); cbn [andb].
      * destruct (py_int t) as [num|] eqn:Enum; [|discriminate].
        cbn [mbind result_bind]. intros Hscan. rewrite (IH _ _ Hscan), Hk.
        destruct (last_in_row code k cells); [reflexivity|].
        destruct (decide (num = code)) as [-> | Hne].
        -- rewrite bool_decide_eq_true_2 by reflexivity. apply lookup_insert_eq.
        -- rewrite bool_decide_eq_false_2 by congruence. apply lookup_insert_ne, Hne.
      * intros Hscan. rewrite (IH _ _ Hscan), Hk.
        destruct (last_in_row code k cells); reflexivity.
    + intros Hscan. rewrite (IH _ _ Hscan), Hk.
      destruct (last_in_row code k cells); reflexivity.
Qed.

Lemma last_in_row_some (code prev : Z) (cells : list Cell) (c : Cell) :
  c ∈ cells -> carries_code code c = true -> is_Some (last_in_row code prev cells).
Proof.
  intros Hc Hcode. revert prev. induction Hc as [c cells | c c' cells Hc IH]; intros prev.
  - cbn [last_in_row]. destruct (last_in_row code _ cells); [eauto|].
    rewrite Hcode. eauto.
  - cbn [last_in_row]. destruct (IH Hcode (resolve prev c')) as [k ->]. eauto.
Qed.

Lemma opt_str_eqb_true (o : option string) (s : string) :
  opt_str_eqb o s = true -> o = Some s.
Proof.
  destruct o as [t|]; [|discriminate]. cbn. intros H%String.eqb_eq. congruence.
Qed.

Lemma anchor_codes (anchor : Row) :
  is_anchor anchor = true ->
  is_Some (last_in_row 1 0 anchor) /\ is_Some (last_in_row 2 0 anchor).
Proof.
  unfold is_anchor.
  destruct (get_cell_data anchor (Some 8)) as [c1|] eqn:E8; [|discriminate].
  destruct (get_cell_data anchor (Some 9)) as [c2|] eqn:E9; [|discriminate].
  intros [H1%opt_str_eqb_true H2%opt_str_eqb_true]%andb_true_iff. subst c1 c2.
  apply get_cell_data_from_text in E8 as (cell1 & Hin1 & Ht1).
  apply get_cell_data_from_text in E9 as (cell2 & Hin2 & Ht2).
  split.
  - apply (last_in_row_some _ _ _ cell1 Hin1). unfold carries_code. rewrite Ht1. reflexivity.
  - apply (last_in_row_some _ _ _ cell2 Hin2). unfold carries_code. rewrite Ht2. reflexivity.
Qed.

Lemma number_row_scan_total (cells : list Cell) (cur : Z) (m : gmap Z Z) :
  well_indexed cells -> exists m', number_row_scan cells cur m = Ok m'.
Proof.
  intros Hwf. revert cur m. induction Hwf as [|cell cells Hcell Hcells IH]; intros cur m.
  - eexists. reflexivity.
  - cbn [number_row_scan]. rewrite (cell_column_resolve cell cur Hcell).
    cbn [mbind result_bind].
    destruct (cell_text cell) as [t|]; [|apply IH].
    destruct (Str.isdigit t) eqn:Ed; [|apply IH].
    unfold Str.isdigit in Ed. apply andb_true_iff in Ed as [Hne Hd].
    destruct (py_int_all_digits t Hd) as (v & -> & _).
    { intros ->. discriminate. }
    cbn [mbind result_bind]. apply IH.
Qed.

Lemma find_number_row_total (rows : list Row) :
  Forall well_indexed rows -> exists m, find_number_row rows = Ok m.
Proof.
  induction 1 as [|row rows Hrow Hrows IH]; [eexists; reflexivity|].
  cbn [find_number_row].
  destruct (get_cell_data_ok row 8 Hrow) as [c1 ->].
  destruct (get_cell_data_ok row 9 Hrow) as [c2 ->].
  cbn [mbind result_bind].
  destruct (_ && _); [apply number_row_scan_total, Hrow | exact IH].
Qed.

Lemma find_page19_header_map_last (rows : list Row) (i : nat) (anchor : Row)
    (hm : gmap string (option Z)) :
  take 10 rows !! i = Some anchor ->
  is_anchor anchor = true ->
  (forall j row, (j < i)%nat -> take 10 rows !! j = Some row -> is_anchor row = false) ->
  find_page19_header_map rows = Ok hm ->
  hm = anchor_columns anchor.
Proof.
  intros Hi Hanchor Hbefore. unfold find_page19_header_map.
  destruct (find_number_row (take 10 rows)) as [m|] eqn:Em; [|discriminate].
  cbn [mbind result_bind].
  apply (find_number_row_anchor _ i anchor m Hi Hanchor Hbefore) in Em.
  assert (Hcode : forall code, m !! code = last_in_row code 0 anchor).
  { intros code. rewrite (number_row_scan_last anchor 1 code ∅ m Em).
    change (1 - 1) with 0. destruct (last_in_row code 0 anchor); [reflexivity|].
    apply lookup_empty. }
  destruct (bool_decide (m = ∅)) eqn:Eempty.
  - apply bool_decide_eq_true in Eempty. exfalso.
    destruct (anchor_codes anchor Hanchor) as [[k Hk] _].
    rewrite <- Hcode, Eempty, lookup_empty in Hk. discriminate.
  - intros [= <-]. unfold anchor_columns. rewrite !Hcode. reflexivity.
Qed.

(** X8.  On the premium exhibit the header map is read off the anchor row
    (the first of rows 0..9 with 1 in column 8 and 2 in column 9) and is
    made of last occurrences: each of the codes 1, 2, 6 and 9 is bound to
    the carry-forward column of the last cell of that row whose trimmed
    text is a digit string with that value, and to None when no cell
    carries it.  The codes 1 and 2 are always bound on an anchor row, so
    the map is never empty there, and the search returns normally
    whenever the index attributes of rows 0..9 are integers. *)
Theorem premium_headers_last_occurrence (rows : list Row) (i : nat) (anchor : Row) :
  take 10 rows !! i = Some anchor ->
  is_anchor anchor = true ->
  (forall j row, (j < i)%nat -> take 10 rows !! j = Some row -> is_anchor row = false) ->
  (forall hm, find_page19_header_map rows = Ok hm -> hm = anchor_columns anchor)
  /\ is_Some (last_in_row 1 0 anchor)
  /\ is_Some (last_in_row 2 0 anchor)
  /\ (Forall well_indexed (take 10 rows) ->
      find_page19_header_map rows = Ok (anchor_columns anchor)).
Proof.
  intros Hi Hanchor Hbefore.
  split; [intros hm; apply (find_page19_header_map_last rows i anchor hm Hi Hanchor Hbefore)|].
  split; [apply anchor_codes, Hanchor|]. split; [apply anchor_codes, Hanchor|].
  intros Hwf. destruct (find_number_row_total _ Hwf) as [m Hm].
  destruct (find_page19_header_map rows) as [hm|] eqn:E.
  - f_equal. exact (find_page19_header_map_last rows i anchor hm Hi Hanchor Hbefore E).
  - unfold find_page19_header_map in E. rewrite Hm in E. cbn [mbind result_bind] in E.
    destruct (bool_decide _) in E; discriminate.
Qed.

Lemma premium_headers_last_occurrence_witness :
  find_page19_header_map rows_repeated_codes
  = Ok (<["Direct Defense and Cost Containment Expense Incurred" := Some 11]>
       (<["Direct Losses Incurred" := Some 10]>
       (<["Direct Premiums Earned" := Some 9]>
       (<["Direct Premiums Written" := Some 12]> ∅)))).
Proof.
  assert (Hwf : Forall well_indexed (take 10 rows_repeated_codes)).
  { repeat constructor; discriminate. }
  refine (proj2 (proj2 (proj2 (premium_headers_last_occurrence rows_repeated_codes 1
            [ text_cell_at "8" "1"; text_cell "2"; text_cell "6"; text_cell "9";
              text_cell " 1 " ] eq_refl eq_refl _))) Hwf).
  intros j row Hj Hrow. destruct j as [|j]; [|lia]. injection Hrow as <-. reflexivity.
Defined.

(** ** Loss-schedule extraction *)

Lemma prior_rows_from (i : nat) (rows : list Row) (acc l : list nat) :
  prior_rows i rows acc = Ok l -> l = acc ++ prior_from i rows.
Proof.
  revert i acc. induction rows as [|row rows IH]; intros i acc.
  - cbn. intros [= <-]. symmetry. apply app_nil_r.
  - cbn [prior_rows prior_from]. unfold is_prior_row.
    destruct (get_cell_data row (Some 3)) as [[y|]|]; cbn [mbind result_bind];
      [| |discriminate].
    + destruct (Str.truthy y && Str.contains "Prior" y); intros Hl.
      * rewrite (IH _ _ Hl), <- app_assoc. reflexivity.
      * exact (IH _ _ Hl).
    + intros Hl. exact (IH _ _ Hl).
Qed.

Lemma prior_from_head (i : nat) (rows : list Row) (p : nat) (rest : list nat) :
  prior_from i rows = p :: rest ->
  (i <= p)%nat /\ (p < i + length rows)%nat
  /\ exists rows', rest = prior_from (S p) rows'
                   /\ (S p + length rows' = i + length rows)%nat.
Proof.
  revert i. induction rows as [|row rows IH]; intros i; [discriminate|].
  cbn [prior_from length]. destruct (is_prior_row row).
  - intros [= <- <-]. split; [lia|]. split; [lia|]. exists rows. split; [reflexivity | lia].
  - intros Hp. destruct (IH _ Hp) as (Hlo & Hhi & rows' & Hrest & Hlen).
    split; [lia|]. split; [lia|]. exists rows'. split; [exact Hrest | lia].
Qed.

Lemma prior_indices_increasing (rows : list Row) (p0 p1 p2 : nat) (rest : list nat) :
  prior_indices rows = p0 :: p1 :: p2 :: rest ->
  (p0 < p1 < p2)%nat /\ (p2 < length rows)%nat.
Proof.
  unfold prior_indices. intros H0.
  apply prior_from_head in H0 as (_ & _ & rows0 & H1 & Hlen0). symmetry in H1.
  apply prior_from_head in H1 as (Hlo1 & _ & rows1 & H2 & Hlen1). symmetry in H2.
  apply prior_from_head in H2 as (Hlo2 & Hhi2 & _). lia.
Qed.

Lemma sched_loop_offsets `{Builtins} (all_rows : list Row) (column_map : gmap string (option Z))
    (meta : SchedMeta) (p0 p1 p2 n a : nat) (acc recs : list dict) :
  (p0 <= p1 <= p2)%nat ->
  sched_loop all_rows column_map meta p0 p1 p2 (seq a n) acc = Ok recs ->
  recs = acc ++ concat (map (offset_records all_rows column_map meta p0 p1 p2)
                          (seq a (Nat.min n (length all_rows - p2 - a)))).
Proof.
  intros Hord. revert a acc. induction n as [|n IH]; intros a acc.
  - cbn. intros [= <-]. symmetry. apply app_nil_r.
  - cbn [seq sched_loop]. cbv zeta. cbn [forallb].
    destruct (Nat.ltb_spec (p2 + a) (length all_rows)) as [Hin | Hout].
    + rewrite (proj2 (Nat.ltb_lt (p0 + a) _)) by lia.
      rewrite (proj2 (Nat.ltb_lt (p1 + a) _)) by lia. cbn [andb negb].
      replace (Nat.min (S n) (length all_rows - p2 - a))
        with (S (Nat.min n (length all_rows - p2 - S a))) by lia.
      cbn [seq map concat]. unfold offset_records at 1. unfold list_item.
      destruct (all_rows !! (p0 + a)%nat) as [row_ep|]; [|discriminate].
      destruct (all_rows !! (p1 + a)%nat) as [row_claims|]; [|discriminate].
      destruct (all_rows !! (p2 + a)%nat) as [row_losses|]; [|discriminate].
      cbn [mbind result_bind].
      destruct (get_cell_data row_ep (Some 3)) as [[year|]|]; cbn [mbind result_bind];
        [|apply IH|discriminate].
      destruct (Str.truthy year); [|apply IH].
      destruct (read_numeric row_ep column_map "EP") as [ep|] eqn:Eep; [|discriminate].
      destruct (read_numeric row_losses column_map "LOSSES_INC") as [losses|] eqn:Elosses;
        [|discriminate].
      destruct (read_numeric row_claims column_map "CLAIMS") as [claims|] eqn:Eclaims;
        [|discriminate].
      cbn [mbind result_bind]. intros Hloop. rewrite (IH _ _ Hloop), <- app_assoc.
      apply read_numeric_inv in Eep, Elosses, Eclaims. subst. reflexivity.
    + rewrite !andb_false_r. cbn [negb]. intros [= <-].
      replace (Nat.min (S n) (length all_rows - p2 - a)) with 0%nat by lia.
      symmetry. apply app_nil_r.
Qed.

Lemma offset_records_length `{Builtins} (all_rows : list Row)
    (column_map : gmap string (option Z)) (meta : SchedMeta) (p0 p1 p2 i : nat) :
  (length (offset_records all_rows column_map meta p0 p1 p2 i) <= 1)%nat.
Proof.
  unfold offset_records. repeat case_match; cbn; lia.
Qed.

Lemma concat_map_length {A B} (f : A -> list B) (l : list A) :
  (forall a, length (f a) <= 1)%nat -> (length (concat (map f l)) <= length l)%nat.
Proof.
  intros Hf. induction l as [|a l IH]; [cbn; lia|].
  cbn [map concat]. rewrite length_app. cbn [length]. specialize (Hf a). lia.
Qed.

Lemma process_schedule_p_body_detail `{Builtins} (worksheet : Worksheet) (lob : string)
    (recs : list dict) :
  process_schedule_p_body worksheet lob = Ok recs ->
  recs = [] \/
  exists column_map meta p0 p1 p2 rest,
    schedule_meta_of (Rows worksheet) lob meta
    /\ find_schedule_p_headers (Rows worksheet) = Ok column_map
    /\ all_values column_map = true
    /\ prior_indices (Rows worksheet) = p0 :: p1 :: p2 :: rest
    /\ sched_loop (Rows worksheet) column_map meta p0 p1 p2 (seq 0 12) [] = Ok recs.
Proof.
  unfold process_schedule_p_body, schedule_meta_of.
  destruct (Rows worksheet) as [|first others] eqn:Erows.
  { intros [= <-]. left. reflexivity. }
  destruct (get_cell_data first (Some 2)) as [[hs|]|] eqn:Ehs; cbn [mbind result_bind];
    [| intros [= <-]; left; reflexivity | discriminate].
  destruct (Str.truthy hs); cbn [negb]; [|intros [= <-]; left; reflexivity].
  destruct (Header.search hs) as [groups|] eqn:Egroups; [|intros [= <-]; left; reflexivity].
  destruct (header_fields groups) as [[[year company] naic]|] eqn:Efields; [|discriminate].
  cbn [mbind result_bind].
  destruct (find_schedule_p_headers (first :: others)) as [hm|] eqn:Ehm; [|discriminate].
  cbn [mbind result_bind].
  destruct (all_values hm) eqn:Eall; cbn [negb]; [|intros [= <-]; left; reflexivity].
  destruct (prior_rows 0 (first :: others) []) as [prior|] eqn:Eprior; [|discriminate].
  cbn [mbind result_bind]. apply prior_rows_from in Eprior. cbn [app] in Eprior.
  destruct prior as [|a prior]; [intros [= <-]; left; reflexivity|].
  destruct prior as [|b prior]; [intros [= <-]; left; reflexivity|].
  destruct prior as [|c prior]; [intros [= <-]; left; reflexivity|].
  intros Hloop. right.
  exists hm, {| sp_report_year := year; sp_company_name := company;
                sp_naic := naic; sp_lob := lob |}, a, b, c, prior.
  split; [exists first, hs, groups; auto|]. auto.
Qed.

(** X9.  The loss-schedule records are assembled by offset from the first
    three "Prior" rows p0 < p1 < p2: offset i (0..11) reads the year and
    the earned premium from row p0+i, the claims from row p1+i and the
    losses from row p2+i, gives no record when the year cell is empty,
    and the loop ends at the first offset with p2+i past the last row.
    So a worksheet yields at most 12 schedule records, and every record
    carries the line of business the caller passed. *)
Theorem schedule_records_by_offset `{Builtins} (worksheet : Worksheet) (lob : string)
    (recs : list dict) :
  process_schedule_p_worksheet worksheet lob = Ok recs ->
  (length recs <= 12)%nat
  /\ (recs = [] \/
      exists column_map meta p0 p1 p2 rest,
        schedule_meta_of (Rows worksheet) lob meta
        /\ find_schedule_p_headers (Rows worksheet) = Ok column_map
        /\ prior_indices (Rows worksheet) = p0 :: p1 :: p2 :: rest
        /\ (p0 < p1 < p2)%nat /\ (p2 < length (Rows worksheet))%nat
        /\ recs = concat (map (offset_records (Rows worksheet) column_map meta p0 p1 p2)
                            (seq 0 (Nat.min 12 (length (Rows worksheet) - p2))))).
Proof.
  unfold process_schedule_p_worksheet, try_except.
  destruct (process_schedule_p_body worksheet lob) as [recs'|] eqn:E;
    [|intros [= <-]; split; [cbn; lia | left; reflexivity]].
  intros [= ->].
  apply process_schedule_p_body_detail in E
    as [-> | (hm & meta & p0 & p1 & p2 & rest & Hmeta & Hhm & _ & Hprior & Hloop)];
    [split; [cbn; lia | left; reflexivity]|].
  destruct (prior_indices_increasing _ _ _ _ _ Hprior) as [Hord Hlast].
  apply sched_loop_offsets in Hloop; [|lia]. cbn [app] in Hloop.
  rewrite Nat.sub_0_r in Hloop. split.
  - rewrite Hloop.
    etransitivity; [apply concat_map_length; intros; apply offset_records_length|].
    rewrite length_seq. lia.
  - right. exists hm, meta, p0, p1, p2, rest.
    split; [exact Hmeta|]. split; [exact Hhm|]. split; [exact Hprior|].
    split; [exact Hord|]. split; [exact Hlast | exact Hloop].
Qed.

Lemma schedule_records_by_offset_witness :
  (length schedule_sample_records <= 12)%nat
  /\ (schedule_sample_records = [] \/
      exists column_map meta p0 p1 p2 rest,
        schedule_meta_of (Rows ws_schedule) "AL" meta
        /\ find_schedule_p_headers (Rows ws_schedule) = Ok column_map
        /\ prior_indices (Rows ws_schedule) = p0 :: p1 :: p2 :: rest
        /\ (p0 < p1 < p2)%nat /\ (p2 < length (Rows ws_schedule))%nat
        /\ schedule_sample_records
           = concat (map (@offset_records ref_builtins (Rows ws_schedule) column_map meta
                            p0 p1 p2)
                       (seq 0 (Nat.min 12 (length (Rows ws_schedule) - p2))))).
Proof.
  apply (@schedule_records_by_offset ref_builtins ws_schedule "AL" schedule_sample_records).
  vm_compute. reflexivity.
Defined.

(** X10.  A loss-schedule worksheet with fewer than three rows whose
    column 3 contains Prior yields no record. *)
Theorem schedule_needs_three_prior_rows `{Builtins} (worksheet : Worksheet) (lob : string) :
  (length (prior_indices (Rows worksheet)) < 3)%nat ->
  process_schedule_p_worksheet worksheet lob = Ok [].
Proof.
  intros Hfew. unfold process_schedule_p_worksheet, try_except.
  destruct (process_schedule_p_body worksheet lob) as [recs|] eqn:E; [|reflexivity].
  apply process_schedule_p_body_detail in E
    as [-> | (hm & meta & p0 & p1 & p2 & rest & _ & _ & _ & Hprior & _)]; [reflexivity|].
  rewrite Hprior in Hfew. cbn [length] in Hfew. lia.
Qed.

Lemma schedule_needs_three_prior_rows_witness :
  prior_indices (Rows ws_schedule_two_blocks) = [4; 6]%nat
  /\ @process_schedule_p_worksheet ref_builtins ws_schedule_two_blocks "AL" = Ok [].
Proof.
  split; [vm_compute; reflexivity|].
  apply (@schedule_needs_three_prior_rows ref_builtins ws_schedule_two_blocks "AL").
  vm_compute. lia.
Defined.

(** ** The file loop as a concatenation *)

Lemma acc_app_empty_r (acc : Acc) : acc_app acc empty_acc = acc.
Proof. destruct acc. unfold acc_app. cbn. rewrite !app_nil_r. reflexivity. Qed.

Lemma acc_app_assoc (a b c : Acc) : acc_app (acc_app a b) c = acc_app a (acc_app b c).
Proof. unfold acc_app. cbn. rewrite <- !app_assoc. reflexivity. Qed.

Lemma process_worksheet_base `{Builtins} (w : Worksheet) (acc : Acc) :
  process_worksheet w acc
  = match process_worksheet w empty_acc with
    | Ok d => Ok (acc_app acc d)
    | Raise e => Raise e
    end.
Proof.
  unfold process_worksheet. cbv zeta.
  destruct (identify_report_type (Rows w)) as [[[|]|]|]; cbn [mbind result_bind].
  - destruct (process_page19_worksheet w) as [recs|]; cbn [mbind result_bind]; [|reflexivity].
    unfold acc_app. cbn. rewrite !app_nil_r. reflexivity.
  - destruct (identify_sched_p_lob w (Rows w)) as [[l|]|]; cbn [mbind result_bind].
    + destruct (lob_is_al_or_apd (Some l)); [|rewrite acc_app_empty_r; reflexivity].
      destruct (process_schedule_p_worksheet w l) as [recs|]; cbn [mbind result_bind];
        [|reflexivity].
      unfold acc_app. cbn. rewrite !app_nil_r. reflexivity.
    + rewrite acc_app_empty_r. reflexivity.
    + reflexivity.
  - rewrite acc_app_empty_r. reflexivity.
  - reflexivity.
Qed.

Lemma process_worksheets_base `{Builtins} (wss : list Worksheet) (acc : Acc) :
  process_worksheets wss acc
  = (acc_app acc (process_worksheets wss empty_acc).1, (process_worksheets wss empty_acc).2).
Proof.
  revert acc. induction wss as [|w wss IH]; intros acc.
  - cbn. rewrite acc_app_empty_r. reflexivity.
  - cbn [process_worksheets]. rewrite (process_worksheet_base w acc).
    destruct (process_worksheet w empty_acc) as [d|e].
    + rewrite (IH (acc_app acc d)), (IH d). cbn [fst snd]. rewrite acc_app_assoc. reflexivity.
    + cbn. rewrite acc_app_empty_r. reflexivity.
Qed.

Lemma process_file_base `{Builtins} (file_path : string) (file : XmlFile) (acc : Acc) :
  process_file file_path file acc = acc_app acc (process_file file_path file empty_acc).
Proof.
  destruct file as [|wss]; cbn [process_file].
  - unfold log_critical, acc_app. cbn. rewrite !app_nil_r. reflexivity.
  - rewrite (process_worksheets_base wss acc).
    destruct (process_worksheets wss empty_acc) as [d [e|]]; cbn [fst snd]; [|reflexivity].
    unfold log_critical, acc_app. cbn. rewrite app_assoc. reflexivity.
Qed.

Lemma process_files_base `{Builtins} (xml_files : list (string * XmlFile)) (acc : Acc) :
  process_files xml_files acc = acc_app acc (process_files xml_files empty_acc).
Proof.
  revert acc. induction xml_files as [|[path file] rest IH]; intros acc.
  - cbn. rewrite acc_app_empty_r. reflexivity.
  - cbn [process_files]. rewrite (IH (process_file path file acc)),
      (IH (process_file path file empty_acc)), (process_file_base path file acc).
    apply acc_app_assoc.
Qed.

Lemma process_files_app `{Builtins} (l1 l2 : list (string * XmlFile)) (acc : Acc) :
  process_files (l1 ++ l2) acc = process_files l2 (process_files l1 acc).
Proof.
  revert acc. induction l1 as [|[path file] l1 IH]; intros acc; [reflexivity|].
  cbn [app process_files]. apply IH.
Qed.

(** X11.  The input files are processed independently of one another:
    what a file adds to the two record lists and to the critical log does
    not depend on what was accumulated before it, so the result of a run
    over a list of files is the result of its first part followed, list
    by list, by the result of a fresh run over the rest. *)
Theorem file_loop_concatenates `{Builtins} (l1 l2 : list (string * XmlFile)) (acc : Acc) :
  process_files (l1 ++ l2) acc
  = acc_app (process_files l1 acc) (process_files l2 empty_acc).
Proof. rewrite process_files_app. apply process_files_base. Qed.

(** ** What every record of a run satisfies *)

Lemma page19_record_losses (meta : Page19Meta) (liab code : string)
    (gwp ep losses dcc : option float) :
  dict_get "LOSSES_INCURRED" (page19_record meta liab code gwp ep losses dcc)
  = Some (py_add
            (field_or_zero
               (dict_get "DIRECT_LOSSES_INC" (page19_record meta liab code gwp ep losses dcc)))
            (field_or_zero
               (dict_get "DCC" (page19_record meta liab code gwp ep losses dcc)))).
Proof. destruct losses, dcc; reflexivity. Qed.

Lemma page19_records_good `{Builtins} (w : Worksheet) (recs : list dict) :
  process_page19_worksheet w = Ok recs -> Forall good_premium_record recs.
Proof.
  intros Hrecs. pose proof (process_page19_shape w recs Hrecs) as Hshape.
  apply Forall_forall. intros rec Hrec. split; [exact (proj1 (Forall_forall _ _) Hshape rec Hrec)|].
  apply process_page19_records in Hrecs as [-> | (hm & meta & _ & ->)]; [inversion Hrec|].
  apply elem_of_expected_records in Hrec as (r & row & code & liab & d & _ & Hlob & _ & ->).
  split; [apply (row_lob_pairs row code liab Hlob)|].
  split; [apply losses_incurred_number | apply page19_record_losses].
Qed.

Lemma lob_is_al_or_apd_inv (l : string) :
  lob_is_al_or_apd (Some l) = true -> Some (VStr l) ∈ schedule_lobs.
Proof.
  unfold lob_is_al_or_apd, schedule_lobs. cbn [opt_str_eqb].
  intros [->%String.eqb_eq | ->%String.eqb_eq]%orb_true_iff; set_solver.
Qed.

Lemma offset_records_lob `{Builtins} (all_rows : list Row) (column_map : gmap string (option Z))
    (meta : SchedMeta) (p0 p1 p2 i : nat) (rec : dict) :
  rec ∈ offset_records all_rows column_map meta p0 p1 p2 i ->
  dict_get "LOB" rec = Some (VStr (sp_lob meta)).
Proof.
  unfold offset_records. repeat case_match; intros Hrec; try (inversion Hrec; fail).
  apply list_elem_of_singleton in Hrec. subst rec. reflexivity.
Qed.

Lemma schedule_records_good `{Builtins} (w : Worksheet) (l : string) (recs : list dict) :
  lob_is_al_or_apd (Some l) = true ->
  process_schedule_p_worksheet w l = Ok recs -> Forall good_schedule_record recs.
Proof.
  intros Hl Hrecs. pose proof (process_schedule_p_shape w l recs Hrecs) as Hshape.
  apply Forall_forall. intros rec Hrec. split; [exact (proj1 (Forall_forall _ _) Hshape rec Hrec)|].
  unfold process_schedule_p_worksheet, try_except in Hrecs.
  destruct (process_schedule_p_body w l) as [recs'|] eqn:E;
    [|injection Hrecs as <-; inversion Hrec].
  injection Hrecs as ->.
  apply process_schedule_p_body_detail in E
    as [-> | (hm & meta & p0 & p1 & p2 & rest & Hmeta & _ & _ & Hprior & Hloop)];
    [inversion Hrec|].
  destruct (prior_indices_increasing _ _ _ _ _ Hprior) as [Hord _].
  apply sched_loop_offsets in Hloop; [|lia]. cbn [app] in Hloop. subst recs.
  apply list_elem_of_In, in_concat in Hrec as (recs_i & Hi & Hrec).
  apply in_map_iff in Hi as (i & <- & _). apply list_elem_of_In in Hrec.
  rewrite (offset_records_lob _ _ _ _ _ _ _ _ Hrec).
  destruct Hmeta as (_ & _ & _ & _ & _ & _ & _ & Hlob). rewrite Hlob.
  apply lob_is_al_or_apd_inv, Hl.
Qed.

Lemma process_worksheet_good `{Builtins} (w : Worksheet) (acc acc' : Acc) :
  Forall good_premium_record (all_page19_data acc) ->
  Forall good_schedule_record (all_sched_p_data acc) ->
  process_worksheet w acc = Ok acc' ->
  Forall good_premium_record (all_page19_data acc')
  /\ Forall good_schedule_record (all_sched_p_data acc').
Proof.
  intros Hp Hs. unfold process_worksheet. cbv zeta.
  destruct (identify_report_type (Rows w)) as [[[|]|]|]; cbn [mbind result_bind];
    [| |intros [= <-]; auto|discriminate].
  - destruct (process_page19_worksheet w) as [recs|] eqn:E; [|discriminate].
    cbn [mbind result_bind]. intros [= <-]. cbn. split; [|exact Hs].
    apply Forall_app. split; [exact Hp | exact (page19_records_good w recs E)].
  - destruct (identify_sched_p_lob w (Rows w)) as [[l|]|]; cbn [mbind result_bind];
      [|intros [= <-]; auto|discriminate].
    destruct (lob_is_al_or_apd (Some l)) eqn:El; [|intros [= <-]; auto].
    destruct (process_schedule_p_worksheet w l) as [recs|] eqn:E; [|discriminate].
    cbn [mbind result_bind]. intros [= <-]. cbn. split; [exact Hp|].
    apply Forall_app. split; [exact Hs | exact (schedule_records_good w l recs El E)].
Qed.

Lemma process_worksheets_good `{Builtins} (wss : list Worksheet) (acc : Acc) :
  Forall good_premium_record (all_page19_data acc) ->
  Forall good_schedule_record (all_sched_p_data acc) ->
  Forall good_premium_record (all_page19_data (process_worksheets wss acc).1)
  /\ Forall good_schedule_record (all_sched_p_data (process_worksheets wss acc).1).
Proof.
  revert acc. induction wss as [|w wss IH]; intros acc Hp Hs; [cbn; auto|].
  cbn [process_worksheets]. destruct (process_worksheet w acc) as [acc'|] eqn:E; [|cbn; auto].
  destruct (process_worksheet_good w acc acc' Hp Hs E) as [Hp' Hs']. apply IH; assumption.
Qed.

Lemma process_files_good `{Builtins} (xml_files : list (string * XmlFile)) (acc : Acc) :
  Forall good_premium_record (all_page19_data acc) ->
  Forall good_schedule_record (all_sched_p_data acc) ->
  Forall good_premium_record (all_page19_data (process_files xml_files acc))
  /\ Forall good_schedule_record (all_sched_p_data (process_files xml_files acc)).
Proof.
  revert acc. induction xml_files as [|[path file] rest IH]; intros acc Hp Hs; [auto|].
  cbn [process_files]. destruct file as [|wss]; cbn [process_file].
  - apply IH; assumption.
  - pose proof (process_worksheets_good wss acc Hp Hs) as [Hp' Hs'].
    destruct (process_worksheets wss acc) as [acc' [e|]]; apply IH; assumption.
Qed.

Lemma process_files_log_length `{Builtins} (xml_files : list (string * XmlFile)) (acc : Acc) :
  (length (critical_log (process_files xml_files acc))
   <= length (critical_log acc) + length xml_files)%nat.
Proof.
  revert acc. induction xml_files as [|[path file] rest IH]; intros acc; [cbn; lia|].
  cbn [process_files length]. etransitivity; [apply IH|].
  enough (length (critical_log (process_file path file acc)) <= S (length (critical_log acc)))%nat
    by lia.
  destruct file as [|wss]; cbn [process_file].
  - cbn. rewrite length_app. cbn. lia.
  - destruct (process_worksheets wss acc) as [acc' r] eqn:E.
    apply process_worksheets_log in E as (Hlog & _).
    destruct r; cbn; rewrite ?length_app, Hlog; cbn; lia.
Qed.

(** X12.  Whatever the input files are, every premium record a run
    collects has the eleven keys of its kind, a line of business among
    19.3, 19.4 and 21.2 with the matching liability type, and as combined
    losses the sum of its direct losses and its cost containment expense,
    a missing or zero component counting as the integer 0 (so the sum is a
    number even when both are missing); every schedule record has the
    eight keys of its kind and AL or APD as line of business; there is at
    most one critical log line per file; and output generation does not
    raise on what was collected and writes at most two sheets. *)
Theorem run_records_invariants `{Builtins} (xml_files : list (string * XmlFile)) :
  Forall good_premium_record (all_page19_data (process_files xml_files empty_acc))
  /\ Forall good_schedule_record (all_sched_p_data (process_files xml_files empty_acc))
  /\ (length (critical_log (process_files xml_files empty_acc)) <= length xml_files)%nat
  /\ exists sheets,
       generate_output (process_files xml_files empty_acc) = Ok sheets
       /\ (length sheets <= 2)%nat.
Proof.
  destruct (process_files_good xml_files empty_acc) as [Hp Hs]; [constructor | constructor|].
  split; [exact Hp|]. split; [exact Hs|].
  split; [exact (process_files_log_length xml_files empty_acc)|].
  eexists. split.
  - apply generate_output_sheets. split.
    + eapply Forall_impl; [exact Hp|]. intros rec Hrec. exact (proj1 Hrec).
    + eapply Forall_impl; [exact Hs|]. intros rec Hrec. exact (proj1 Hrec).
  - unfold premium_sheet, schedule_sheet.
    destruct (all_page19_data _), (all_sched_p_data _); cbn; lia.
Qed.

(** ** The premium records of a worksheet *)

Lemma any_none_false_lookup (hm : gmap string (option Z)) (k : string) (v : option Z) :
  any_none hm = false -> hm !! k = Some v -> exists column, v = Some column.
Proof.
  intros Hnone Hk. destruct v as [column|]; [eauto|].
  rewrite (any_none_lookup hm k Hk) in Hnone. discriminate.
Qed.

Lemma find_page19_header_map_keys (rows : list Row) (hm : gmap string (option Z)) :
  find_page19_header_map rows = Ok hm -> hm <> ∅ -> any_none hm = false ->
  binds_page19_columns hm.
Proof.
  unfold find_page19_header_map.
  destruct (find_number_row (take 10 rows)) as [m|]; [|discriminate].
  cbn [mbind result_bind]. destruct (bool_decide (m = ∅)); [intros [= <-] Hne; contradiction|].
  intros [= <-] _ Hnone key Hkey.
  apply list_elem_of_In in Hkey. cbn [In] in Hkey.
  destruct Hkey as [<- | [<- | [<- | [<- | []]]]].
  - destruct (any_none_false_lookup _ "Direct Premiums Written" (m !! 1) Hnone) as [col Hcol].
    { do 3 (rewrite lookup_insert_ne by discriminate). apply lookup_insert_eq. }
    exists col. do 3 (rewrite lookup_insert_ne by discriminate). rewrite lookup_insert_eq.
    f_equal. exact Hcol.
  - destruct (any_none_false_lookup _ "Direct Premiums Earned" (m !! 2) Hnone) as [col Hcol].
    { do 2 (rewrite lookup_insert_ne by discriminate). apply lookup_insert_eq. }
    exists col. do 2 (rewrite lookup_insert_ne by discriminate). rewrite lookup_insert_eq.
    f_equal. exact Hcol.
  - destruct (any_none_false_lookup _ "Direct Losses Incurred" (m !! 6) Hnone) as [col Hcol].
    { rewrite lookup_insert_ne by discriminate. apply lookup_insert_eq. }
    exists col. rewrite lookup_insert_ne by discriminate. rewrite lookup_insert_eq.
    f_equal. exact Hcol.
  - destruct (any_none_false_lookup _ "Direct Defense and Cost Containment Expense Incurred"
                (m !! 9) Hnone) as [col Hcol].
    { apply lookup_insert_eq. }
    exists col. rewrite lookup_insert_eq. f_equal. exact Hcol.
Qed.

Lemma process_page19_body_detail `{Builtins} (worksheet : Worksheet) (recs : list dict) :
  process_page19_body worksheet = Ok recs ->
  recs = [] \/
  exists hm meta,
    premium_meta_of (Rows worksheet) meta
    /\ find_page19_header_map (Rows worksheet) = Ok hm
    /\ hm <> ∅ /\ any_none hm = false
    /\ page19_loop (Rows worksheet) hm meta 0 (Rows worksheet) [] = Ok recs.
Proof.
  unfold process_page19_body, premium_meta_of.
  destruct (Rows worksheet) as [|first others] eqn:Erows.
  { intros [= <-]. left. reflexivity. }
  destruct (get_cell_data first (Some 2)) as [[hs|]|] eqn:Ehs; cbn [mbind result_bind];
    [| intros [= <-]; left; reflexivity | discriminate].
  destruct (Str.truthy hs); cbn [negb]; [|intros [= <-]; left; reflexivity].
  destruct (Header.search hs) as [groups|] eqn:Egroups; [|intros [= <-]; left; reflexivity].
  destruct (header_fields groups) as [[[year company] naic]|] eqn:Efields; [|discriminate].
  cbn [mbind result_bind].
  destruct (state_rows _ _) as [state|] eqn:Estate; [|discriminate]. cbn [mbind result_bind].
  destruct (find_page19_header_map (first :: others)) as [hm|] eqn:Ehm; [|discriminate].
  cbn [mbind result_bind].
  destruct (bool_decide (hm = ∅)) eqn:Eempty; [intros [= <-]; left; reflexivity|].
  destruct (any_none hm) eqn:Enone; [intros [= <-]; left; reflexivity|].
  cbn [orb]. intros Hloop. right.
  exists hm, {| p19_year := year; p19_company_name := company;
                p19_naic := naic; p19_state := state |}.
  split; [exists first, hs, groups; auto|].
  apply bool_decide_eq_false in Eempty. auto.
Qed.

(** ** Premium-exhibit extraction, from the worksheet to its records *)

Lemma any_none_false (hm : gmap string (option Z)) :
  (forall k v, hm !! k = Some v -> is_Some v) -> any_none hm = false.
Proof.
  intros Hall. unfold any_none. apply not_true_iff_false.
  intros ([k v] & Hin & Hv)%existsb_exists.
  apply list_elem_of_In, elem_of_map_to_list in Hin.
  destruct (Hall k v Hin) as [z ->]. discriminate Hv.
Qed.

Lemma binds_page19_columns_nonempty (hm : gmap string (option Z)) :
  binds_page19_columns hm -> hm <> ∅.
Proof.
  intros Hbinds ->. destruct (Hbinds "Direct Premiums Written") as [col Hcol].
  - apply list_elem_of_In. left. reflexivity.
  - rewrite lookup_empty in Hcol. discriminate Hcol.
Qed.

Lemma binds_page19_columns_keys (hm : gmap string (option Z)) :
  binds_page19_columns hm -> has_page19_keys hm.
Proof.
  intros Hbinds. unfold has_page19_keys.
  destruct (Hbinds "Direct Premiums Written") as [c1 ->];
    [apply list_elem_of_In; left; reflexivity|].
  destruct (Hbinds "Direct Premiums Earned") as [c2 ->];
    [apply list_elem_of_In; right; left; reflexivity|].
  destruct (Hbinds "Direct Losses Incurred") as [c3 ->];
    [apply list_elem_of_In; right; right; left; reflexivity|].
  destruct (Hbinds "Direct Defense and Cost Containment Expense Incurred") as [c4 ->];
    [apply list_elem_of_In; right; right; right; left; reflexivity|].
  repeat split; eauto.
Qed.

Lemma find_page19_header_map_bound (rows : list Row) (hm : gmap string (option Z)) :
  find_page19_header_map rows = Ok hm -> binds_page19_columns hm -> any_none hm = false.
Proof.
  intros Hhm Hbinds. apply any_none_false. intros k v Hk.
  assert (Hkey : k ∈ [ "Direct Premiums Written"; "Direct Premiums Earned";
                       "Direct Losses Incurred";
                       "Direct Defense and Cost Containment Expense Incurred" ]).
  { unfold find_page19_header_map in Hhm.
    destruct (find_number_row (take 10 rows)) as [m|]; [|discriminate Hhm].
    cbn [mbind result_bind] in Hhm.
    destruct (bool_decide (m = ∅)); injection Hhm as <-;
      [rewrite lookup_empty in Hk; discriminate Hk|].
    apply list_elem_of_In.
    apply lookup_insert_Some in Hk as [[<- _] | [_ Hk]]; [right; right; right; left; reflexivity|].
    apply lookup_insert_Some in Hk as [[<- _] | [_ Hk]]; [right; right; left; reflexivity|].
    apply lookup_insert_Some in Hk as [[<- _] | [_ Hk]]; [right; left; reflexivity|].
    apply lookup_insert_Some in Hk as [[<- _] | [_ Hk]]; [left; reflexivity|].
    rewrite lookup_empty in Hk. discriminate Hk. }
  destruct (Hbinds k Hkey) as [col Hcol]. rewrite Hcol in Hk. injection Hk as <-. eauto.
Qed.

Lemma process_page19_worksheet_ok `{Builtins} (worksheet : Worksheet)
    (hm : gmap string (option Z)) (meta : Page19Meta) :
  Forall well_indexed (Rows worksheet) ->
  premium_meta_of (Rows worksheet) meta ->
  find_page19_header_map (Rows worksheet) = Ok hm ->
  binds_page19_columns hm ->
  (forall r row liab, Rows worksheet !! r = Some row -> row_lob row = Some ("19.3", liab) ->
     is_Some (Rows worksheet !! S r)) ->
  process_page19_worksheet worksheet = Ok (expected_records (Rows worksheet) hm meta).
Proof.
  intros Hwf (first & hs & groups & Hfirst & Hhs & Hsearch & Hfields & Hstate) Hhm Hbinds Hlag.
  pose proof (find_page19_header_map_bound _ hm Hhm Hbinds) as Hnone.
  pose proof (binds_page19_columns_nonempty hm Hbinds) as Hne.
  pose proof (binds_page19_columns_keys hm Hbinds) as Hkeys.
  assert (Hloop : page19_loop (Rows worksheet) hm meta 0 (Rows worksheet) []
                  = Ok (expected_records (Rows worksheet) hm meta)).
  { rewrite page19_loop_ok by (try assumption; intros k row liab; apply Hlag). reflexivity. }
  unfold process_page19_worksheet, try_except, process_page19_body. cbv zeta.
  destruct (Rows worksheet) as [|first' others] eqn:Erows; [discriminate Hfirst|].
  injection Hfirst as ->. rewrite Hhs. cbn [mbind result_bind].
  destruct hs as [|c hs]; [vm_compute in Hsearch; discriminate Hsearch|].
  cbn [Str.truthy negb]. rewrite Hsearch, Hfields. cbn [mbind result_bind].
  rewrite Hstate. cbn [mbind result_bind]. rewrite Hhm. cbn [mbind result_bind].
  rewrite (bool_decide_eq_false_2 _ Hne), Hnone. cbn [orb].
  destruct meta as [year company naic state]. cbn [p19_year p19_company_name p19_naic p19_state].
  rewrite Hloop. reflexivity.
Qed.

(** C2.  In premium-exhibit extraction a row whose column-2 value rounds
    to 19.3 yields a record whose numeric fields are read from the next
    row, and a row with 19.4 or 21.2 yields one whose numeric fields are
    read from the row itself.  The loop returns exactly these records, in
    row order, and it does return them whenever the index attributes are
    integer literals, the header map has its four entries and every 19.3
    row has a successor.  So does the extraction of the worksheet: when
    the header line matches, the header map binds the four fields and
    every 19.3 row has a successor, [process_page19_worksheet] returns
    these records, built with the year, company, NAIC code and state of
    the worksheet; and whatever it returns is either empty or this list. *)
Theorem page19_one_row_lag `{Builtins} (all_rows : list Row) (hm : gmap string (option Z))
    (meta : Page19Meta) :
  (forall recs, page19_loop all_rows hm meta 0 all_rows [] = Ok recs ->
     recs = expected_records all_rows hm meta)
  /\ (Forall well_indexed all_rows ->
      has_page19_keys hm ->
      (forall r row liab, all_rows !! r = Some row -> row_lob row = Some ("19.3", liab) ->
         is_Some (all_rows !! S r)) ->
      page19_loop all_rows hm meta 0 all_rows [] = Ok (expected_records all_rows hm meta))
  /\ (forall row code liab, row_lob row = Some (code, liab) <->
        exists y, rounded_code row = Some y
          /\ ((PrimFloat.eqb y 19.3%float = true /\ code = "19.3" /\ liab = "AL")
              \/ (PrimFloat.eqb y 19.3%float = false /\ PrimFloat.eqb y 19.4%float = true
                  /\ code = "19.4" /\ liab = "AL")
              \/ (PrimFloat.eqb y 19.3%float = false /\ PrimFloat.eqb y 19.4%float = false
                  /\ PrimFloat.eqb y 21.2%float = true /\ code = "21.2" /\ liab = "APD")))
  /\ (forall r row next liab,
        all_rows !! r = Some row -> row_lob row = Some ("19.3", liab) ->
        all_rows !! S r = Some next ->
        exists rec, rec ∈ expected_records all_rows hm meta
          /\ dict_get "LOB" rec = Some (VStr "19.3")
          /\ numeric_fields rec = numeric_fields_of_row hm next)
  /\ (forall r row code liab,
        all_rows !! r = Some row -> row_lob row = Some (code, liab) ->
        code = "19.4" \/ code = "21.2" ->
        exists rec, rec ∈ expected_records all_rows hm meta
          /\ dict_get "LOB" rec = Some (VStr code)
          /\ numeric_fields rec = numeric_fields_of_row hm row)
  /\ (forall rec, rec ∈ expected_records all_rows hm meta ->
        exists r row code liab d,
          all_rows !! r = Some row /\ row_lob row = Some (code, liab)
          /\ (code = "19.3" /\ all_rows !! S r = Some d \/ code <> "19.3" /\ d = row)
          /\ dict_get "LOB" rec = Some (VStr code)
          /\ numeric_fields rec = numeric_fields_of_row hm d)
  /\ (forall worksheet recs,
        Rows worksheet = all_rows ->
        process_page19_worksheet worksheet = Ok recs ->
        recs = [] \/
        exists hm' meta',
          premium_meta_of all_rows meta'
          /\ find_page19_header_map all_rows = Ok hm'
          /\ binds_page19_columns hm'
          /\ recs = expected_records all_rows hm' meta')
  /\ (forall worksheet,
        Rows worksheet = all_rows ->
        Forall well_indexed all_rows ->
        premium_meta_of all_rows meta ->
        find_page19_header_map all_rows = Ok hm ->
        binds_page19_columns hm ->
        (forall r row liab, all_rows !! r = Some row -> row_lob row = Some ("19.3", liab) ->
           is_Some (all_rows !! S r)) ->
        process_page19_worksheet worksheet = Ok (expected_records all_rows hm meta)
        /\ (forall r row next liab,
              all_rows !! r = Some row -> row_lob row = Some ("19.3", liab) ->
              all_rows !! S r = Some next ->
              exists recs rec,
                process_page19_worksheet worksheet = Ok recs /\ rec ∈ recs
                /\ dict_get "LOB" rec = Some (VStr "19.3")
                /\ numeric_fields rec = numeric_fields_of_row hm next)
        /\ (forall r row code liab,
              all_rows !! r = Some row -> row_lob row = Some (code, liab) ->
              code = "19.4" \/ code = "21.2" ->
              exists recs rec,
                process_page19_worksheet worksheet = Ok recs /\ rec ∈ recs
                /\ dict_get "LOB" rec = Some (VStr code)
                /\ numeric_fields rec = numeric_fields_of_row hm row)).
Proof.
  assert (Hnext : forall r row next liab,
            all_rows !! r = Some row -> row_lob row = Some ("19.3", liab) ->
            all_rows !! S r = Some next ->
            exists rec, rec ∈ expected_records all_rows hm meta
              /\ dict_get "LOB" rec = Some (VStr "19.3")
              /\ numeric_fields rec = numeric_fields_of_row hm next).
  { intros r row next liab Hrow Hlob Hnext.
    exists (record_from hm meta liab "19.3" next). split; [|split; reflexivity].
    apply elem_of_expected_records. exists r, row, "19.3", liab, next.
    repeat split; assumption. }
  assert (Hsame : forall r row code liab,
            all_rows !! r = Some row -> row_lob row = Some (code, liab) ->
            code = "19.4" \/ code = "21.2" ->
            exists rec, rec ∈ expected_records all_rows hm meta
              /\ dict_get "LOB" rec = Some (VStr code)
              /\ numeric_fields rec = numeric_fields_of_row hm row).
  { intros r row code liab Hrow Hlob Hcode.
    exists (record_from hm meta liab code row). split; [|split; reflexivity].
    apply elem_of_expected_records. exists r, row, code, liab, row.
    repeat split; try assumption. unfold lagged_row.
    destruct Hcode as [-> | ->]; reflexivity. }
  split; [|split; [|split; [|split; [|split; [|split; [|split]]]]]].
  - intros recs Hloop. apply page19_loop_inv in Hloop. cbn in Hloop. exact Hloop.
  - intros Hwf Hkeys Hlag.
    rewrite page19_loop_ok by (try assumption; intros k row liab; apply Hlag).
    reflexivity.
  - apply row_lob_rounded.
  - exact Hnext.
  - exact Hsame.
  - intros rec Hrec. apply elem_of_expected_records in Hrec
      as (r & row & code & liab & d & Hrow & Hlob & Hd & ->).
    exists r, row, code, liab, d. repeat split; try assumption.
    unfold lagged_row in Hd. destruct (String.eqb_spec code "19.3") as [-> | Hne].
    + left. auto.
    + right. split; [exact Hne | congruence].
  - intros worksheet recs <-. unfold process_page19_worksheet, try_except.
    destruct (process_page19_body worksheet) as [recs'|] eqn:E;
      [|intros [= <-]; left; reflexivity].
    intros [= ->].
    apply process_page19_body_detail in E
      as [-> | (hm' & meta' & Hmeta & Hhm & Hne & Hnone & Hloop)]; [left; reflexivity|].
    right. exists hm', meta'. split; [exact Hmeta|]. split; [exact Hhm|].
    split; [exact (find_page19_header_map_keys _ hm' Hhm Hne Hnone)|].
    apply page19_loop_inv in Hloop. exact Hloop.
  - intros worksheet <- Hwf Hmeta Hhm Hbinds Hlag.
    pose proof (process_page19_worksheet_ok worksheet hm meta Hwf Hmeta Hhm Hbinds Hlag) as Hrun.
    split; [exact Hrun|]. split.
    + intros r row next liab Hrow Hlob Hsucc.
      destruct (Hnext r row next liab Hrow Hlob Hsucc) as (rec & Hrec & Hfields).
      exists (expected_records (Rows worksheet) hm meta), rec. auto.
    + intros r row code liab Hrow Hlob Hcode.
      destruct (Hsame r row code liab Hrow Hlob Hcode) as (rec & Hrec & Hfields).
      exists (expected_records (Rows worksheet) hm meta), rec. auto.
Qed.

Lemma page19_one_row_lag_witness :
  @page19_loop ref_builtins rows_premium hm_premium meta_premium 0 rows_premium []
  = Ok (@expected_records ref_builtins rows_premium hm_premium meta_premium)
  /\ @numeric_fields_of_row ref_builtins hm_premium
       [ text_cell_at "8" "2,500"; text_cell "2,400"; text_cell_at "13" "10";
         text_cell_at "16" "1.5" ]
     = [ Some (VFloat 2500); Some (VFloat 2400); Some (VFloat 10); Some (VFloat 1.5) ]
  /\ (exists rec,
        rec ∈ @expected_records ref_builtins rows_premium hm_premium meta_premium
        /\ dict_get "LOB" rec = Some (VStr "19.3")
        /\ numeric_fields rec =
           @numeric_fields_of_row ref_builtins hm_premium
             [ text_cell_at "8" "2,500"; text_cell "2,400"; text_cell_at "13" "10";
               text_cell_at "16" "1.5" ])
  /\ @process_page19_worksheet ref_builtins ws_premium
     = Ok (@expected_records ref_builtins rows_premium hm_premium meta_premium)
  /\ (exists recs rec,
        @process_page19_worksheet ref_builtins ws_premium = Ok recs /\ rec ∈ recs
        /\ dict_get "LOB" rec = Some (VStr "19.3")
        /\ numeric_fields rec =
           @numeric_fields_of_row ref_builtins hm_premium
             [ text_cell_at "8" "2,500"; text_cell "2,400"; text_cell_at "13" "10";
               text_cell_at "16" "1.5" ])
  /\ (exists recs rec,
        @process_page19_worksheet ref_builtins ws_premium = Ok recs /\ rec ∈ recs
        /\ dict_get "LOB" rec = Some (VStr "21.2")
        /\ numeric_fields rec =
           @numeric_fields_of_row ref_builtins hm_premium
             [ text_cell_at "2" "21.2"; text_cell_at "8" "1,000.00"; text_cell "900";
               text_cell_at "13" "(50)"; text_cell_at "16" "XXX" ]).
Proof.
  pose proof (@page19_one_row_lag ref_builtins rows_premium hm_premium meta_premium)
    as (_ & Hok & _ & Hlag & _ & _ & _ & Hrun).
  assert (Hwf : Forall well_indexed rows_premium) by (repeat constructor; discriminate).
  assert (Hsucc : forall r row liab, rows_premium !! r = Some row ->
            @row_lob ref_builtins row = Some ("19.3", liab) -> is_Some (rows_premium !! S r)).
  { intros r row liab Hr Hl.
    destruct r as [|[|[|[|[|[|[|r]]]]]]]; try (eexists; reflexivity).
    - injection Hr as <-. vm_compute in Hl. discriminate.
    - discriminate Hr. }
  destruct (Hrun ws_premium eq_refl Hwf) as (Hws & Hws_next & Hws_same).
  { eexists _, _, _. repeat split; vm_compute; reflexivity. }
  { vm_compute. reflexivity. }
  { intros key Hkey. apply list_elem_of_In in Hkey. cbn [In] in Hkey.
    destruct Hkey as [<- | [<- | [<- | [<- | []]]]]; eexists; vm_compute; reflexivity. }
  { exact Hsucc. }
  split; [|split; [|split; [|split; [|split]]]].
  - apply Hok; [exact Hwf | | exact Hsucc].
    repeat split; eexists; vm_compute; reflexivity.
  - vm_compute. reflexivity.
  - apply (Hlag 5%nat [ text_cell_at "2" "19.3"; text_cell_at "8" "7" ] _ "AL");
      [reflexivity | vm_compute; reflexivity | reflexivity].
  - exact Hws.
  - apply (Hws_next 5%nat [ text_cell_at "2" "19.3"; text_cell_at "8" "7" ] _ "AL");
      [reflexivity | vm_compute; reflexivity | reflexivity].
  - apply (Hws_same 4%nat _ "21.2" "APD");
      [reflexivity | vm_compute; reflexivity | right; reflexivity].
Defined.

(** X13.  The premium records of a worksheet, when there are any, are the
    row-by-row records built with the year, the company and the NAIC code
    of the header line in column 2 of the first row, with the state found
    in rows 0..4, and with a header map that binds each of the four
    numeric fields to a column. *)
Theorem premium_records_of_worksheet `{Builtins} (worksheet : Worksheet) (recs : list dict) :
  process_page19_worksheet worksheet = Ok recs ->
  recs = [] \/
  exists hm meta,
    premium_meta_of (Rows worksheet) meta
    /\ find_page19_header_map (Rows worksheet) = Ok hm
    /\ binds_page19_columns hm
    /\ recs = expected_records (Rows worksheet) hm meta.
Proof.
  unfold process_page19_worksheet, try_except.
  destruct (process_page19_body worksheet) as [recs'|] eqn:E;
    [|intros [= <-]; left; reflexivity].
  intros [= ->].
  apply process_page19_body_detail in E
    as [-> | (hm & meta & Hmeta & Hhm & Hne & Hnone & Hloop)]; [left; reflexivity|].
  right. exists hm, meta. split; [exact Hmeta|]. split; [exact Hhm|].
  split; [exact (find_page19_header_map_keys _ hm Hhm Hne Hnone)|].
  apply page19_loop_inv in Hloop. exact Hloop.
Qed.

Lemma premium_records_of_worksheet_witness :
  premium_sample_records = [] \/
  exists hm meta,
    premium_meta_of (Rows ws_premium) meta
    /\ find_page19_header_map (Rows ws_premium) = Ok hm
    /\ binds_page19_columns hm
    /\ premium_sample_records = @expected_records ref_builtins (Rows ws_premium) hm meta.
Proof.
  apply (@premium_records_of_worksheet ref_builtins ws_premium premium_sample_records).
  vm_compute. reflexivity.
Defined.

(** ** A schedule column at index 0 *)

Lemma all_values_lookup (hm : gmap string (option Z)) (k : string) (v : option Z) :
  hm !! k = Some v -> int_truthy v = false -> all_values hm = false.
Proof.
  intros Hk Hv. unfold all_values. apply not_true_is_false. intros Hall.
  rewrite forallb_forall in Hall. specialize (Hall (k, v)).
  cbn in Hall. rewrite Hv in Hall. enough (false = true) by discriminate.
  apply Hall. apply list_elem_of_In, elem_of_map_to_list. exact Hk.
Qed.

Lemma schedule_columns_cases (rows : list Row) :
  schedule_columns rows = ∅
  \/ exists ep claims losses,
       first_in_rows "1" rows = Some ep
       /\ first_in_rows "25" rows = Some claims
       /\ first_in_rows "26" rows = Some losses
       /\ schedule_columns rows
          = <["CLAIMS" := Some claims]> (<["LOSSES_INC" := Some losses]> (<["EP" := Some ep]> ∅)).
Proof.
  unfold schedule_columns.
  destruct (first_in_rows "1" rows) as [ep|]; [|left; reflexivity].
  destruct (first_in_rows "25" rows) as [claims|]; [|left; reflexivity].
  destruct (first_in_rows "26" rows) as [losses|]; [|left; reflexivity].
  right. exists ep, claims, losses. auto.
Qed.

(** X14.  The guard on the schedule column map takes a column index of 0
    for a missing column: when the first occurrence of one of the tokens
    1, 25 and 26 within the first 50 rows resolves to column 0, the
    worksheet yields no record. *)
Theorem schedule_column_zero `{Builtins} (worksheet : Worksheet) (lob token : string) :
  token ∈ targets_to_find ->
  first_in_rows token (take 50 (Rows worksheet)) = Some 0 ->
  process_schedule_p_worksheet worksheet lob = Ok [].
Proof.
  intros Htoken Hzero. unfold process_schedule_p_worksheet, try_except.
  destruct (process_schedule_p_body worksheet lob) as [recs|] eqn:E; [|reflexivity].
  apply process_schedule_p_body_detail in E
    as [-> | (hm & meta & p0 & p1 & p2 & rest & _ & Hhm & Hall & _ & Hloop)]; [reflexivity|].
  apply find_schedule_p_headers_first in Hhm.
  destruct (schedule_columns_cases (take 50 (Rows worksheet)))
    as [Hempty | (ep & claims & losses & E1 & E25 & E26 & Hcols)].
  - rewrite Hempty in Hhm. subst hm. apply sched_loop_no_columns in Hloop. subst recs.
    reflexivity.
  - rewrite Hcols in Hhm. exfalso.
    assert (Hcases : token = "1" \/ token = "25" \/ token = "26").
    { unfold targets_to_find in Htoken.
      apply elem_of_union in Htoken as [Htoken | Htoken%elem_of_singleton]; [|auto].
      apply elem_of_union in Htoken as [Htoken%elem_of_singleton | Htoken%elem_of_singleton];
        auto. }
    destruct Hcases as [-> | [-> | ->]].
    + assert (ep = 0) as -> by congruence.
      rewrite (all_values_lookup hm "EP" (Some 0)) in Hall; [discriminate | | reflexivity].
      subst hm. do 2 (rewrite lookup_insert_ne by discriminate). apply lookup_insert_eq.
    + assert (claims = 0) as -> by congruence.
      rewrite (all_values_lookup hm "CLAIMS" (Some 0)) in Hall; [discriminate | | reflexivity].
      subst hm. apply lookup_insert_eq.
    + assert (losses = 0) as -> by congruence.
      rewrite (all_values_lookup hm "LOSSES_INC" (Some 0)) in Hall;
        [discriminate | | reflexivity].
      subst hm. rewrite lookup_insert_ne by discriminate. apply lookup_insert_eq.
Qed.

Lemma schedule_column_zero_witness :
  @process_schedule_p_worksheet ref_builtins ws_schedule_column_zero "AL" = Ok [].
Proof.
  apply (@schedule_column_zero ref_builtins ws_schedule_column_zero "AL" "25").
  - unfold targets_to_find. set_solver.
  - vm_compute. reflexivity.
Defined.

(** ** The stand-alone identification check against the parser *)

(** X15.  The stand-alone check of [SchedP_LOB_Test.py] and the parser's
    identification differ on short worksheets only: with fewer than three
    rows the check reports the worksheet as skipped while the parser goes
    by the worksheet name alone; with three rows or more the check reports
    a worksheet as processed with a line of business exactly when the
    parser identifies that line of business and it is AL or APD, and
    reports a summary only when the parser identifies a summary. *)
Theorem test_check_against_parser (worksheet : Worksheet) (name : string) :
  Name worksheet = Some name ->
  (forall row, Rows worksheet !! 2%nat = Some row -> well_indexed row) ->
  ((length (Rows worksheet) < 3)%nat ->
   test_schedule_p_lob_identification worksheet = Ok TooFewRows
   /\ identify_sched_p_lob worksheet (Rows worksheet) = lob_from_name worksheet)
  /\ ((3 <= length (Rows worksheet))%nat ->
      exists verdict,
        test_schedule_p_lob_identification worksheet = Ok verdict
        /\ verdict <> TooFewRows
        /\ (forall lob, verdict = Processed lob <->
              identify_sched_p_lob worksheet (Rows worksheet) = Ok (Some lob)
              /\ lob_is_al_or_apd (Some lob) = true)
        /\ (verdict = IsSummary ->
            identify_sched_p_lob worksheet (Rows worksheet) = Ok (Some "SUMMARY"))).
Proof.
  intros Hname Hwf. split.
  - intros Hlen. unfold test_schedule_p_lob_identification, identify_sched_p_lob, lob_from_header.
    cbv zeta.
    destruct (Nat.ltb_spec (length (Rows worksheet)) 3) as [_|?]; [|lia].
    destruct (Nat.leb_spec 3 (length (Rows worksheet))) as [?|_]; [lia|].
    split; reflexivity.
  - intros Hlen.
    unfold test_schedule_p_lob_identification, identify_sched_p_lob, lob_from_header,
      lob_from_name, list_item.
    rewrite Hname.
    destruct (Nat.ltb_spec (length (Rows worksheet)) 3) as [?|_]; [lia|].
    destruct (Nat.leb_spec 3 (length (Rows worksheet))) as [_|?]; [|lia].
    destruct (Rows worksheet !! 2%nat) as [row|] eqn:Erow;
      [|apply lookup_ge_None in Erow; lia].
    cbn [mbind result_bind].
    destruct (get_cell_data_ok row 1 (Hwf row eq_refl)) as [t ->]. cbn [mbind result_bind].
    destruct t as [t|]; [destruct (Str.truthy t)|]; cbv zeta;
      repeat (match goal with
              | |- context [Str.contains ?p ?s] => destruct (Str.contains p s)
              end; cbn [andb is_none mbind result_bind]);
      (eexists; split; [reflexivity|]; split; [discriminate|]; split;
       [intros lob; split;
        [intros [= <-]; split; reflexivity
        | intros [[= <-] Hl]; try reflexivity; discriminate Hl]
       | intros Hv; try reflexivity; discriminate Hv]).
Qed.

Lemma test_check_against_parser_witness :
  (test_schedule_p_lob_identification ws_two_rows = Ok TooFewRows
   /\ identify_sched_p_lob ws_two_rows (Rows ws_two_rows) = Ok (Some "AL"))
  /\ test_schedule_p_lob_identification ws_al_header = Ok (Processed "AL").
Proof.
  split.
  - refine (proj1 (test_check_against_parser ws_two_rows "Pg35 Comm'l Auto L" eq_refl _) _).
    + intros row Hrow. discriminate Hrow.
    + cbn. lia.
  - destruct (test_check_against_parser ws_al_header "Pg35 Auto Phys" eq_refl) as (_ & Hlong).
    + intros row Hrow. injection Hrow as <-. repeat constructor; discriminate.
    + destruct Hlong as (verdict & -> & _ & Hlob & _); [cbn; lia|].
      f_equal. apply Hlob. split; reflexivity.
Defined.

(** ** Reading a header line back *)

Lemma append_cons (a : ascii) (s t : string) : String a s +:+ t = String a (s +:+ t).
Proof. reflexivity. Qed.

Lemma substring_all (s : string) : String.substring 0 (String.length s) s = s.
Proof. induction s as [|a s IH]; [reflexivity|]. cbn. rewrite IH. reflexivity. Qed.

Lemma substring_prefix (s x : string) : String.substring 0 (String.length s) (s +:+ x) = s.
Proof.
  induction s as [|a s IH]; [destruct x; reflexivity|].
  rewrite append_cons. cbn. rewrite IH. reflexivity.
Qed.

Lemma substring_zero (k : nat) (s : string) : String.substring k 0 s = "".
Proof.
  revert k. induction s as [|a s IH]; intros [|k]; try reflexivity. cbn. apply IH.
Qed.

Lemma substring_drop (p x : string) :
  String.substring (String.length p) (String.length (p +:+ x) - String.length p) (p +:+ x) = x.
Proof.
  induction p as [|a p IH].
  - change ("" +:+ x) with x. cbn [String.length]. rewrite Nat.sub_0_r. apply substring_all.
  - rewrite append_cons. cbn [String.length String.substring Nat.sub]. exact IH.
Qed.

Lemma prefix_app (p x : string) : String.prefix p (p +:+ x) = true.
Proof.
  induction p as [|a p IH]; [apply prefix_nil|].
  rewrite append_cons. cbn [String.prefix].
  destruct (ascii_dec a a) as [_|Hne]; [exact IH | contradiction].
Qed.

Lemma get_end (s x : string) (c : ascii) :
  String.get (String.length s) (s +:+ String c x) = Some c.
Proof. induction s as [|a s IH]; [reflexivity|]. rewrite append_cons. cbn. exact IH. Qed.

Lemma get_past (s : string) (c : ascii) :
  String.get (S (String.length s)) (s +:+ String c "") = None.
Proof. induction s as [|a s IH]; [reflexivity|]. rewrite append_cons. cbn. exact IH. Qed.

Lemma length_append_one (s : string) (c : ascii) :
  String.length (s +:+ String c "") = S (String.length s).
Proof. induction s as [|a s IH]; [reflexivity|]. rewrite append_cons. cbn. rewrite IH. reflexivity. Qed.

Lemma nonspace_run_closing (n : string) :
  Header.nonspace_run n = String.length n ->
  Header.nonspace_run (n +:+ ")") = S (String.length n).
Proof.
  induction n as [|a n IH]; [reflexivity|].
  rewrite append_cons. cbn [Header.nonspace_run String.length].
  destruct (Str.isspace a); [discriminate|]. intros [= Hn]. rewrite (IH Hn). reflexivity.
Qed.

Lemma naic_backtrack_exact (n : string) :
  n <> "" -> Header.naic_backtrack (S (String.length n)) (n +:+ ")") = Some n.
Proof.
  intros Hne.
  pose proof (get_past n ")"%char) as Hpast.
  pose proof (get_end n "" ")"%char) as Hend.
  pose proof (length_append_one n ")"%char) as Hlen.
  pose proof (substring_prefix n ")") as Hsub.
  remember (n +:+ ")") as r eqn:Er.
  remember (String.length n) as k eqn:Ek.
  destruct k as [|k]; [destruct n; [contradiction | discriminate]|].
  cbn [Header.naic_backtrack]. rewrite Hpast. cbn [andb].
  rewrite Hend, Hlen, Nat.sub_diag, substring_zero. cbn. f_equal. exact Hsub.
Qed.

Lemma naic_suffix_exact (n : string) :
  n <> "" -> Header.nonspace_run n = String.length n ->
  Header.naic_suffix ("(NAIC #" +:+ n +:+ ")") = Some n.
Proof.
  intros Hne Hrun. unfold Header.naic_suffix. rewrite prefix_app. cbv zeta.
  change 7%nat with (String.length "(NAIC #").
  rewrite substring_drop, (nonspace_run_closing n Hrun). apply naic_backtrack_exact, Hne.
Qed.

Lemma tail_match_naic (n : string) :
  n <> "" -> Header.nonspace_run n = String.length n ->
  Header.tail_match (" (NAIC #" +:+ n +:+ ")") = Some (Some n).
Proof.
  intros Hne Hrun.
  change (" (NAIC #" +:+ n +:+ ")") with (String " "%char ("(NAIC #" +:+ n +:+ ")")).
  cbn [Header.tail_match]. unfold Header.opt_naic_end at 1.
  rewrite (naic_suffix_exact n Hne Hrun). reflexivity.
Qed.

Lemma tail_match_cons (a : ascii) (t : string) :
  Header.tail_match (String a t)
  = if Ascii.eqb a " "%char
    then match Header.opt_naic_end t with
         | Some r => Some r
         | None => Header.opt_naic_end (String a t)
         end
    else Header.opt_naic_end (String a t).
Proof. destruct a as [[] [] [] [] [] [] [] []]; reflexivity. Qed.

Lemma opt_naic_end_plain (a : ascii) (t : string) :
  Ascii.eqb a "("%char = false -> Ascii.eqb a Header.newline = false ->
  Header.opt_naic_end (String a t) = None.
Proof.
  intros Hparen Hnl. unfold Header.opt_naic_end, Header.naic_suffix, Header.at_end.
  cbn [String.prefix String.eqb].
  destruct (ascii_dec "(" a) as [<-|_]; [rewrite Ascii.eqb_refl in Hparen; discriminate|].
  rewrite Hnl. reflexivity.
Qed.

Lemma plain_company_cons (a : ascii) (s : string) :
  plain_company (String a s) = true ->
  Ascii.eqb a "("%char = false /\ Ascii.eqb a Header.newline = false
  /\ plain_company s = true.
Proof.
  cbn [plain_company]. intros [[H1 H2]%andb_true_iff H3]%andb_true_iff.
  apply negb_true_iff in H1, H2. auto.
Qed.

Lemma lazy_company_eq (t acc : string) :
  Header.lazy_company t acc
  = match Header.tail_match t with
    | Some g3 => Some (Str.rev acc, g3)
    | None =>
        match t with
        | EmptyString => None
        | String c t' =>
            if Ascii.eqb c Header.newline then None
            else Header.lazy_company t' (String c acc)
        end
    end.
Proof. destruct t; reflexivity. Qed.

Lemma lazy_company_naic (c acc n : string) :
  plain_company c = true -> n <> "" -> Header.nonspace_run n = String.length n ->
  Header.lazy_company (c +:+ " (NAIC #" +:+ n +:+ ")") acc
  = Some (Str.rev (Str.rev_onto c acc), Some n).
Proof.
  intros Hplain Hne Hrun. revert acc Hplain. induction c as [|a c IH]; intros acc Hplain.
  - change ("" +:+ " (NAIC #" +:+ n +:+ ")") with (" (NAIC #" +:+ n +:+ ")").
    rewrite lazy_company_eq, (tail_match_naic n Hne Hrun). reflexivity.
  - apply plain_company_cons in Hplain as (Hparen & Hnl & Hplain).
    rewrite append_cons, lazy_company_eq, tail_match_cons.
    rewrite (opt_naic_end_plain a _ Hparen Hnl).
    assert (Hnext : Header.opt_naic_end (c +:+ " (NAIC #" +:+ n +:+ ")") = None).
    { destruct c as [|b c].
      - change ("" +:+ " (NAIC #" +:+ n +:+ ")")
          with (String " "%char ("(NAIC #" +:+ n +:+ ")")).
        apply opt_naic_end_plain; reflexivity.
      - apply plain_company_cons in Hplain as (Hb1 & Hb2 & _).
        rewrite append_cons. apply opt_naic_end_plain; assumption. }
    rewrite Hnext, Hnl. destruct (Ascii.eqb a " "); exact (IH (String a acc) Hplain).
Qed.

Lemma lazy_company_plain (c acc : string) :
  plain_company c = true -> ends_with_space c = false ->
  Header.lazy_company c acc = Some (Str.rev (Str.rev_onto c acc), None).
Proof.
  revert acc. induction c as [|a c IH]; intros acc Hplain Hend; [reflexivity|].
  apply plain_company_cons in Hplain as (Hparen & Hnl & Hplain).
  rewrite lazy_company_eq, tail_match_cons, (opt_naic_end_plain a _ Hparen Hnl).
  destruct c as [|b c].
  - cbn [ends_with_space] in Hend. rewrite Hend, Hnl. reflexivity.
  - pose proof (plain_company_cons b c Hplain) as (Hb1 & Hb2 & _).
    rewrite (opt_naic_end_plain b _ Hb1 Hb2), Hnl.
    destruct (Ascii.eqb a " "); exact (IH (String a acc) Hplain Hend).
Qed.

Lemma match_here_parts (s y rest : string) :
  String.substring 0 4 s = y ->
  String.length y = 4%nat -> Str.all_digits y = true ->
  String.substring 4 (String.length s - 4) s = " OF THE " +:+ rest ->
  String.substring 12 (String.length s - 12) s = rest ->
  Header.match_here s
  = match Header.lazy_company rest "" with
    | Some (company, naic) => Some (y, company, naic)
    | None => None
    end.
Proof.
  intros Hy Hlen Hd Hof Hrest. unfold Header.match_here. cbv zeta.
  rewrite Hy, Hlen, Hd, Hof, Hrest, prefix_app. reflexivity.
Qed.

Lemma match_here_year (y rest : string) :
  String.length y = 4%nat -> Str.all_digits y = true ->
  Header.match_here (y +:+ " OF THE " +:+ rest)
  = match Header.lazy_company rest "" with
    | Some (company, naic) => Some (y, company, naic)
    | None => None
    end.
Proof.
  intros Hlen Hd.
  destruct y as [|a [|b [|c [|d [|e y]]]]]; try discriminate Hlen.
  apply match_here_parts; [reflexivity | exact Hlen | exact Hd | |].
  - exact (substring_drop (String a (String b (String c (String d "")))) (" OF THE " +:+ rest)).
  - exact (substring_drop (String a (String b (String c (String d " OF THE ")))) rest).
Qed.

Lemma match_here_no_digit (a : ascii) (s : string) :
  Str.is_digit a = false -> Header.match_here (String a s) = None.
Proof.
  intros Ha. unfold Header.match_here. cbv zeta.
  cbn [String.substring Str.all_digits]. rewrite Ha. cbn [andb].
  rewrite andb_false_r. reflexivity.
Qed.

Lemma search_skip (p s : string) :
  no_digit p = true -> Header.search (p +:+ s) = Header.search s.
Proof.
  induction p as [|a p IH]; [reflexivity|].
  cbn [no_digit]. intros [Ha%negb_true_iff Hp]%andb_true_iff.
  rewrite append_cons. cbn [Header.search]. rewrite (match_here_no_digit a _ Ha). exact (IH Hp).
Qed.

Lemma search_here (s : string) (m : string * string * option string) :
  Header.match_here s = Some m -> Header.search s = Some m.
Proof. intros Hm. destruct s; cbn [Header.search]; rewrite Hm; reflexivity. Qed.

(** X16.  A header line reads back to its parts.  After an introduction
    without digits, a year of four digits, [ OF THE ] and a company text
    without opening parenthesis or newline, the pattern returns the year
    and the company unchanged: with the NAIC code when the line ends in
    the suffix [ (NAIC #code)] and the code is not empty and has no white
    space, and without a code when the line ends after a company text
    that does not end in a space. *)
Theorem header_round_trip (intro year company : string) :
  no_digit intro = true ->
  String.length year = 4%nat -> Str.all_digits year = true ->
  plain_company company = true ->
  (forall naic, naic <> "" -> Header.nonspace_run naic = String.length naic ->
     Header.search (header_line_naic intro year company naic)
     = Some (year, company, Some naic))
  /\ (ends_with_space company = false ->
      Header.search (header_line intro year company) = Some (year, company, None)).
Proof.
  intros Hintro Hlen Hd Hplain. split.
  - intros naic Hne Hrun. unfold header_line_naic.
    rewrite (search_skip intro _ Hintro). apply search_here.
    rewrite (match_here_year year _ Hlen Hd), (lazy_company_naic company "" naic Hplain Hne Hrun).
    change (Str.rev_onto company "") with (Str.rev company). rewrite rev_involutive. reflexivity.
  - intros Hend. unfold header_line.
    rewrite (search_skip intro _ Hintro). apply search_here.
    rewrite (match_here_year year _ Hlen Hd), (lazy_company_plain company "" Hplain Hend).
    change (Str.rev_onto company "") with (Str.rev company). rewrite rev_involutive. reflexivity.
Qed.

Lemma header_round_trip_witness :
  Header.search (header_line_naic "ANNUAL STATEMENT FOR THE YEAR " "2022" "ACME INSURANCE CO"
                   "12345")
  = Some ("2022", "ACME INSURANCE CO", Some "12345")
  /\ Header.search (header_line "ANNUAL STATEMENT FOR THE YEAR " "2022" "ACME INSURANCE CO")
     = Some ("2022", "ACME INSURANCE CO", None).
Proof.
  pose proof (header_round_trip "ANNUAL STATEMENT FOR THE YEAR " "2022" "ACME INSURANCE CO"
                eq_refl eq_refl eq_refl eq_refl) as [Hnaic Hplain].
  split.
  - apply Hnaic; [discriminate | reflexivity].
  - apply Hplain. reflexivity.
Defined.

(** ** Padding around a numeric token *)

(** X17.  The numeric normalizer does not see white space around its
    argument: a text and its trimmed form are normalized alike, so
    trimming the cell text beforehand, as the cell lookup does, changes
    nothing. *)
Theorem clean_numeric_trim_insensitive `{Builtins} (v : string) :
  clean_numeric (Some (Str.strip v)) = clean_numeric (Some v).
Proof. unfold clean_numeric. rewrite strip_idem. reflexivity. Qed.
